(** * LogiPack placement scoring: the three heuristic scorers

    A shallow embedding of the placement evaluation code of the repository:

    - [PythonBinPacker]  : the class of [python_packer_server.py];
    - [DeepPack3DModel]  : the JavaScript class emitted by [convert_model.py];
    - [model_server]     : the heuristic fallback of [model_server.py].

    Numbers.  The programs compute with IEEE doubles.  Here every number is
    a rational ([Q]): comparisons, sums, products and quotients are exact,
    rounding is not modelled.  The two transcendental library functions the
    code calls, [math.exp] and the square root inside [np.std], are
    parameters of the development.

    Exceptions.  Python code can raise; a Python-level function returns an
    [outcome]: a value, or an exception.  [try: ... except Exception] is
    [try_except].

    Recursion.  [_flood_fill] is recursive.  The structural argument of its
    model is the number of nested calls of [_flood_fill] that may still be
    opened; when none is left the call raises [RecursionError], as the
    interpreter does at its recursion limit.  Only these calls are counted.
    What an interpreter charges besides (the frame of the caller, a builtin
    call such as [abs], a comparison) comes on top and differs between
    interpreters: a number of frames that is too small here is too small
    for the interpreter, and a number that is enough here may have to be a
    few units larger there.  The statements about frames are therefore
    lower bounds, or say that enough frames give a result. *)

From Stdlib Require Import List Arith ZArith QArith Qabs Qminmax Bool Lia Lqa.
Import ListNotations.

(** ** Outcomes of a call *)

Inductive exn : Type :=
| IndexError      (* index out of bounds *)
| ValueError      (* numpy: shapes do not match, or reduction of an empty array *)
| TypeError       (* JavaScript: property of undefined *)
| RecursionError  (* no frame left *)
| NonFinite.      (* JavaScript: the value is an infinity, outside [Q] *)

Inductive outcome (A : Type) : Type :=
| Return (a : A)
| Raise (e : exn).

Arguments Return {A} a.
Arguments Raise {A} e.

Definition bind {A B : Type} (m : outcome A) (k : A -> outcome B) : outcome B :=
  match m with
  | Return a => k a
  | Raise e => Raise e
  end.

Notation "x <- m ;; k" := (bind m (fun x => k))
  (at level 61, m at next level, right associativity).
Notation "' p <- m ;; k" := (bind m (fun x => match x with p => k end))
  (at level 61, p pattern, m at next level, right associativity).

(** [try: body except Exception as e: handler] *)
Definition try_except {A : Type} (body : outcome A) (handler : exn -> outcome A)
  : outcome A :=
  match body with
  | Return a => Return a
  | Raise e => handler e
  end.

(** ** Loops *)

Inductive loop_ctl (S : Type) : Type :=
| Continue (s : S)
| Break (s : S).

Arguments Continue {S} s.
Arguments Break {S} s.

(** [for x in l: body], the body acting on the loop's state; [Break] leaves
    this loop (and only this one). *)
Fixpoint for_in {A S : Type} (l : list A) (body : A -> S -> outcome (loop_ctl S))
  (s : S) : outcome S :=
  match l with
  | [] => Return s
  | x :: l' =>
      r <- body x s ;;
      match r with
      | Continue s' => for_in l' body s'
      | Break s' => Return s'
      end
  end.

(** A loop whose body has no [break]. *)
Fixpoint for_each {A S : Type} (l : list A) (body : A -> S -> outcome S)
  (s : S) : outcome S :=
  match l with
  | [] => Return s
  | x :: l' => s' <- body x s ;; for_each l' body s'
  end.

(** [range(n)] *)
Definition range (n : nat) : list nat := seq 0 n.

(** ** Rational comparisons as booleans *)

Definition Qltb (x y : Q) : bool := (Qnum x * QDen y <? Qnum y * QDen x)%Z.
Definition Qgtb (x y : Q) : bool := Qltb y x.
Definition Qleb (x y : Q) : bool := Qle_bool x y.

(** Python's [min(a, b)] is [b] when [b < a] and [a] otherwise; [max(a, b)]
    is [b] when [b > a]. *)
Definition py_min (a b : Q) : Q := if Qltb b a then b else a.
Definition py_max (a b : Q) : Q := if Qgtb b a then b else a.

Definition Q_of_nat (n : nat) : Q := inject_Z (Z.of_nat n).

(** ** Arrays

    A two-dimensional array is the list of its rows. *)

Definition ndarray (A : Type) : Type := list (list A).

(** [l[i]] for [0 <= i] *)
Definition getitem {A : Type} (l : list A) (i : nat) : outcome A :=
  match nth_error l i with
  | Some x => Return x
  | None => Raise IndexError
  end.

(** [a[i, j]] *)
Definition getitem2 {A : Type} (a : ndarray A) (i j : nat) : outcome A :=
  row <- getitem a i ;; getitem row j.

Fixpoint upd {A : Type} (l : list A) (i : nat) (x : A) : list A :=
  match l, i with
  | [], _ => []
  | _ :: t, O => x :: t
  | h :: t, S i' => h :: upd t i' x
  end.

(** [a[i, j] = x] *)
Definition setitem2 {A : Type} (a : ndarray A) (i j : nat) (x : A)
  : outcome (ndarray A) :=
  match nth_error a i with
  | Some row =>
      if j <? length row then Return (upd a i (upd row j x))
      else Raise IndexError
  | None => Raise IndexError
  end.

(** Elementwise combination of two sequences of the same length; numpy
    raises [ValueError] when the shapes differ.  (numpy would stretch an
    axis of length one against a longer one; that is not modelled, the
    properties below are about equal shapes.) *)
Fixpoint zip_same {A B C : Type} (f : A -> B -> outcome C)
  (l1 : list A) (l2 : list B) : outcome (list C) :=
  match l1, l2 with
  | [], [] => Return []
  | x :: l1', y :: l2' =>
      c <- f x y ;;
      r <- zip_same f l1' l2' ;;
      Return (c :: r)
  | _, _ => Raise ValueError
  end.

Definition np_map2 {A B C : Type} (f : A -> B -> C) (a : ndarray A) (b : ndarray B)
  : outcome (ndarray C) :=
  zip_same (zip_same (fun x y => Return (f x y))) a b.

Definition np_map {A B : Type} (f : A -> B) (a : ndarray A) : ndarray B :=
  map (map f) a.

(** [a.flat]: the cells in row-major order *)
Definition flat {A : Type} (a : ndarray A) : list A := concat a.

Definition np_any (m : ndarray bool) : bool := existsb (fun b => b) (flat m).

Definition np_zeros_like {A : Type} (a : ndarray A) : ndarray bool :=
  np_map (fun _ => false) a.

(** [np.sum] of a boolean array: the number of [True] cells *)
Definition np_count (m : ndarray bool) : nat :=
  length (filter (fun b => b) (flat m)).

Definition Qsum (l : list Q) : Q := fold_right Qplus 0 l.

Definition np_sum (a : ndarray Q) : Q := Qsum (flat a).

Fixpoint list_max (x : Q) (l : list Q) : Q :=
  match l with
  | [] => x
  | y :: l' => list_max (if Qltb x y then y else x) l'
  end.

(** [np.max]: [ValueError] on an array without cells *)
Definition np_max (a : ndarray Q) : outcome Q :=
  match flat a with
  | [] => Raise ValueError
  | x :: l => Return (list_max x l)
  end.

Definition mean (l : list Q) : Q := Qsum l / Q_of_nat (length l).

(** [np.var] of a flat sequence: the mean of the squared deviations *)
Definition variance (l : list Q) : Q :=
  let m := mean l in
  mean (map (fun x => (x - m) * (x - m)) l).

Definition np_var (a : ndarray Q) : Q := variance (flat a).

(** [np.array(x)[0]]: the first item of a batch.  (For a batch whose items
    differ in shape numpy builds no numeric array; that is not modelled,
    see [array3] below.) *)
Definition item0 {A : Type} (batch : list A) : outcome A := getitem batch 0.

(** Integers: minimum and maximum of a non-empty sequence of indices. *)
Definition nat_min_list (x : nat) (l : list nat) : nat := fold_left Nat.min l x.
Definition nat_max_list (x : nat) (l : list nat) : nat := fold_left Nat.max l x.

(** The maximum of a non-empty list of areas: [max(flat_areas)],
    [Math.max(...flatAreas)] *)
Definition max_area_of (x : nat) (l : list nat) : nat := fold_left Nat.max l x.

(** [abs(ii - i) <= 1] on integers *)
Definition near (ii i : nat) : bool :=
  (Z.abs (Z.of_nat ii - Z.of_nat i) <=? 1)%Z.

(** [np.where(occupied)]: the row indices and the column indices of the
    [True] cells, in row-major order. *)
Definition np_where (m : ndarray bool) : list nat * list nat :=
  let cells :=
    concat (map (fun ir : nat * list bool =>
                   map (fun jb : nat * bool => (fst ir, fst jb))
                       (filter (fun jb : nat * bool => snd jb)
                               (combine (seq 0 (length (snd ir))) (snd ir))))
                (combine (seq 0 (length m)) m)) in
  (map fst cells, map snd cells).

(** [np.min] and [np.max] of an index array *)
Definition np_min_idx (l : list nat) : outcome nat :=
  match l with
  | [] => Raise ValueError
  | x :: l' => Return (nat_min_list x l')
  end.

Definition np_max_idx (l : list nat) : outcome nat :=
  match l with
  | [] => Raise ValueError
  | x :: l' => Return (nat_max_list x l')
  end.

(** [(max_i - min_i + 1) * (max_j - min_j + 1)] *)
Definition bbox_area (min_i max_i min_j max_j : nat) : Q :=
  inject_Z ((Z.of_nat max_i - Z.of_nat min_i + 1)
            * (Z.of_nat max_j - Z.of_nat min_j + 1)).

(** * [python_packer_server.py] *)

Module PythonBinPacker.

Record t : Type := { grid_size : nat }.

(** [__init__] *)
Definition __init__ : t := {| grid_size := 32 |}.

Section Methods.

(** [math.exp], the square root of [np.std], and the number of nested
    [_flood_fill] calls the interpreter's recursion limit leaves room for. *)
Variables (exp sqrt : Q -> Q) (recursion_limit : nat).
Variable self : t.

(** The test of the innermost loop of [_calculate_support_score]:
    [(ii != i or jj != j) and action_map[ii, jj] > action_map[i, j]] *)
Definition higher_elsewhere (action_map : ndarray Q) (i j ii jj : nat)
  : outcome bool :=
  if negb (ii =? i) || negb (jj =? j) then
    x <- getitem2 action_map ii jj ;;
    y <- getitem2 action_map i j ;;
    Return (Qgtb x y)
  else Return false.

(** The two loops over [ii], [jj] for one cell [(i, j)]: the inner one is
    left by [break], the outer one runs on. *)
Definition shadow_scan (action_map : ndarray Q) (i j : nat)
  (base_mask : ndarray bool) : outcome (ndarray bool) :=
  for_each (range (grid_size self)) (fun ii base_mask =>
    for_in (range (grid_size self)) (fun jj base_mask =>
      c <- higher_elsewhere action_map i j ii jj ;;
      if c then
        if near ii i && near jj j then
          base_mask <- setitem2 base_mask i j false ;;
          Return (Break base_mask)
        else Return (Continue base_mask)
      else Return (Continue base_mask)) base_mask) base_mask.

(** The loops that fill [base_mask]. *)
Definition base_mask_loop (height_map action_map : ndarray Q)
  (base_mask : ndarray bool) : outcome (ndarray bool) :=
  for_each (range (grid_size self)) (fun i base_mask =>
    for_each (range (grid_size self)) (fun j base_mask =>
      a <- getitem2 action_map i j ;;
      h <- getitem2 height_map i j ;;
      if Qgtb a h then
        base_mask <- setitem2 base_mask i j true ;;
        shadow_scan action_map i j base_mask
      else Return base_mask) base_mask) base_mask.

(** The [try] block of [_calculate_support_score]. *)
Definition _calculate_support_score_body (height_map action_map : ndarray Q)
  : outcome Q :=
  action_cells <- np_map2 Qgtb action_map height_map ;;
  if negb (np_any action_cells) then Return 1
  else
    base_mask <- base_mask_loop height_map action_map (np_zeros_like action_map) ;;
    let base_cells := np_count base_mask in
    if (base_cells =? 0)%nat then Return 0
    else
      close <- np_map2 (fun a h => Qltb (a - h) (1 # 10)) action_map height_map ;;
      supported_mask <- np_map2 andb base_mask close ;;
      let supported_cells := np_count supported_mask in
      let support_percentage := Q_of_nat supported_cells / Q_of_nat base_cells in
      if Qltb support_percentage (1 # 2)
      then Return ((1 # 10) * (support_percentage / (1 # 2)))
      else Return support_percentage.

Definition _calculate_support_score (height_map action_map : ndarray Q)
  : outcome Q :=
  try_except (_calculate_support_score_body height_map action_map)
    (fun _ => Return (1 # 2)).

Definition _calculate_compactness_body (action_map : ndarray Q) : outcome Q :=
  let occupied := np_map (fun x => Qgtb x 0) action_map in
  if negb (np_any occupied) then Return 0
  else
    let occupied_indices := np_where occupied in
    min_i <- np_min_idx (fst occupied_indices) ;;
    max_i <- np_max_idx (fst occupied_indices) ;;
    min_j <- np_min_idx (snd occupied_indices) ;;
    max_j <- np_max_idx (snd occupied_indices) ;;
    m <- np_max action_map ;;
    let bbox_volume := bbox_area min_i max_i min_j max_j * m in
    let occupied_volume := np_sum action_map in
    if Qgtb bbox_volume 0 then Return (occupied_volume / bbox_volume)
    else Return 0.

Definition _calculate_compactness (action_map : ndarray Q) : outcome Q :=
  try_except (_calculate_compactness_body action_map) (fun _ => Return (1 # 2)).

(** The guard of [_flood_fill]:
    [i < 0 or i >= grid_size or j < 0 or j >= grid_size or visited[i, j]
     or abs(height_map[i, j] - target_height) > tolerance] *)
Definition flood_stop (height_map : ndarray Q) (visited : ndarray bool)
  (i j : Z) (target_height tolerance : Q) : outcome bool :=
  let n := Z.of_nat (grid_size self) in
  if ((i <? 0) || (n <=? i) || (j <? 0) || (n <=? j))%Z then Return true
  else
    v <- getitem2 visited (Z.to_nat i) (Z.to_nat j) ;;
    if v then Return true
    else
      h <- getitem2 height_map (Z.to_nat i) (Z.to_nat j) ;;
      Return (Qgtb (Qabs (h - target_height)) tolerance).

(** [_flood_fill]; [visited] is mutated by the code, here it is returned
    with the area.  [frames] is the number of nested calls of [_flood_fill]
    that may still be opened, this one included. *)
Fixpoint _flood_fill (frames : nat) (height_map : ndarray Q)
  (visited : ndarray bool) (i j : Z) (target_height tolerance : Q)
  : outcome (ndarray bool * nat) :=
  match frames with
  | O => Raise RecursionError
  | S frames' =>
      stop <- flood_stop height_map visited i j target_height tolerance ;;
      if stop then Return (visited, 0%nat)
      else
        visited <- setitem2 visited (Z.to_nat i) (Z.to_nat j) true ;;
        let area := 1%nat in
        r <- _flood_fill frames' height_map visited (i + 1)%Z j target_height tolerance ;;
        let area := (area + snd r)%nat in
        r <- _flood_fill frames' height_map (fst r) (i - 1)%Z j target_height tolerance ;;
        let area := (area + snd r)%nat in
        r <- _flood_fill frames' height_map (fst r) i (j + 1)%Z target_height tolerance ;;
        let area := (area + snd r)%nat in
        r <- _flood_fill frames' height_map (fst r) i (j - 1)%Z target_height tolerance ;;
        let area := (area + snd r)%nat in
        Return (fst r, area)
  end.

(** One step of the scan of [_find_flat_areas], at cell [(i, j)]; the state
    is [visited] and [flat_areas]. *)
Definition flat_area_step (height_map : ndarray Q) (i j : nat)
  (st : ndarray bool * list nat) : outcome (ndarray bool * list nat) :=
  let visited := fst st in
  let flat_areas := snd st in
  h <- getitem2 height_map i j ;;
  c <- (if Qgtb h 0 then v <- getitem2 visited i j ;; Return (negb v)
        else Return false) ;;
  if c then
    height <- getitem2 height_map i j ;;
    r <- _flood_fill recursion_limit height_map visited
           (Z.of_nat i) (Z.of_nat j) height (1 # 10) ;;
    if (0 <? snd r)%nat then Return (fst r, flat_areas ++ [snd r])
    else Return (fst r, flat_areas)
  else Return (visited, flat_areas).

Definition flat_area_scan (height_map : ndarray Q)
  : outcome (ndarray bool * list nat) :=
  for_each (range (grid_size self)) (fun i st =>
    for_each (range (grid_size self)) (fun j st =>
      flat_area_step height_map i j st) st)
    (np_zeros_like height_map, []).

Definition _find_flat_areas (height_map : ndarray Q) : outcome (list nat) :=
  r <- flat_area_scan height_map ;; Return (snd r).

(** [np.std] *)
Definition np_std (l : list Q) : Q := sqrt (variance l).

(** [math.exp(-height_std)] of the positive cells *)
Definition flatness (non_zero_heights : list Q) : Q :=
  exp (- np_std non_zero_heights).

(** [[item[0] * item[1] * item[2] for item in item_features if sum(item) > 0]] *)
Fixpoint future_sizes (item_features : list (list Q)) : outcome (list Q) :=
  match item_features with
  | [] => Return []
  | item :: rest =>
      if Qgtb (Qsum item) 0 then
        x <- getitem item 0 ;;
        y <- getitem item 1 ;;
        z <- getitem item 2 ;;
        r <- future_sizes rest ;;
        Return (x * y * z :: r)
      else future_sizes rest
  end.

(** [max(0, 1 - min(1, abs(max(flat_areas) - avg) / avg))].  When [avg] is
    zero the quotient of the doubles is an infinity (the areas are at least
    one), and [min(1, inf)] is [1]. *)
Definition best_fit (flat_areas : list nat) (avg_future_size : Q) : Q :=
  match flat_areas with
  | [] => 0
  | x :: l =>
      let d := Qabs (Q_of_nat (max_area_of x l) - avg_future_size) in
      let r := if Qeq_bool avg_future_size 0 then 1
               else py_min 1 (d / avg_future_size) in
      py_max 0 (1 - r)
  end.

Definition _evaluate_future_items_body (action_map : ndarray Q)
  (item_features : list (list Q)) : outcome Q :=
  if (length item_features =? 0)%nat then Return 1
  else
    let non_zero_heights := filter (fun x => Qgtb x 0) (flat action_map) in
    if (length non_zero_heights =? 0)%nat then Return (1 # 2)
    else
      let flatness_score := flatness non_zero_heights in
      future_items_sizes <- future_sizes item_features ;;
      match future_items_sizes with
      | [] => Return flatness_score
      | _ =>
          let avg_future_size :=
            Qsum future_items_sizes / Q_of_nat (length future_items_sizes) in
          flat_areas <- _find_flat_areas action_map ;;
          let best_fit_score := best_fit flat_areas avg_future_size in
          Return ((7 # 10) * flatness_score + (3 # 10) * best_fit_score)
      end.

Definition _evaluate_future_items (action_map : ndarray Q)
  (item_features : list (list Q)) : outcome Q :=
  try_except (_evaluate_future_items_body action_map item_features)
    (fun _ => Return (1 # 2)).

(** The [try] block of [predict].  [const_in] is not used by the code. *)
Definition predict_body (const_in hmap_in amap_in : list (ndarray Q))
  (imap_in : list (list (list Q))) : outcome Q :=
  height_map <- item0 hmap_in ;;
  action_map <- item0 amap_in ;;
  item_features <- item0 imap_in ;;
  current_max_height <- np_max height_map ;;
  action_max_height <- np_max action_map ;;
  let height_utilization := py_min 1 action_max_height in
  let height_variance := np_var action_map / (1 # 4) in
  let height_variance_score := py_max 0 (1 - height_variance) in
  support_score <- _calculate_support_score height_map action_map ;;
  compactness_score <- _calculate_compactness action_map ;;
  future_items_score <- _evaluate_future_items action_map item_features ;;
  Return ((3 # 10) * height_utilization
          + (2 # 10) * height_variance_score
          + (3 # 10) * support_score
          + (1 # 10) * compactness_score
          + (1 # 10) * future_items_score).

Definition predict (const_in hmap_in amap_in : list (ndarray Q))
  (imap_in : list (list (list Q))) : outcome Q :=
  try_except (predict_body const_in hmap_in amap_in imap_in)
    (fun _ => Return 0).

End Methods.

End PythonBinPacker.

(** * The JavaScript class written out by [convert_model.py]

    Indexing an array out of range gives [undefined] ([None]); a property of
    [undefined] is a [TypeError]; a comparison with [undefined] is false. *)

Module DeepPack3DModel.

(** [a[i][j]] *)
Definition get2 {A : Type} (a : ndarray A) (i j : nat) : outcome (option A) :=
  match nth_error a i with
  | Some row => Return (nth_error row j)
  | None => Raise TypeError
  end.

(** [x > y] where either side may be [undefined] *)
Definition gt (x y : option Q) : bool :=
  match x, y with
  | Some x, Some y => Qgtb x y
  | _, _ => false
  end.

(** [a[i].length] *)
Definition row_length {A : Type} (a : ndarray A) (i : nat) : outcome nat :=
  match nth_error a i with
  | Some row => Return (length row)
  | None => Raise TypeError
  end.

(** [Math.max(...a.flat())]; of no argument it is [-Infinity]. *)
Definition max_flat (a : option (ndarray Q)) : outcome Q :=
  match a with
  | None => Raise TypeError
  | Some a =>
      match flat a with
      | [] => Raise NonFinite
      | x :: l => Return (list_max x l)
      end
  end.

Definition Math_min (a b : Q) : Q := if Qltb b a then b else a.
Definition Math_max (a b : Q) : Q := if Qltb a b then b else a.

(** The loops over [ii], [jj] of [calculateSupportScore] for the cell
    [(i, j)]; the state is [isBase].  Both loops are left once [isBase] is
    false. *)
Definition is_base_scan (actionMap : ndarray Q) (i j : nat) : outcome bool :=
  for_in (range (length actionMap)) (fun ii isBase =>
    n <- row_length actionMap ii ;;
    isBase <- for_in (range n) (fun jj isBase =>
      c <- (if negb (ii =? i) || negb (jj =? j) then
              x <- get2 actionMap ii jj ;;
              y <- get2 actionMap i j ;;
              Return (gt x y && near ii i && near jj j)
            else Return false) ;;
      if c then Return (Break false) else Return (Continue isBase)) isBase ;;
    if negb isBase then Return (Break isBase) else Return (Continue isBase)) true.

(** The loops over [i], [j]; the state is [(baseCells, supportedCells)]. *)
Definition support_count (heightMap actionMap : ndarray Q)
  : outcome (nat * nat) :=
  for_each (range (length heightMap)) (fun i st =>
    n <- row_length heightMap i ;;
    for_each (range n) (fun j st =>
      x <- get2 actionMap i j ;;
      y <- get2 heightMap i j ;;
      match x, y with
      | Some a, Some h =>
          if Qgtb a h then
            isBase <- is_base_scan actionMap i j ;;
            if isBase then
              let baseCells := S (fst st) in
              if Qltb (a - h) (1 # 10) then Return (baseCells, S (snd st))
              else Return (baseCells, snd st)
            else Return st
          else Return st
      | _, _ => Return st
      end) st) (0%nat, 0%nat).

Definition calculateSupportScore (heightMap actionMap : ndarray Q) : outcome Q :=
  st <- support_count heightMap actionMap ;;
  let baseCells := fst st in
  let supportedCells := snd st in
  if (baseCells =? 0)%nat then Return 0
  else
    let supportPercentage := Q_of_nat supportedCells / Q_of_nat baseCells in
    if Qltb supportPercentage (1 # 2)
    then Return ((1 # 10) * (supportPercentage / (1 # 2)))
    else Return supportPercentage.

(** The state of the loops of [calculateCompactness]. *)
Record bbox : Type := {
  minI : nat; maxI : nat; minJ : nat; maxJ : nat;
  occupiedVolume : Q; hasOccupied : bool
}.

Definition calculateCompactness (actionMap : ndarray Q) : outcome Q :=
  n0 <- row_length actionMap 0 ;;
  st <- for_each (range (length actionMap)) (fun i st =>
          n <- row_length actionMap i ;;
          for_each (range n) (fun j st =>
            x <- get2 actionMap i j ;;
            if gt x (Some 0) then
              Return {| minI := Nat.min (minI st) i; maxI := Nat.max (maxI st) i;
                        minJ := Nat.min (minJ st) j; maxJ := Nat.max (maxJ st) j;
                        occupiedVolume :=
                          occupiedVolume st + match x with Some v => v | None => 0 end;
                        hasOccupied := true |}
            else Return st) st)
          {| minI := length actionMap; maxI := 0; minJ := n0; maxJ := 0;
             occupiedVolume := 0; hasOccupied := false |} ;;
  if negb (hasOccupied st) then Return 0
  else
    m <- max_flat (Some actionMap) ;;
    let bboxVolume := bbox_area (minI st) (maxI st) (minJ st) (maxJ st) * m in
    if Qgtb bboxVolume 0 then Return (occupiedVolume st / bboxVolume)
    else Return 0.

Section Methods.

(** [Math.exp], [Math.sqrt], and the number of nested [floodFill] calls the
    stack of the engine leaves room for. *)
Variables (exp sqrt : Q -> Q) (stack_limit : nat).

(** [visited[i][j] = true]; a write past the end of a row lengthens the row
    (the cells between are [undefined], which is as false as [false]). *)
Definition mark (visited : ndarray bool) (i j : nat) : outcome (ndarray bool) :=
  match nth_error visited i with
  | Some row =>
      if j <? length row then Return (upd visited i (upd row j true))
      else Return (upd visited i (row ++ repeat false (j - length row) ++ [true]))
  | None => Raise TypeError
  end.

(** [!!visited[i][j]] *)
Definition seen (visited : ndarray bool) (i j : nat) : outcome bool :=
  c <- get2 visited i j ;;
  Return (match c with Some b => b | None => false end).

Definition fill_stop (heightMap : ndarray Q) (visited : ndarray bool)
  (i j : Z) (targetHeight tolerance : Q) : outcome bool :=
  if ((i <? 0) || (Z.of_nat (length heightMap) <=? i))%Z then Return true
  else
    n <- row_length heightMap (Z.to_nat i) ;;
    if ((j <? 0) || (Z.of_nat n <=? j))%Z then Return true
    else
      v <- seen visited (Z.to_nat i) (Z.to_nat j) ;;
      if v then Return true
      else
        h <- get2 heightMap (Z.to_nat i) (Z.to_nat j) ;;
        match h with
        | Some h => Return (Qgtb (Qabs (h - targetHeight)) tolerance)
        | None => Return false
        end.

Fixpoint floodFill (frames : nat) (heightMap : ndarray Q)
  (visited : ndarray bool) (i j : Z) (targetHeight tolerance : Q)
  : outcome (ndarray bool * nat) :=
  match frames with
  | O => Raise RecursionError
  | S frames' =>
      stop <- fill_stop heightMap visited i j targetHeight tolerance ;;
      if stop then Return (visited, 0%nat)
      else
        visited <- mark visited (Z.to_nat i) (Z.to_nat j) ;;
        let area := 1%nat in
        r <- floodFill frames' heightMap visited (i + 1)%Z j targetHeight tolerance ;;
        let area := (area + snd r)%nat in
        r <- floodFill frames' heightMap (fst r) (i - 1)%Z j targetHeight tolerance ;;
        let area := (area + snd r)%nat in
        r <- floodFill frames' heightMap (fst r) i (j + 1)%Z targetHeight tolerance ;;
        let area := (area + snd r)%nat in
        r <- floodFill frames' heightMap (fst r) i (j - 1)%Z targetHeight tolerance ;;
        let area := (area + snd r)%nat in
        Return (fst r, area)
  end.

(** [findFlatAreas]; the callback that builds a row of [visited] reads
    [heightMap[0].length] once per row, so never for a grid without rows. *)
Definition findFlatAreas (heightMap : ndarray Q) : outcome (list nat) :=
  n0 <- (if (length heightMap =? 0)%nat then Return 0%nat
         else row_length heightMap 0) ;;
  let visited := map (fun _ => repeat false n0) heightMap in
  r <- for_each (range (length heightMap)) (fun i st =>
         n <- row_length heightMap i ;;
         for_each (range n) (fun j (st : ndarray bool * list nat) =>
           let visited := fst st in
           let flatAreas := snd st in
           h <- get2 heightMap i j ;;
           c <- (if gt h (Some 0) then v <- seen visited i j ;; Return (negb v)
                 else Return false) ;;
           if c then
             let height := match h with Some v => v | None => 0 end in
             r <- floodFill stack_limit heightMap visited
                    (Z.of_nat i) (Z.of_nat j) height (1 # 10) ;;
             if (0 <? snd r)%nat then Return (fst r, flatAreas ++ [snd r])
             else Return (fst r, flatAreas)
           else Return st) st) (visited, []) ;;
  Return (snd r).

(** The items with [item[0] + item[1] + item[2] > 0]; a missing component
    makes the sum [NaN] and the test false. *)
Fixpoint futureItemsSizes (itemFeatures : list (list Q)) : list Q :=
  match itemFeatures with
  | [] => []
  | item :: rest =>
      match item with
      | x :: y :: z :: _ =>
          if Qgtb (x + y + z) 0 then x * y * z :: futureItemsSizes rest
          else futureItemsSizes rest
      | _ => futureItemsSizes rest
      end
  end.

Definition bestFit (flatAreas : list nat) (avgFutureSize : Q) : Q :=
  match flatAreas with
  | [] => 0
  | x :: l =>
      let d := Qabs (Q_of_nat (max_area_of x l) - avgFutureSize) in
      let r := if Qeq_bool avgFutureSize 0 then 1
               else Math_min 1 (d / avgFutureSize) in
      Math_max 0 (1 - r)
  end.

Definition evaluateFutureItems (actionMap : ndarray Q)
  (itemFeatures : option (list (list Q))) : outcome Q :=
  match itemFeatures with
  | None => Return 1
  | Some itemFeatures =>
      if (length itemFeatures =? 0)%nat then Return 1
      else
        let nonZeroHeights := filter (fun x => Qgtb x 0) (flat actionMap) in
        if (length nonZeroHeights =? 0)%nat then Return (1 # 2)
        else
          let heightStd := sqrt (variance nonZeroHeights) in
          let flatnessScore := exp (- heightStd) in
          let sizes := futureItemsSizes itemFeatures in
          if (length sizes =? 0)%nat then Return flatnessScore
          else
            let avgFutureSize := Qsum sizes / Q_of_nat (length sizes) in
            flatAreas <- findFlatAreas actionMap ;;
            let bestFitScore := bestFit flatAreas avgFutureSize in
            Return ((7 # 10) * flatnessScore + (3 # 10) * bestFitScore)
  end.

(** [calculateHeuristic]; [constIn] is not used by the code. *)
Definition calculateHeuristic (constIn hmapIn amapIn : list (ndarray Q))
  (imapIn : list (list (list Q))) : outcome Q :=
  let heightMap := nth_error hmapIn 0 in
  let actionMap := nth_error amapIn 0 in
  let itemFeatures := nth_error imapIn 0 in
  currentMaxHeight <- max_flat heightMap ;;
  actionMaxHeight <- max_flat actionMap ;;
  let heightUtilization := Math_min 1 actionMaxHeight in
  match heightMap, actionMap with
  | Some heightMap, Some actionMap =>
      supportScore <- calculateSupportScore heightMap actionMap ;;
      compactnessScore <- calculateCompactness actionMap ;;
      futureItemsScore <- evaluateFutureItems actionMap itemFeatures ;;
      Return ((3 # 10) * heightUtilization
              + (4 # 10) * supportScore
              + (2 # 10) * compactnessScore
              + (1 # 10) * futureItemsScore)
  | _, _ => Raise TypeError
  end.

End Methods.

End DeepPack3DModel.

(** * The heuristic fallback of [model_server.py]

    The part of [predict] after the model branch: it runs when no model is
    loaded or the model call failed.  An exception becomes the error
    response of the route. *)

Module model_server.

(** The support ratio of the fallback (its lines "2."). *)
Definition support_score (height_map action_map : ndarray Q) : outcome Q :=
  action_area <- np_map2 Qgtb action_map height_map ;;
  support_area <-
    np_map2 (fun a h => Qltb (Qabs (a - h)) (1 # 100)) action_map height_map ;;
  Return (Q_of_nat (np_count support_area)
          / (Q_of_nat (np_count action_area) + (1 # 1000000))).

(** The overlap ratio of the fallback (its lines "3."). *)
Definition compactness (height_map action_map : ndarray Q) : outcome Q :=
  let occupied_cells := np_map (fun x => Qgtb x 0) height_map in
  let action_cells := np_map (fun x => Qgtb x 0) action_map in
  both <- np_map2 andb occupied_cells action_cells ;;
  Return (Q_of_nat (np_count both)
          / (Q_of_nat (np_count action_cells) + (1 # 1000000))).

Definition heuristic (hmap_in amap_in : list (ndarray Q)) : outcome Q :=
  height_map <- item0 hmap_in ;;
  action_map <- item0 amap_in ;;
  current_max_height <- np_max height_map ;;
  action_max_height <- np_max action_map ;;
  let height_utilization := py_min 1 action_max_height in
  support_score <- support_score height_map action_map ;;
  compactness <- compactness height_map action_map ;;
  Return ((5 # 10) * height_utilization
          + (3 # 10) * support_score
          + (2 # 10) * compactness).

End model_server.

(** * Grids used in the statements *)

(** An [R] x [C] grid that is [v] on the rectangle of [hh] rows and [ww]
    columns whose first cell is [(r0, c0)], and zero elsewhere. *)
Definition in_rect (r0 c0 hh ww i j : nat) : bool :=
  (r0 <=? i) && (i <? r0 + hh) && (c0 <=? j) && (j <? c0 + ww).

Definition rect_map (R C r0 c0 hh ww : nat) (v : Q) : ndarray Q :=
  map (fun i => map (fun j => if in_rect r0 c0 hh ww i j then v else 0) (seq 0 C))
      (seq 0 R).

Definition zeros (n : nat) : ndarray Q := repeat (repeat 0 n) n.

(** The packer the server creates. *)
Definition packer : PythonBinPacker.t := PythonBinPacker.__init__.

(** A stack of height one on nine cells, and the empty container. *)
Definition stack_3x3 : ndarray Q := rect_map 32 32 4 5 3 3 1.
Definition empty_32 : ndarray Q := zeros 32.

(** [a[i][j] < h[i][j]] at the cell [(i, j)] *)
Definition lowered_at (h a : ndarray Q) (i j : nat) : Prop :=
  exists x y, getitem2 a i j = Return x /\ getitem2 h i j = Return y /\ x < y.

(** Equal shapes and [a[i][j] <= h[i][j]] at every cell. *)
Definition nowhere_raised (h a : ndarray Q) : Prop :=
  Forall2 (Forall2 Qle) a h.

(** The cells above zero, as [_evaluate_future_items] collects them. *)
Definition positive_cells (a : ndarray Q) : list Q :=
  filter (fun x => Qgtb x 0) (flat a).

(** A map with the two heights 1 and 2. *)
Definition two_heights : ndarray Q := [[1; 2]].

(** An item of the lookahead that both scorers skip: a triple whose sum is
    not above zero (the all-zero padding triple is one). *)
Definition skipped_item (item : list Q) : Prop :=
  exists x y z, item = [x; y; z] /\ x + y + z <= 0.

(** Well-shaped placements: square grids of side [n], no negative cell, the
    action map nowhere below the height map (the placement only adds
    material), the lookahead a list of triples without a negative
    component.  [well_shaped_input] below leaves the order between the two
    maps out. *)
Definition square {A : Type} (n : nat) (g : ndarray A) : Prop :=
  length g = n /\ Forall (fun row => length row = n) g.

Definition nonneg_grid (g : ndarray Q) : Prop :=
  forall x, In x (flat g) -> 0 <= x.

Definition nonneg_triples (L : list (list Q)) : Prop :=
  Forall (fun item => length item = 3%nat /\ Forall (Qle 0) item) L.

Definition well_shaped (n : nat) (h a : ndarray Q) (L : list (list Q)) : Prop :=
  square n h /\ square n a /\ nonneg_grid h /\ nonneg_grid a
  /\ Forall2 (Forall2 Qle) h a /\ nonneg_triples L.

(** The same, as a test that can be run. *)
Definition well_shapedb (n : nat) (h a : ndarray Q) (L : list (list Q)) : bool :=
  (length h =? n)%nat && forallb (fun row => (length row =? n)%nat) h
  && (length a =? n)%nat && forallb (fun row => (length row =? n)%nat) a
  && forallb (Qleb 0) (flat h) && forallb (Qleb 0) (flat a)
  && match np_map2 Qleb h a with
     | Return m => forallb (fun b => b) (flat m)
     | Raise _ => false
     end
  && forallb (fun item => (length item =? 3)%nat && forallb (Qleb 0) item) L.

(** The cell [(i, j)] of a grid, for indices in range. *)
Definition at2 {A : Type} (d : A) (g : ndarray A) (i j : nat) : A :=
  nth j (nth i g []) d.

Definition upd2 {A : Type} (g : ndarray A) (i j : nat) (x : A) : ndarray A :=
  upd g i (upd (nth i g []) j x).

(** The cell [(ii, jj)] is another cell than [(i, j)], at Chebyshev
    distance at most one, with a greater value in the action map. *)
Definition higher_neighbour (a : ndarray Q) (i j ii jj : nat) : bool :=
  (negb (ii =? i) || negb (jj =? j))
  && Qgtb (at2 0 a ii jj) (at2 0 a i j) && near ii i && near jj j.

(** Some cell of the [n] x [n] window is a higher neighbour of [(i, j)]. *)
Definition shadowedb (n : nat) (a : ndarray Q) (i j : nat) : bool :=
  existsb (fun ii => existsb (fun jj => higher_neighbour a i j ii jj) (range n))
          (range n).

(** Newly occupied and not shadowed: what the scorers count as a base cell. *)
Definition base_cell (n : nat) (h a : ndarray Q) (i j : nat) : bool :=
  Qgtb (at2 0 a i j) (at2 0 h i j) && negb (shadowedb n a i j).

(** The base cells as the specification words them: only a newly occupied
    neighbour can shadow a cell. *)
Definition shadowed_by_newb (n : nat) (h a : ndarray Q) (i j : nat) : bool :=
  existsb (fun ii =>
             existsb (fun jj => higher_neighbour a i j ii jj
                                && Qgtb (at2 0 a ii jj) (at2 0 h ii jj))
                     (range n))
          (range n).

Definition specified_base_cell (n : nat) (h a : ndarray Q) (i j : nat) : bool :=
  Qgtb (at2 0 a i j) (at2 0 h i j) && negb (shadowed_by_newb n h a i j).

(** A stack of height 5 on the cell (0, 1), and a placement of height 1
    on the cell (0, 0) beside it. *)
Definition tall_stack : ndarray Q := rect_map 32 32 0 1 1 1 5.
Definition beside_tall_stack : ndarray Q :=
  upd2 tall_stack 0 0 1.

(** The state of the loops of [base_mask_loop] after the cells [proc] have
    been handled. *)
Definition mask_inv (n : nat) (h a : ndarray Q) (proc : nat -> nat -> bool)
  (bm : ndarray bool) : Prop :=
  square n bm
  /\ forall i j, (i < n)%nat -> (j < n)%nat ->
                 at2 false bm i j = proc i j && base_cell n h a i j.

(** No other cell of the window at Chebyshev distance at most one of
    [(i, j)] has a greater value in the action map. *)
Definition no_higher_neighbour (n : nat) (a : ndarray Q) (i j : nat) : Prop :=
  forall ii jj,
    (ii < n)%nat -> (jj < n)%nat -> ii <> i \/ jj <> j ->
    (Z.abs (Z.of_nat ii - Z.of_nat i) <= 1)%Z ->
    (Z.abs (Z.of_nat jj - Z.of_nat j) <= 1)%Z ->
    at2 0 a ii jj <= at2 0 a i j.

(** The cell [(i, j)] exists and is above zero. *)
Definition positive_at (a : ndarray Q) (i j : nat) : Prop :=
  exists x, getitem2 a i j = Return x /\ 0 < x.

(** The rows [mi .. Mi] and the columns [mj .. Mj] are the minimal rectangle
    that covers the cells above zero: every such cell lies in it, and each
    of its four sides holds one. *)
Definition is_bounding_box (a : ndarray Q) (mi Mi mj Mj : nat) : Prop :=
  (forall i j, positive_at a i j ->
               (mi <= i <= Mi)%nat /\ (mj <= j <= Mj)%nat)
  /\ (exists j, positive_at a mi j) /\ (exists j, positive_at a Mi j)
  /\ (exists i, positive_at a i mj) /\ (exists i, positive_at a i Mj).

(** [m] is the greatest cell of [a]. *)
Definition is_max (a : ndarray Q) (m : Q) : Prop :=
  In m (flat a) /\ forall x, In x (flat a) -> x <= m.

(** The cells of [np_where], as pairs. *)
Definition where_cells (m : ndarray bool) : list (nat * nat) :=
  concat (map (fun ir : nat * list bool =>
                 map (fun jb : nat * bool => (fst ir, fst jb))
                     (filter (fun jb : nat * bool => snd jb)
                             (combine (seq 0 (length (snd ir))) (snd ir))))
              (combine (seq 0 (length m)) m)).

(** What a returning call of [_flood_fill] has done: from the marks [v] it
    went to the marks [fst r] and counted [snd r] cells.  No mark is lost;
    the cells counted are the cells newly marked; each of them lies within
    [tolerance] of the target height. *)
Definition fill_ok (n : nat) (height_map : ndarray Q) (target tolerance : Q)
  (v : ndarray bool) (r : ndarray bool * nat) : Prop :=
  square n (fst r)
  /\ np_count (fst r) = (np_count v + snd r)%nat
  /\ (forall i j, at2 false v i j = true -> at2 false (fst r) i j = true)
  /\ (forall i j, (i < n)%nat -> (j < n)%nat ->
                  at2 false v i j = false -> at2 false (fst r) i j = true ->
                  Qabs (at2 0 height_map i j - target) <= tolerance).

(** The outcome of a call with [frames] frames from the marks [v]: a result
    as above; or [RecursionError], and then the frames were too few for the
    cells not yet marked; no other exception on square grids. *)
Definition fill_spec (n : nat) (height_map : ndarray Q) (target tolerance : Q)
  (frames : nat) (v : ndarray bool) (o : outcome (ndarray bool * nat)) : Prop :=
  match o with
  | Return r => fill_ok n height_map target tolerance v r
  | Raise RecursionError => (frames + np_count v <= n * n)%nat
  | Raise _ => False
  end.

(** The sum of a list of areas. *)
Definition total_area (l : list nat) : nat := fold_right Nat.add 0%nat l.

(** A level surface of height [v] over a whole [n] x [n] container. *)
Definition plateau (n : nat) (v : Q) : ndarray Q := rect_map n n 0 0 n n v.

Definition plateau_32 : ndarray Q := plateau 32 1.

(** The state [(visited, flat_areas)] of the scan of [_find_flat_areas]:
    the areas found so far add up to the number of marked cells, and none
    of them is zero. *)
Definition scan_inv (n : nat) (st : ndarray bool * list nat) : Prop :=
  square n (fst st)
  /\ total_area (snd st) = np_count (fst st)
  /\ Forall (fun x => (0 < x)%nat) (snd st).

(** The only exception of the scan on a square grid: too few frames. *)
Definition scan_exn (n limit : nat) (e : exn) : Prop :=
  e = RecursionError /\ (limit <= n * n)%nat.

(** The finder returns the single area 9 for the 3 x 3 stack whose first
    cell is [(r, c)]. *)
Definition finds_one_area_of_9 (r c : nat) : bool :=
  match PythonBinPacker._find_flat_areas 10 packer (rect_map 32 32 r c 3 3 1) with
  | Return [9%nat] => true
  | _ => false
  end.

(** A score in the interval [[0, 1]]. *)
Definition unit_score (q : Q) : Prop := 0 <= q /\ q <= 1.

(** What is assumed of the library functions: [exp] maps the numbers that
    are not positive into [[0, 1]], and a square root is not negative. *)
Definition exp_like (exp : Q -> Q) : Prop :=
  forall x, x <= 0 -> 0 <= exp x /\ exp x <= 1.

Definition sqrt_like (sqrt : Q -> Q) : Prop :=
  forall x, 0 <= sqrt x.

(** Rational stand-ins with these properties, to instantiate statements. *)
Definition exp_standin (x : Q) : Q := 1 / (1 + Qabs x).
Definition sqrt_standin (x : Q) : Q := Qabs x.

(** The part of a cell that [calculateCompactness] adds to the volume. *)
Definition positive_part (x : Q) : Q := if Qgtb x 0 then x else 0.

(** The state of the loops of [calculateCompactness] after the cells [D]
    have been handled, their positive parts adding up to [V]: the volume is
    [V], every handled cell above zero lies in the box, and the box is
    marked as occupied only if the map has a cell above zero. *)
Definition box_inv (a : ndarray Q) (D : nat -> nat -> Prop) (V : Q)
  (st : DeepPack3DModel.bbox) : Prop :=
  DeepPack3DModel.occupiedVolume st == V
  /\ (forall i j x,
         D i j -> getitem2 a i j = Return x -> 0 < x ->
         DeepPack3DModel.hasOccupied st = true
         /\ (DeepPack3DModel.minI st <= i <= DeepPack3DModel.maxI st)%nat
         /\ (DeepPack3DModel.minJ st <= j <= DeepPack3DModel.maxJ st)%nat)
  /\ (DeepPack3DModel.hasOccupied st = true -> exists i j, positive_at a i j).

(** The [gs] x [gs] window of the scans is not inside the array [a]: the
    array has fewer than [gs] rows, or one of its first [gs] rows has fewer
    than [gs] cells. *)
Definition window_sticks_out {A : Type} (gs : nat) (a : ndarray A) : Prop :=
  (length a < gs)%nat
  \/ exists i, (i < gs)%nat /\ (length (nth i a []) < gs)%nat.

(** The state of the scan of [_find_flat_areas] after the cells [proc]
    have been handled: each of them that is above zero is marked. *)
Definition covered (n : nat) (height_map : ndarray Q) (proc : nat -> nat -> Prop)
  (st : ndarray bool * list nat) : Prop :=
  square n (fst st)
  /\ forall i j, (i < n)%nat -> (j < n)%nat -> proc i j ->
                 0 < at2 0 height_map i j -> at2 false (fst st) i j = true.

(** The [n] x [n] grid whose cell [(i, j)] is [F i j]. *)
Definition tabulate {A : Type} (n : nat) (F : nat -> nat -> A) : ndarray A :=
  map (fun i => map (fun j => F i j) (range n)) (range n).

(** The number of cells of the [n] x [n] window where [B] holds, and
    whether there is one. *)
Definition count2 (n : nat) (B : nat -> nat -> bool) : nat :=
  list_sum (map (fun i => length (filter (B i) (range n))) (range n)).

Definition any2 (n : nat) (B : nat -> nat -> bool) : bool :=
  existsb (fun i => existsb (B i) (range n)) (range n).

(** A cell the placement raises, and a base cell that rests on the surface
    (less than 0.1 above the height map). *)
Definition new_cell (h a : ndarray Q) (i j : nat) : bool :=
  Qgtb (at2 0 a i j) (at2 0 h i j).

Definition supported_cell (n : nat) (h a : ndarray Q) (i j : nat) : bool :=
  base_cell n h a i j && Qltb (at2 0 a i j - at2 0 h i j) (1 # 10).

(** The score of [supported] base cells out of [base]. *)
Definition support_of_counts (supported base : nat) : Q :=
  if (base =? 0)%nat then 0
  else
    let p := Q_of_nat supported / Q_of_nat base in
    if Qltb p (1 # 2) then (1 # 10) * (p / (1 # 2)) else p.

(** The box of [calculateCompactness] on an [n] x [n] map: it is as it was
    set up while no cell above zero has been met; afterwards each of its
    four sides holds such a cell. *)
Definition box_tight (n : nat) (a : ndarray Q) (st : DeepPack3DModel.bbox) : Prop :=
  (DeepPack3DModel.hasOccupied st = false ->
   DeepPack3DModel.minI st = n /\ DeepPack3DModel.maxI st = 0%nat
   /\ DeepPack3DModel.minJ st = n /\ DeepPack3DModel.maxJ st = 0%nat)
  /\ (DeepPack3DModel.hasOccupied st = true ->
      (exists j, positive_at a (DeepPack3DModel.minI st) j)
      /\ (exists j, positive_at a (DeepPack3DModel.maxI st) j)
      /\ (exists i, positive_at a i (DeepPack3DModel.minJ st))
      /\ (exists i, positive_at a i (DeepPack3DModel.maxJ st))).

(** Two arrays of the same shape: as many rows, and row by row as many
    cells. *)
Definition same_shape {A B : Type} (a : ndarray A) (b : ndarray B) : Prop :=
  Forall2 (fun r1 r2 => length r1 = length r2) a b.

(** The inputs the scores are bounded on: square grids of side [n] without
    a negative cell, and a lookahead of triples without a negative
    component.  The action map may lie below the height map. *)
Definition well_shaped_input (n : nat) (h a : ndarray Q) (L : list (list Q))
  : Prop :=
  square n h /\ square n a /\ nonneg_grid h /\ nonneg_grid a
  /\ nonneg_triples L.

(** A batch numpy turns into a three-dimensional array: its items have the
    same number of rows, and all their rows the same number of cells. *)
Definition array3 {A : Type} (batch : list (list (list A))) : Prop :=
  exists r c,
    Forall (fun g => length g = r /\ Forall (fun row => length row = c) g) batch.

(** The outcome [o] is a value equal to [v]. *)
Definition returns_value (o : outcome Q) (v : Q) : bool :=
  match o with
  | Return q => Qeq_bool q v
  | Raise _ => false
  end.

(** * Properties *)

(** ** Comparisons *)

Lemma Qltb_lt (x y : Q) : Qltb x y = true <-> x < y.
Proof. unfold Qltb, Qlt. apply Z.ltb_lt. Qed.

Lemma Qltb_ge (x y : Q) : Qltb x y = false <-> y <= x.
Proof. unfold Qltb, Qle. rewrite Z.ltb_ge. reflexivity. Qed.

Lemma Qgtb_gt (x y : Q) : Qgtb x y = true <-> y < x.
Proof. apply Qltb_lt. Qed.

Lemma Qgtb_le (x y : Q) : Qgtb x y = false <-> x <= y.
Proof. apply Qltb_ge. Qed.

Lemma py_min_spec (a b : Q) : py_min a b == Qmin a b.
Proof.
  unfold py_min. destruct (Qltb b a) eqn:E.
  - apply Qltb_lt in E. symmetry. apply Q.min_r. lra.
  - apply Qltb_ge in E. symmetry. apply Q.min_l. lra.
Qed.

Lemma py_max_spec (a b : Q) : py_max a b == Qmax a b.
Proof.
  unfold py_max. destruct (Qgtb b a) eqn:E.
  - apply Qgtb_gt in E. symmetry. apply Q.max_r. lra.
  - apply Qgtb_le in E. symmetry. apply Q.max_l. lra.
Qed.

Lemma returns_value_spec (o : outcome Q) (v : Q) :
  returns_value o v = true -> exists q, o = Return q /\ q == v.
Proof.
  destruct o as [q|e]; simpl; [|discriminate].
  intros H. exists q. split; [reflexivity|]. apply Qeq_bool_eq. exact H.
Qed.

(** ** Exceptions *)

Lemma try_except_const {A : Type} (body : outcome A) (c : A) :
  exists q, try_except body (fun _ => Return c) = Return q
            /\ (forall e, body = Raise e -> q = c)
            /\ (forall v, body = Return v -> q = v).
Proof.
  destruct body as [v|e]; simpl.
  - exists v. repeat split; congruence.
  - exists c. repeat split; congruence.
Qed.

Lemma support_score_returns (self : PythonBinPacker.t) (h a : ndarray Q) :
  exists q, PythonBinPacker._calculate_support_score self h a = Return q.
Proof.
  destruct (try_except_const
              (PythonBinPacker._calculate_support_score_body self h a) (1 # 2))
    as (q & E & _).
  exists q. exact E.
Qed.

Lemma compactness_returns (a : ndarray Q) :
  exists q, PythonBinPacker._calculate_compactness a = Return q.
Proof.
  destruct (try_except_const (PythonBinPacker._calculate_compactness_body a) (1 # 2))
    as (q & E & _).
  exists q. exact E.
Qed.

Lemma future_items_returns (exp sqrt : Q -> Q) (limit : nat)
  (self : PythonBinPacker.t) (a : ndarray Q) (L : list (list Q)) :
  exists q, PythonBinPacker._evaluate_future_items exp sqrt limit self a L = Return q.
Proof.
  destruct (try_except_const
              (PythonBinPacker._evaluate_future_items_body exp sqrt limit self a L)
              (1 # 2)) as (q & E & _).
  exists q. exact E.
Qed.

(** C10.  [predict] never raises: whatever the four arguments are, it
    returns a score; when its [try] block raises, the score is the constant
    0; each sub-scorer returns a score as well, the constant 0.5 when its own
    [try] block raises. *)
Theorem predict_never_raises (exp sqrt : Q -> Q) (limit : nat)
  (self : PythonBinPacker.t) (const_in hmap_in amap_in : list (ndarray Q))
  (imap_in : list (list (list Q))) :
  (exists q,
      PythonBinPacker.predict exp sqrt limit self const_in hmap_in amap_in imap_in
      = Return q
      /\ (forall e,
             PythonBinPacker.predict_body exp sqrt limit self
               const_in hmap_in amap_in imap_in = Raise e -> q = 0))
  /\ (forall h a, exists q,
         PythonBinPacker._calculate_support_score self h a = Return q
         /\ (forall e, PythonBinPacker._calculate_support_score_body self h a
                       = Raise e -> q = 1 # 2))
  /\ (forall a, exists q,
         PythonBinPacker._calculate_compactness a = Return q
         /\ (forall e, PythonBinPacker._calculate_compactness_body a = Raise e
                       -> q = 1 # 2))
  /\ (forall a L, exists q,
         PythonBinPacker._evaluate_future_items exp sqrt limit self a L = Return q
         /\ (forall e, PythonBinPacker._evaluate_future_items_body
                         exp sqrt limit self a L = Raise e -> q = 1 # 2)).
Proof.
  repeat split.
  - destruct (try_except_const
                (PythonBinPacker.predict_body exp sqrt limit self
                   const_in hmap_in amap_in imap_in) 0) as (q & E & R & _).
    exists q. split; assumption.
  - intros h a.
    destruct (try_except_const
                (PythonBinPacker._calculate_support_score_body self h a) (1 # 2))
      as (q & E & R & _).
    exists q. split; assumption.
  - intros a.
    destruct (try_except_const
                (PythonBinPacker._calculate_compactness_body a) (1 # 2))
      as (q & E & R & _).
    exists q. split; assumption.
  - intros a L.
    destruct (try_except_const
                (PythonBinPacker._evaluate_future_items_body exp sqrt limit self a L)
                (1 # 2)) as (q & E & R & _).
    exists q. split; assumption.
Qed.

(** Malformed inputs are scored without a report: a grid that is not
    [grid_size] wide makes two sub-scorers fall back to 0.5; mismatched
    shapes do the same; an empty batch gives the score 0. *)
Example predict_non_square_grid (exp sqrt : Q -> Q) (limit : nat) :
  PythonBinPacker.predict exp sqrt limit packer []
    [[[0; 0; 0]; [0; 0; 0]]] [[[1; 0; 0]; [0; 0; 0]]] [[[1; 1]]]
  = Return ((3 # 10) * 1
            + (2 # 10) * py_max 0 (1 - np_var [[1; 0; 0]; [0; 0; 0]] / (1 # 4))
            + (3 # 10) * (1 # 2) + (1 # 10) * (1 / (1 * 1)) + (1 # 10) * (1 # 2)).
Proof. reflexivity. Qed.

Example predict_mismatched_shapes (exp sqrt : Q -> Q) (limit : nat) :
  PythonBinPacker._calculate_support_score packer [[0; 0]; [0; 0]] [[1; 0; 0]]
  = Return (1 # 2).
Proof. reflexivity. Qed.

Example predict_empty_batch (exp sqrt : Q -> Q) (limit : nat) :
  PythonBinPacker.predict exp sqrt limit packer [] [] [] [] = Return 0.
Proof. reflexivity. Qed.

(** ** [predict] has no check of the placement invariant *)

Lemma getitem_In {A : Type} (l : list A) (i : nat) (x : A) :
  getitem l i = Return x -> In x l.
Proof.
  unfold getitem. destruct (nth_error l i) eqn:E; [|discriminate].
  intros H. injection H as <-. eapply nth_error_In; eassumption.
Qed.

Lemma getitem2_In {A : Type} (a : ndarray A) (i j : nat) (x : A) :
  getitem2 a i j = Return x -> In x (flat a).
Proof.
  unfold getitem2, flat.
  destruct (getitem a i) as [row|] eqn:E; simpl; [|discriminate].
  intros H. apply in_concat. exists row. split.
  - eapply getitem_In; eassumption.
  - eapply getitem_In; eassumption.
Qed.

Lemma np_max_returns (a : ndarray Q) (x : Q) :
  In x (flat a) -> exists m, np_max a = Return m.
Proof.
  unfold np_max. destruct (flat a) as [|y l]; simpl.
  - intros [].
  - intros _. eexists. reflexivity.
Qed.

(** C1 (as the code has it).  Where the action map is below the height map
    at some cell, [predict] still returns a score: the weighted sum of the
    five sub-scores.  Nothing is rejected. *)
Theorem predict_scores_lowered_map (exp sqrt : Q -> Q) (limit : nat)
  (self : PythonBinPacker.t) (const_in hrest arest : list (ndarray Q))
  (h a : ndarray Q) (L : list (list Q)) (Lrest : list (list (list Q)))
  (i j : nat) :
  lowered_at h a i j ->
  exists m s c f,
    np_max a = Return m
    /\ PythonBinPacker._calculate_support_score self h a = Return s
    /\ PythonBinPacker._calculate_compactness a = Return c
    /\ PythonBinPacker._evaluate_future_items exp sqrt limit self a L = Return f
    /\ PythonBinPacker.predict exp sqrt limit self const_in
         (h :: hrest) (a :: arest) (L :: Lrest)
       = Return ((3 # 10) * py_min 1 m
                 + (2 # 10) * py_max 0 (1 - np_var a / (1 # 4))
                 + (3 # 10) * s + (1 # 10) * c + (1 # 10) * f).
Proof.
  intros (x & y & Ha & Hh & _).
  destruct (np_max_returns a _ (getitem2_In _ _ _ _ Ha)) as [m Hm].
  destruct (np_max_returns h _ (getitem2_In _ _ _ _ Hh)) as [m' Hm'].
  destruct (support_score_returns self h a) as [s Hs].
  destruct (compactness_returns a) as [c Hc].
  destruct (future_items_returns exp sqrt limit self a L) as [f Hf].
  exists m, s, c, f. repeat split; try assumption.
  unfold PythonBinPacker.predict, PythonBinPacker.predict_body, item0, getitem.
  simpl. rewrite Hm', Hm. simpl. rewrite Hs. simpl. rewrite Hc. simpl.
  rewrite Hf. reflexivity.
Qed.

Lemma stack_removed_is_lowered : lowered_at stack_3x3 empty_32 4 5.
Proof.
  exists 0, 1. repeat split; try reflexivity.
Qed.

Lemma predict_scores_lowered_map_witness :
  lowered_at stack_3x3 empty_32 4 5
  /\ exists m s c f,
      np_max empty_32 = Return m
      /\ PythonBinPacker._calculate_support_score packer stack_3x3 empty_32 = Return s
      /\ PythonBinPacker._calculate_compactness empty_32 = Return c
      /\ PythonBinPacker._evaluate_future_items (fun x => x) (fun x => x) 1000%nat
           packer empty_32 [] = Return f
      /\ PythonBinPacker.predict (fun x => x) (fun x => x) 1000%nat packer []
           [stack_3x3] [empty_32] [[]]
         = Return ((3 # 10) * py_min 1 m
                   + (2 # 10) * py_max 0 (1 - np_var empty_32 / (1 # 4))
                   + (3 # 10) * s + (1 # 10) * c + (1 # 10) * f).
Proof.
  split.
  - exact stack_removed_is_lowered.
  - apply (predict_scores_lowered_map (fun x => x) (fun x => x) 1000%nat packer
             [] [] [] stack_3x3 empty_32 [] [] 4%nat 5%nat).
    exact stack_removed_is_lowered.
Defined.

(** C1, counterexample.  The map [empty_32] is below [stack_3x3] at the
    cell (4, 5), and [predict] returns the score 0.6 for the pair. *)
Lemma predict_accepts_lowered_map :
  lowered_at stack_3x3 empty_32 4 5
  /\ forall (exp sqrt : Q -> Q) (limit : nat),
      exists q,
        PythonBinPacker.predict exp sqrt limit packer []
          [stack_3x3] [empty_32] [[]] = Return q
        /\ q == 6 # 10.
Proof.
  split.
  - exact stack_removed_is_lowered.
  - intros exp sqrt limit. apply returns_value_spec.
    vm_compute. reflexivity.
Qed.

(** ** No newly occupied cell *)

Lemma zip_same_const {A B C : Type} (f : A -> B -> C) (c : C) (P : A -> B -> Prop) :
  (forall x y, P x y -> f x y = c) ->
  forall (r1 : list A) (r2 : list B),
    Forall2 P r1 r2 ->
    zip_same (fun x y => Return (f x y)) r1 r2 = Return (map (fun _ => c) r1).
Proof.
  intros Hf r1 r2 H. induction H as [|x y r1 r2 Hxy _ IH]; simpl.
  - reflexivity.
  - rewrite IH. simpl. rewrite (Hf _ _ Hxy). reflexivity.
Qed.

Lemma np_map2_const {A B C : Type} (f : A -> B -> C) (c : C) (P : A -> B -> Prop) :
  (forall x y, P x y -> f x y = c) ->
  forall (a : ndarray A) (b : ndarray B),
    Forall2 (Forall2 P) a b ->
    np_map2 f a b = Return (np_map (fun _ => c) a).
Proof.
  intros Hf a b H. unfold np_map2, np_map.
  induction H as [|r1 r2 a b Hr _ IH]; simpl.
  - reflexivity.
  - rewrite (zip_same_const f c P Hf r1 r2 Hr). simpl. rewrite IH. reflexivity.
Qed.

Lemma np_any_zeros_like {A : Type} (a : ndarray A) :
  np_any (np_zeros_like a) = false.
Proof.
  unfold np_any, np_zeros_like, np_map, flat.
  induction a as [|row a IH]; simpl.
  - reflexivity.
  - rewrite existsb_app, IH, orb_false_r.
    induction row as [|x row IHr]; simpl; auto.
Qed.

(** C3 (as the code has it).  In [PythonBinPacker], when no cell of the
    action map is above the height map, the support score is 1. *)
Theorem support_score_no_new_cell (self : PythonBinPacker.t) (h a : ndarray Q) :
  nowhere_raised h a ->
  PythonBinPacker._calculate_support_score self h a = Return 1.
Proof.
  intros H.
  unfold PythonBinPacker._calculate_support_score,
    PythonBinPacker._calculate_support_score_body.
  rewrite (np_map2_const Qgtb false Qle); [|intros x y; apply Qgtb_le|exact H].
  simpl. fold (np_zeros_like a). rewrite np_any_zeros_like. reflexivity.
Qed.

Lemma nowhere_raised_refl (a : ndarray Q) : nowhere_raised a a.
Proof.
  unfold nowhere_raised.
  induction a as [|row a IH]; constructor; [|exact IH].
  induction row as [|x row IHr]; constructor; [apply Qle_refl|exact IHr].
Qed.

Lemma support_score_no_new_cell_witness :
  nowhere_raised empty_32 empty_32
  /\ PythonBinPacker._calculate_support_score packer empty_32 empty_32 = Return 1.
Proof.
  split.
  - apply nowhere_raised_refl.
  - apply (support_score_no_new_cell packer empty_32 empty_32).
    apply nowhere_raised_refl.
Defined.

(** C3, counterexample.  For the empty container and the placement that
    changes nothing, the support ratio of [model_server] is 1024 / 0.000001,
    and [calculateSupportScore] of the JavaScript class returns 0. *)
Lemma support_score_differs_elsewhere :
  nowhere_raised empty_32 empty_32
  /\ (exists q, model_server.support_score empty_32 empty_32 = Return q
                /\ q == 1024000000)
  /\ DeepPack3DModel.calculateSupportScore empty_32 empty_32 = Return 0.
Proof.
  split; [apply nowhere_raised_refl|]. split.
  - apply returns_value_spec. vm_compute. reflexivity.
  - vm_compute. reflexivity.
Qed.

(** ** The future-items score and the lookahead *)

Lemma future_sizes_skipped (L : list (list Q)) :
  Forall skipped_item L -> PythonBinPacker.future_sizes L = Return [].
Proof.
  induction 1 as [|item L (x & y & z & -> & Hs) _ IH]; simpl.
  - reflexivity.
  - replace (Qgtb (x + (y + (z + 0))) 0) with false; [exact IH|].
    symmetry. apply Qgtb_le. lra.
Qed.

Lemma futureItemsSizes_skipped (L : list (list Q)) :
  Forall skipped_item L -> DeepPack3DModel.futureItemsSizes L = [].
Proof.
  induction 1 as [|item L (x & y & z & -> & Hs) _ IH]; simpl.
  - reflexivity.
  - replace (Qgtb (x + y + z) 0) with false; [exact IH|].
    symmetry. apply Qgtb_le. exact Hs.
Qed.

Lemma positive_cells_nonempty (a : ndarray Q) (x : Q) :
  In x (flat a) -> 0 < x -> (length (positive_cells a) =? 0)%nat = false.
Proof.
  intros Hin Hx. unfold positive_cells.
  assert (Hf : In x (filter (fun x => Qgtb x 0) (flat a))).
  { apply filter_In. split; [exact Hin|]. apply Qgtb_gt. exact Hx. }
  destruct (filter (fun x => Qgtb x 0) (flat a)); [destruct Hf|reflexivity].
Qed.

(** C5 (as the code has it).  For an action map with a cell above zero:
    with the empty lookahead the future-items score is the constant 1; with
    a lookahead that is not empty and holds only skipped items it is the
    flatness term alone.  Both in [PythonBinPacker] and in the JavaScript
    class. *)
Theorem future_items_without_items (exp sqrt : Q -> Q) (limit : nat)
  (self : PythonBinPacker.t) (a : ndarray Q) (L : list (list Q)) (x : Q) :
  In x (flat a) -> 0 < x ->
  (PythonBinPacker._evaluate_future_items exp sqrt limit self a [] = Return 1
   /\ DeepPack3DModel.evaluateFutureItems exp sqrt limit a (Some []) = Return 1)
  /\ (L <> [] -> Forall skipped_item L ->
      PythonBinPacker._evaluate_future_items exp sqrt limit self a L
      = Return (exp (- sqrt (variance (positive_cells a))))
      /\ DeepPack3DModel.evaluateFutureItems exp sqrt limit a (Some L)
         = Return (exp (- sqrt (variance (positive_cells a))))).
Proof.
  intros Hin Hx. split; [split; reflexivity|].
  intros HL Hskip.
  pose proof (positive_cells_nonempty a x Hin Hx) as Hpos.
  unfold positive_cells in Hpos.
  destruct L as [|item L]; [congruence|]. split.
  - unfold PythonBinPacker._evaluate_future_items,
      PythonBinPacker._evaluate_future_items_body.
    cbn [length Nat.eqb]. rewrite Hpos.
    rewrite (future_sizes_skipped _ Hskip). reflexivity.
  - unfold DeepPack3DModel.evaluateFutureItems.
    cbn [length Nat.eqb]. rewrite Hpos.
    rewrite (futureItemsSizes_skipped _ Hskip). reflexivity.
Qed.

Lemma future_items_without_items_witness :
  (In 2 (flat two_heights) /\ 0 < 2)
  /\ (PythonBinPacker._evaluate_future_items (fun x => x) (fun x => x) 1000%nat
        packer two_heights [] = Return 1
      /\ DeepPack3DModel.evaluateFutureItems (fun x => x) (fun x => x) 1000%nat
           two_heights (Some []) = Return 1)
  /\ ([[0; 0; 0]] <> [] /\ Forall skipped_item [[0; 0; 0]])
  /\ PythonBinPacker._evaluate_future_items (fun x => x) (fun x => x) 1000%nat
       packer two_heights [[0; 0; 0]]
     = Return (- variance (positive_cells two_heights))
  /\ DeepPack3DModel.evaluateFutureItems (fun x => x) (fun x => x) 1000%nat
       two_heights (Some [[0; 0; 0]])
     = Return (- variance (positive_cells two_heights)).
Proof.
  assert (H2 : In 2 (flat two_heights)) by (simpl; auto).
  assert (P2 : 0 < 2) by reflexivity.
  assert (N : [[0; 0; 0]] <> ([] : list (list Q))) by discriminate.
  assert (S : Forall skipped_item [[0; 0; 0]]).
  { repeat constructor. exists 0, 0, 0. split; [reflexivity|discriminate]. }
  destruct (future_items_without_items (fun x => x) (fun x => x) 1000%nat packer
              two_heights [[0; 0; 0]] 2 H2 P2) as [E K].
  split; [split; assumption|]. split; [exact E|].
  split; [split; assumption|]. exact (K N S).
Defined.

(** C5, counterexample.  The map [two_heights] has the positive heights 1
    and 2, of variance 1/4.  With the empty lookahead both scorers return 1,
    which is not the flatness term [exp (- sqrt (1/4))] unless that is 1. *)
Lemma empty_lookahead_is_not_flatness :
  (In 2 (flat two_heights) /\ 0 < 2)
  /\ variance (positive_cells two_heights) == 1 # 4
  /\ forall (exp sqrt : Q -> Q) (limit : nat) (self : PythonBinPacker.t),
      PythonBinPacker._evaluate_future_items exp sqrt limit self two_heights []
      = Return 1
      /\ DeepPack3DModel.evaluateFutureItems exp sqrt limit two_heights (Some [])
         = Return 1
      /\ (~ exp (- sqrt (variance (positive_cells two_heights))) == 1 ->
          forall q,
            PythonBinPacker._evaluate_future_items exp sqrt limit self two_heights []
            = Return q ->
            ~ q == exp (- sqrt (variance (positive_cells two_heights)))).
Proof.
  split; [split; [simpl; auto|reflexivity]|]. split; [reflexivity|].
  intros exp sqrt limit self. split; [reflexivity|]. split; [reflexivity|].
  intros Hne q Hq. injection Hq as <-. intros E. apply Hne. symmetry. exact E.
Qed.

(** ** Well-shaped inputs *)

Lemma Qleb_le (x y : Q) : Qleb x y = true <-> x <= y.
Proof. apply Qle_bool_iff. Qed.

Lemma zip_same_Forall2 {A B : Type} (f : A -> B -> bool) (r1 : list A) (r2 : list B) :
  forall m, zip_same (fun x y => Return (f x y)) r1 r2 = Return m ->
            forallb (fun b => b) m = true ->
            Forall2 (fun x y => f x y = true) r1 r2.
Proof.
  revert r2. induction r1 as [|x r1 IH]; intros [|y r2] m; simpl; try discriminate.
  - constructor.
  - destruct (zip_same _ r1 r2) as [m'|] eqn:E; simpl; [|discriminate].
    intros H. injection H as <-. simpl. intros Hb.
    apply andb_true_iff in Hb as [Hb1 Hb2].
    constructor; [exact Hb1|]. eapply IH; eauto.
Qed.

Lemma np_map2_Forall2 {A B : Type} (f : A -> B -> bool) (a : ndarray A) (b : ndarray B) :
  forall m, np_map2 f a b = Return m ->
            forallb (fun b => b) (flat m) = true ->
            Forall2 (Forall2 (fun x y => f x y = true)) a b.
Proof.
  unfold np_map2, flat.
  revert b. induction a as [|r1 a IH]; intros [|r2 b] m; simpl; try discriminate.
  - constructor.
  - destruct (zip_same (fun x y => Return (f x y)) r1 r2) as [row|] eqn:E1;
      simpl; [|discriminate].
    destruct (zip_same _ a b) as [m'|] eqn:E2; simpl; [|discriminate].
    intros H. injection H as <-. simpl. rewrite forallb_app.
    intros Hb. apply andb_true_iff in Hb as [Hb1 Hb2].
    constructor.
    + eapply zip_same_Forall2; eauto.
    + eapply IH; eauto.
Qed.

Lemma Forall2_impl2 {A B : Type} (P Q : A -> B -> Prop) (l1 : list A) (l2 : list B) :
  (forall x y, P x y -> Q x y) -> Forall2 P l1 l2 -> Forall2 Q l1 l2.
Proof. intros H F. induction F; constructor; auto. Qed.

Lemma well_shapedb_spec (n : nat) (h a : ndarray Q) (L : list (list Q)) :
  well_shapedb n h a L = true -> well_shaped n h a L.
Proof.
  unfold well_shapedb, well_shaped, square, nonneg_grid, nonneg_triples.
  rewrite !andb_true_iff.
  intros [[[[[[[H1 H2] H3] H4] H5] H6] H7] H8].
  apply Nat.eqb_eq in H1, H3.
  rewrite forallb_forall in H2, H4, H5, H6, H8.
  repeat split; try assumption.
  - apply Forall_forall. intros r Hr. apply Nat.eqb_eq. auto.
  - apply Forall_forall. intros r Hr. apply Nat.eqb_eq. auto.
  - intros x Hx. apply Qleb_le. auto.
  - intros x Hx. apply Qleb_le. auto.
  - destruct (np_map2 Qleb h a) as [m|] eqn:E; [|discriminate].
    eapply Forall2_impl2; [|eapply np_map2_Forall2; eauto].
    intros r1 r2 Hr. eapply Forall2_impl2; [|exact Hr].
    intros x y Hxy. apply Qleb_le. exact Hxy.
  - apply Forall_forall. intros item Hi. specialize (H8 item Hi).
    apply andb_true_iff in H8 as [Hl Hf]. split.
    + apply Nat.eqb_eq. exact Hl.
    + apply Forall_forall. intros x Hx. rewrite forallb_forall in Hf.
      apply Qleb_le. auto.
Qed.

(** ** The three weight sets *)

(** C7.  The three scorers weigh their sub-scores differently:
    [PythonBinPacker.predict] with (0.3, 0.2, 0.3, 0.1, 0.1) on height
    utilization, variance, support, compactness and future items;
    [calculateHeuristic] with (0.3, 0.4, 0.2, 0.1) and no variance term; the
    fallback of [model_server] with (0.5, 0.3, 0.2) and neither a variance
    nor a future-items term.  On the well-shaped input "empty container,
    3 x 3 stack of height one placed, empty lookahead" the three scores are
    pairwise different. *)
Theorem weight_sets_differ :
  (forall exp sqrt limit self const_in h hrest a arest L Lrest,
      PythonBinPacker.predict_body exp sqrt limit self const_in
        (h :: hrest) (a :: arest) (L :: Lrest)
      = (_ <- np_max h ;;
         m <- np_max a ;;
         s <- PythonBinPacker._calculate_support_score self h a ;;
         c <- PythonBinPacker._calculate_compactness a ;;
         f <- PythonBinPacker._evaluate_future_items exp sqrt limit self a L ;;
         Return ((3 # 10) * py_min 1 m
                 + (2 # 10) * py_max 0 (1 - np_var a / (1 # 4))
                 + (3 # 10) * s + (1 # 10) * c + (1 # 10) * f)))
  /\ (forall exp sqrt limit const_in h hrest a arest L Lrest,
         DeepPack3DModel.calculateHeuristic exp sqrt limit const_in
           (h :: hrest) (a :: arest) (L :: Lrest)
         = (_ <- DeepPack3DModel.max_flat (Some h) ;;
            m <- DeepPack3DModel.max_flat (Some a) ;;
            s <- DeepPack3DModel.calculateSupportScore h a ;;
            c <- DeepPack3DModel.calculateCompactness a ;;
            f <- DeepPack3DModel.evaluateFutureItems exp sqrt limit a (Some L) ;;
            Return ((3 # 10) * DeepPack3DModel.Math_min 1 m
                    + (4 # 10) * s + (2 # 10) * c + (1 # 10) * f)))
  /\ (forall h hrest a arest,
         model_server.heuristic (h :: hrest) (a :: arest)
         = (_ <- np_max h ;;
            m <- np_max a ;;
            s <- model_server.support_score h a ;;
            c <- model_server.compactness h a ;;
            Return ((5 # 10) * py_min 1 m + (3 # 10) * s + (2 # 10) * c)))
  /\ well_shaped 32 empty_32 stack_3x3 []
  /\ forall exp sqrt limit,
      exists q1 q2 q3,
        PythonBinPacker.predict exp sqrt limit packer []
          [empty_32] [stack_3x3] [[]] = Return q1
        /\ DeepPack3DModel.calculateHeuristic exp sqrt limit []
             [empty_32] [stack_3x3] [[]] = Return q2
        /\ model_server.heuristic [empty_32] [stack_3x3] = Return q3
        /\ q1 == 908369 # 1310720
        /\ q2 == 6 # 10
        /\ q3 == 618000001 # 18000002
        /\ ~ q1 == q2 /\ ~ q1 == q3 /\ ~ q2 == q3.
Proof.
  split; [reflexivity|]. split; [reflexivity|]. split; [reflexivity|].
  split; [apply well_shapedb_spec; vm_compute; reflexivity|].
  intros exp sqrt limit.
  destruct (returns_value_spec
              (PythonBinPacker.predict exp sqrt limit packer []
                 [empty_32] [stack_3x3] [[]]) (908369 # 1310720))
    as (q1 & E1 & V1); [vm_compute; reflexivity|].
  destruct (returns_value_spec
              (DeepPack3DModel.calculateHeuristic exp sqrt limit []
                 [empty_32] [stack_3x3] [[]]) (6 # 10))
    as (q2 & E2 & V2); [vm_compute; reflexivity|].
  destruct (returns_value_spec
              (model_server.heuristic [empty_32] [stack_3x3])
              (618000001 # 18000002))
    as (q3 & E3 & V3); [vm_compute; reflexivity|].
  exists q1, q2, q3. repeat split; try assumption.
  - rewrite V1, V2. intros H. vm_compute in H. discriminate.
  - rewrite V1, V3. intros H. vm_compute in H. discriminate.
  - rewrite V2, V3. intros H. vm_compute in H. discriminate.
Qed.

(** ** Cells and updates *)

Open Scope nat_scope.

Lemma getitem_nth {A : Type} (d : A) (l : list A) (i : nat) :
  i < length l -> getitem l i = Return (nth i l d).
Proof.
  intros H. unfold getitem. rewrite (nth_error_nth' l d H). reflexivity.
Qed.

Lemma square_row {A : Type} (n : nat) (g : ndarray A) (i : nat) :
  square n g -> i < n -> length (nth i g []) = n.
Proof.
  intros [Hl Hr] Hi. rewrite Forall_forall in Hr. apply Hr.
  apply nth_In. lia.
Qed.

Lemma getitem2_at2 {A : Type} (d : A) (n : nat) (g : ndarray A) (i j : nat) :
  square n g -> i < n -> j < n -> getitem2 g i j = Return (at2 d g i j).
Proof.
  intros Hs Hi Hj. unfold getitem2, at2.
  rewrite (getitem_nth [] g i) by (destruct Hs; lia). simpl.
  apply getitem_nth. rewrite (square_row n g i Hs Hi). exact Hj.
Qed.

Lemma length_upd {A : Type} (l : list A) (i : nat) (x : A) :
  length (upd l i x) = length l.
Proof.
  revert i. induction l as [|y l IH]; intros [|i]; simpl; auto.
Qed.

Lemma nth_upd {A : Type} (d : A) (l : list A) (i k : nat) (x : A) :
  i < length l ->
  nth k (upd l i x) d = if k =? i then x else nth k l d.
Proof.
  revert i k. induction l as [|y l IH]; intros i k Hi; simpl in Hi; [lia|].
  destruct i as [|i], k as [|k]; simpl; auto.
  apply IH. lia.
Qed.

Lemma upd_upd {A : Type} (l : list A) (i : nat) (x y : A) :
  upd (upd l i x) i y = upd l i y.
Proof.
  revert i. induction l as [|z l IH]; intros [|i]; simpl; auto.
  rewrite IH. reflexivity.
Qed.

Lemma In_upd {A : Type} (l : list A) (i : nat) (x y : A) :
  In y (upd l i x) -> y = x \/ In y l.
Proof.
  revert i. induction l as [|z l IH]; intros [|i]; simpl; auto.
  - intros [H|H]; auto.
  - intros [H|H]; auto. destruct (IH _ H); auto.
Qed.

Lemma setitem2_upd2 {A : Type} (n : nat) (g : ndarray A) (i j : nat) (x : A) :
  square n g -> i < n -> j < n -> setitem2 g i j x = Return (upd2 g i j x).
Proof.
  intros Hs Hi Hj. unfold setitem2, upd2.
  rewrite (nth_error_nth' g [] (n := i)) by (destruct Hs; lia).
  rewrite (square_row n g i Hs Hi).
  apply Nat.ltb_lt in Hj. rewrite Hj. reflexivity.
Qed.

Lemma square_upd2 {A : Type} (n : nat) (g : ndarray A) (i j : nat) (x : A) :
  square n g -> i < n -> square n (upd2 g i j x).
Proof.
  intros Hs Hi. pose proof (square_row n g i Hs Hi) as Hrow.
  destruct Hs as [Hl Hr]. unfold upd2. split.
  - rewrite length_upd. exact Hl.
  - apply Forall_forall. intros row Hin.
    destruct (In_upd _ _ _ _ Hin) as [->|Hin'].
    + rewrite length_upd. exact Hrow.
    + rewrite Forall_forall in Hr. auto.
Qed.

Lemma at2_upd2 {A : Type} (d : A) (n : nat) (g : ndarray A) (i j i' j' : nat) (x : A) :
  square n g -> i < n -> j < n ->
  at2 d (upd2 g i j x) i' j'
  = if (i' =? i) && (j' =? j) then x else at2 d g i' j'.
Proof.
  intros Hs Hi Hj. unfold at2, upd2.
  rewrite (nth_upd [] g i i') by (destruct Hs; lia).
  destruct (i' =? i) eqn:Ei; simpl; [|reflexivity].
  apply Nat.eqb_eq in Ei. subst i'.
  apply nth_upd. rewrite (square_row n g i Hs Hi). exact Hj.
Qed.

Lemma upd2_upd2 {A : Type} (n : nat) (g : ndarray A) (i j : nat) (x y : A) :
  square n g -> i < n ->
  upd2 (upd2 g i j x) i j y = upd2 g i j y.
Proof.
  intros Hs Hi. unfold upd2.
  rewrite (nth_upd [] g i i) by (destruct Hs; lia).
  rewrite Nat.eqb_refl, upd_upd, upd_upd. reflexivity.
Qed.

Lemma square_zeros_like {A : Type} (n : nat) (g : ndarray A) :
  square n g -> square n (np_zeros_like g).
Proof.
  intros [Hl Hr]. unfold np_zeros_like, np_map. split.
  - rewrite length_map. exact Hl.
  - apply Forall_forall. intros row Hin. apply in_map_iff in Hin as (r & <- & Hin).
    rewrite length_map. rewrite Forall_forall in Hr. auto.
Qed.

Lemma nth_map_false {A : Type} (row : list A) (j : nat) :
  nth j (map (fun _ => false) row) false = false.
Proof.
  revert j. induction row as [|x row IH]; intros [|j]; simpl; auto.
Qed.

Lemma at2_zeros_like {A : Type} (g : ndarray A) (i j : nat) :
  at2 false (np_zeros_like g) i j = false.
Proof.
  unfold at2, np_zeros_like, np_map.
  change (@nil bool) with (map (fun _ : A => false) (@nil A)).
  rewrite map_nth. apply nth_map_false.
Qed.

Lemma in_range (n i : nat) : In i (range n) <-> i < n.
Proof. unfold range. rewrite in_seq. lia. Qed.

(** ** Loops with an invariant *)

Lemma for_each_invariant {A S : Type} (P : list A -> S -> Prop)
  (body : A -> S -> outcome S) (l : list A) :
  (forall done x s, P done s -> In x l ->
                    exists s', body x s = Return s' /\ P (done ++ [x]) s') ->
  forall s, P [] s -> exists s', for_each l body s = Return s' /\ P l s'.
Proof.
  intros Hstep.
  assert (G : forall rest done s,
             incl rest l -> P done s ->
             exists s', for_each rest body s = Return s' /\ P (done ++ rest) s').
  { induction rest as [|x rest IH]; intros done s Hincl HP; simpl.
    - exists s. rewrite app_nil_r. auto.
    - destruct (Hstep done x s HP) as (s1 & E1 & P1); [apply Hincl; left; auto|].
      rewrite E1. simpl.
      destruct (IH (done ++ [x]) s1) as (s2 & E2 & P2); [|exact P1|].
      + intros y Hy. apply Hincl. right. exact Hy.
      + exists s2. split; [exact E2|]. rewrite <- app_assoc in P2. exact P2. }
  intros s HP. apply (G l [] s); [apply incl_refl|exact HP].
Qed.

Lemma for_in_first {A S : Type} (test : A -> bool) (hit : S -> S)
  (body : A -> S -> outcome (loop_ctl S)) (l : list A) (s : S) :
  (forall x, In x l ->
             body x s = Return (if test x then Break (hit s) else Continue s)) ->
  for_in l body s = Return (if existsb test l then hit s else s).
Proof.
  induction l as [|x l IH]; intros Hb; simpl.
  - reflexivity.
  - rewrite (Hb x) by (left; reflexivity).
    destruct (test x); simpl; [reflexivity|].
    apply IH. intros y Hy. apply Hb. right. exact Hy.
Qed.

(** ** The base cells of [_calculate_support_score] *)

Section BaseMask.

Variable self : PythonBinPacker.t.
Let n := PythonBinPacker.grid_size self.
Variables h a : ndarray Q.
Hypothesis square_h : square n h.
Hypothesis square_a : square n a.

Lemma higher_elsewhere_value (i j ii jj : nat) :
  i < n -> j < n -> ii < n -> jj < n ->
  PythonBinPacker.higher_elsewhere a i j ii jj
  = Return ((negb (ii =? i) || negb (jj =? j))
            && Qgtb (at2 0%Q a ii jj) (at2 0%Q a i j)).
Proof.
  intros Hi Hj Hii Hjj. unfold PythonBinPacker.higher_elsewhere.
  destruct (negb (ii =? i) || negb (jj =? j)); [|reflexivity].
  rewrite (getitem2_at2 0%Q n a ii jj), (getitem2_at2 0%Q n a i j) by assumption.
  reflexivity.
Qed.

Lemma shadow_scan_value (i j : nat) (bm : ndarray bool) :
  i < n -> j < n -> square n bm ->
  PythonBinPacker.shadow_scan self a i j bm
  = Return (if shadowedb n a i j then upd2 bm i j false else bm).
Proof.
  intros Hi Hj Hbm. unfold PythonBinPacker.shadow_scan. fold n.
  match goal with
  | |- for_each _ ?body _ = _ =>
      destruct (for_each_invariant
                  (fun done s =>
                     s = if existsb
                              (fun ii => existsb (higher_neighbour a i j ii) (range n))
                              done
                         then upd2 bm i j false else bm)
                  body (range n)) with (s := bm) as (s' & E & P)
  end.
  - intros done ii s Hs Hin. apply in_range in Hin.
    assert (Hsq : square n s).
    { subst s. destruct (existsb _ done); [apply square_upd2|]; assumption. }
    rewrite (for_in_first (higher_neighbour a i j ii)
               (fun s => upd2 s i j false)).
    + eexists. split; [reflexivity|].
      rewrite existsb_app. simpl. rewrite orb_false_r. subst s.
      destruct (existsb _ done); simpl.
      * destruct (existsb _ (range n)); [apply (upd2_upd2 n)|]; auto.
      * reflexivity.
    + intros jj Hjj. apply in_range in Hjj.
      rewrite higher_elsewhere_value by assumption. simpl.
      unfold higher_neighbour.
      destruct ((negb (ii =? i) || negb (jj =? j))
                && Qgtb (at2 0%Q a ii jj) (at2 0%Q a i j)); simpl; [|reflexivity].
      destruct (near ii i && near jj j) eqn:En; [|reflexivity].
      rewrite (setitem2_upd2 n) by assumption. reflexivity.
  - reflexivity.
  - rewrite E, P. reflexivity.
Qed.

Lemma base_mask_step (proc : nat -> nat -> bool) (bm : ndarray bool) (i j : nat) :
  i < n -> j < n -> mask_inv n h a proc bm ->
  exists bm',
    (a0 <- getitem2 a i j ;;
     h0 <- getitem2 h i j ;;
     if Qgtb a0 h0 then
       bm1 <- setitem2 bm i j true ;;
       PythonBinPacker.shadow_scan self a i j bm1
     else Return bm) = Return bm'
    /\ mask_inv n h a (fun i' j' => proc i' j' || (i' =? i) && (j' =? j)) bm'.
Proof.
  intros Hi Hj [Hsq Hat].
  rewrite (getitem2_at2 0%Q n a i j), (getitem2_at2 0%Q n h i j) by assumption.
  simpl. destruct (Qgtb (at2 0%Q a i j) (at2 0%Q h i j)) eqn:Enew.
  - rewrite (setitem2_upd2 n) by assumption. simpl.
    rewrite shadow_scan_value by (try apply square_upd2; assumption).
    eexists. split; [reflexivity|]. split.
    + destruct (shadowedb n a i j); repeat apply square_upd2; assumption.
    + intros i' j' Hi' Hj'.
      assert (Hsq1 : square n (upd2 bm i j true)) by (apply square_upd2; assumption).
      destruct (shadowedb n a i j) eqn:Esh.
      * rewrite (upd2_upd2 n) by assumption.
        rewrite (at2_upd2 false n) by assumption.
        destruct ((i' =? i) && (j' =? j)) eqn:Eij.
        -- apply andb_true_iff in Eij as [Ei Ej].
           apply Nat.eqb_eq in Ei, Ej. subst i' j'.
           unfold base_cell. rewrite Esh, Enew. simpl.
           rewrite andb_false_r. reflexivity.
        -- rewrite orb_false_r. apply Hat; assumption.
      * rewrite (at2_upd2 false n) by assumption.
        destruct ((i' =? i) && (j' =? j)) eqn:Eij.
        -- apply andb_true_iff in Eij as [Ei Ej].
           apply Nat.eqb_eq in Ei, Ej. subst i' j'.
           unfold base_cell. rewrite Esh, Enew. simpl.
           rewrite orb_true_r. reflexivity.
        -- rewrite orb_false_r. apply Hat; assumption.
  - eexists. split; [reflexivity|]. split; [exact Hsq|].
    intros i' j' Hi' Hj'. rewrite (Hat i' j' Hi' Hj').
    destruct ((i' =? i) && (j' =? j)) eqn:Eij.
    + apply andb_true_iff in Eij as [Ei Ej].
      apply Nat.eqb_eq in Ei, Ej. subst i' j'.
      unfold base_cell. rewrite Enew. simpl. rewrite !andb_false_r. reflexivity.
    + rewrite orb_false_r. reflexivity.
Qed.

Lemma base_mask_loop_value :
  exists bm,
    PythonBinPacker.base_mask_loop self h a (np_zeros_like a) = Return bm
    /\ square n bm
    /\ forall i j, i < n -> j < n -> at2 false bm i j = base_cell n h a i j.
Proof.
  unfold PythonBinPacker.base_mask_loop. fold n.
  match goal with
  | |- exists bm, for_each _ ?body _ = _ /\ _ =>
      destruct (for_each_invariant
                  (fun done s => mask_inv n h a (fun i' _ => existsb (Nat.eqb i') done) s)
                  body (range n)) with (s := np_zeros_like a) as (s' & E & P)
  end.
  - intros done i s Hs Hin. apply in_range in Hin.
    match goal with
    | |- exists s', for_each _ ?body _ = _ /\ _ =>
        destruct (for_each_invariant
                    (fun dj s =>
                       mask_inv n h a (fun i' j' => existsb (Nat.eqb i') done
                                              || (i' =? i) && existsb (Nat.eqb j') dj) s)
                    body (range n)) with (s := s) as (s' & E & P)
    end.
    + intros dj j s0 Hs0 Hj. apply in_range in Hj.
      destruct (base_mask_step _ s0 i j Hin Hj Hs0) as (bm' & E & [Hsq Hat]).
      exists bm'. split; [exact E|]. split; [exact Hsq|].
      intros i' j' Hi' Hj'. rewrite (Hat i' j' Hi' Hj').
      f_equal. rewrite existsb_app. simpl. rewrite orb_false_r.
      rewrite <- orb_assoc. f_equal. rewrite andb_orb_distrib_r. reflexivity.
    + destruct Hs as [Hsq Hat]. split; [exact Hsq|].
      intros i' j' Hi' Hj'. rewrite (Hat i' j' Hi' Hj'). simpl.
      rewrite andb_false_r, orb_false_r. reflexivity.
    + exists s'. split; [exact E|]. destruct P as [Hsq Hat]. split; [exact Hsq|].
      intros i' j' Hi' Hj'. rewrite (Hat i' j' Hi' Hj').
      f_equal. rewrite existsb_app. simpl. rewrite orb_false_r. f_equal.
      replace (existsb (Nat.eqb j') (range n)) with true; [apply andb_true_r|].
      symmetry. apply existsb_exists. exists j'. split.
      * apply in_range. exact Hj'.
      * apply Nat.eqb_refl.
  - split; [apply square_zeros_like; exact square_a|].
    intros i j Hi Hj. rewrite at2_zeros_like. reflexivity.
  - exists s'. split; [exact E|]. destruct P as [Hsq Hat]. split; [exact Hsq|].
    intros i j Hi Hj. rewrite (Hat i j Hi Hj).
    replace (existsb (Nat.eqb i) (range n)) with true; [reflexivity|].
    symmetry. apply existsb_exists. exists i. split.
    + apply in_range. exact Hi.
    + apply Nat.eqb_refl.
Qed.

End BaseMask.

Lemma shadowedb_false (n : nat) (a : ndarray Q) (i j : nat) :
  shadowedb n a i j = false <-> no_higher_neighbour n a i j.
Proof.
  unfold shadowedb, no_higher_neighbour. split.
  - intros H ii jj Hii Hjj Hne Hni Hnj.
    destruct (Qgtb (at2 0%Q a ii jj) (at2 0%Q a i j)) eqn:Eg;
      [|apply Qgtb_le; exact Eg].
    exfalso. assert (T : existsb
                           (fun ii => existsb (fun jj => higher_neighbour a i j ii jj)
                                              (range n)) (range n) = true);
      [|congruence].
    apply existsb_exists. exists ii. split; [apply in_range; exact Hii|].
    apply existsb_exists. exists jj. split; [apply in_range; exact Hjj|].
    unfold higher_neighbour, near. rewrite Eg.
    apply Z.leb_le in Hni, Hnj. rewrite Hni, Hnj.
    destruct Hne as [Hne|Hne]; apply Nat.eqb_neq in Hne; rewrite Hne;
      simpl; rewrite ?orb_true_r; reflexivity.
  - intros H. apply not_true_is_false. intros T.
    apply existsb_exists in T as (ii & Hii & T).
    apply existsb_exists in T as (jj & Hjj & T).
    apply in_range in Hii, Hjj. unfold higher_neighbour, near in T.
    rewrite !andb_true_iff in T. destruct T as [[[Hne Hg] Hni] Hnj].
    apply Z.leb_le in Hni, Hnj. apply Qgtb_gt in Hg.
    assert (Hne' : ii <> i \/ jj <> j).
    { apply orb_true_iff in Hne as [Hne|Hne]; apply negb_true_iff in Hne;
        apply Nat.eqb_neq in Hne; auto. }
    pose proof (H ii jj Hii Hjj Hne' Hni Hnj) as Hle.
    apply (Qlt_not_le _ _ Hg Hle).
Qed.

Lemma js_get2_at2 (n : nat) (a : ndarray Q) (i j : nat) :
  square n a -> i < n -> j < n ->
  DeepPack3DModel.get2 a i j = Return (Some (at2 0%Q a i j)).
Proof.
  intros Hs Hi Hj. unfold DeepPack3DModel.get2, at2.
  rewrite (nth_error_nth' a [] (n := i)) by (destruct Hs; lia).
  rewrite (nth_error_nth' (nth i a []) 0%Q (n := j));
    [reflexivity|rewrite (square_row n a i Hs Hi); exact Hj].
Qed.

Lemma js_row_length {A : Type} (n : nat) (a : ndarray A) (i : nat) :
  square n a -> i < n -> DeepPack3DModel.row_length a i = Return n.
Proof.
  intros Hs Hi. unfold DeepPack3DModel.row_length.
  rewrite (nth_error_nth' a [] (n := i)) by (destruct Hs; lia).
  rewrite (square_row n a i Hs Hi). reflexivity.
Qed.

Lemma is_base_scan_value (n : nat) (a : ndarray Q) (i j : nat) :
  square n a -> i < n -> j < n ->
  DeepPack3DModel.is_base_scan a i j = Return (negb (shadowedb n a i j)).
Proof.
  intros Hs Hi Hj. unfold DeepPack3DModel.is_base_scan.
  replace (length a) with n by (destruct Hs; congruence).
  rewrite (for_in_first
             (fun ii => existsb (higher_neighbour a i j ii) (range n))
             (fun _ => false)).
  - unfold shadowedb. destruct (existsb _ (range n)); reflexivity.
  - intros ii Hii. apply in_range in Hii.
    rewrite (js_row_length n a ii Hs Hii). simpl.
    rewrite (for_in_first (higher_neighbour a i j ii) (fun _ => false)).
    + simpl. destruct (existsb _ (range n)); reflexivity.
    + intros jj Hjj. apply in_range in Hjj. unfold higher_neighbour.
      destruct (negb (ii =? i) || negb (jj =? j)); simpl; [|reflexivity].
      rewrite (js_get2_at2 n a ii jj), (js_get2_at2 n a i j) by assumption.
      simpl.
      destruct (Qgtb (at2 0%Q a ii jj) (at2 0%Q a i j) && near ii i && near jj j);
        reflexivity.
Qed.

(** C4 (as the code has it).  On grids of the packer's size, a cell is
    marked in [base_mask] exactly when it is newly occupied and no other
    cell at Chebyshev distance at most one, newly occupied or not, has a
    greater value in the action map; [isBase] of the JavaScript scorer is
    the same test. *)
Theorem base_cells_characterised (self : PythonBinPacker.t) (h a : ndarray Q) :
  square (PythonBinPacker.grid_size self) h ->
  square (PythonBinPacker.grid_size self) a ->
  (exists bm,
      PythonBinPacker.base_mask_loop self h a (np_zeros_like a) = Return bm
      /\ forall i j,
          i < PythonBinPacker.grid_size self ->
          j < PythonBinPacker.grid_size self ->
          (at2 false bm i j = true
           <-> (at2 0 h i j < at2 0 a i j)%Q
               /\ no_higher_neighbour (PythonBinPacker.grid_size self) a i j))
  /\ (forall i j,
         i < PythonBinPacker.grid_size self ->
         j < PythonBinPacker.grid_size self ->
         exists b,
           DeepPack3DModel.is_base_scan a i j = Return b
           /\ (b = true
               <-> no_higher_neighbour (PythonBinPacker.grid_size self) a i j)).
Proof.
  intros Hh Ha. split.
  - destruct (base_mask_loop_value self h a Hh Ha) as (bm & E & _ & Hat).
    exists bm. split; [exact E|]. intros i j Hi Hj.
    rewrite (Hat i j Hi Hj). unfold base_cell.
    rewrite andb_true_iff, negb_true_iff, Qgtb_gt, shadowedb_false.
    reflexivity.
  - intros i j Hi Hj. eexists. split.
    + apply (is_base_scan_value _ a i j Ha Hi Hj).
    + rewrite negb_true_iff. apply shadowedb_false.
Qed.

Lemma square_stack_3x3 : square 32 stack_3x3 /\ square 32 empty_32.
Proof.
  destruct (well_shapedb_spec 32 empty_32 stack_3x3 []) as (A & B & _).
  - vm_compute. reflexivity.
  - split; assumption.
Qed.

Lemma base_cells_characterised_witness :
  (square (PythonBinPacker.grid_size packer) empty_32
   /\ square (PythonBinPacker.grid_size packer) stack_3x3)
  /\ (exists bm,
         PythonBinPacker.base_mask_loop packer empty_32 stack_3x3
           (np_zeros_like stack_3x3) = Return bm
         /\ forall i j,
             i < PythonBinPacker.grid_size packer ->
             j < PythonBinPacker.grid_size packer ->
             (at2 false bm i j = true
              <-> (at2 0 empty_32 i j < at2 0 stack_3x3 i j)%Q
                  /\ no_higher_neighbour (PythonBinPacker.grid_size packer)
                       stack_3x3 i j))
  /\ (forall i j,
         i < PythonBinPacker.grid_size packer ->
         j < PythonBinPacker.grid_size packer ->
         exists b,
           DeepPack3DModel.is_base_scan stack_3x3 i j = Return b
           /\ (b = true
               <-> no_higher_neighbour (PythonBinPacker.grid_size packer)
                     stack_3x3 i j)).
Proof.
  destruct square_stack_3x3 as [Sa Sh].
  split; [split; assumption|].
  exact (base_cells_characterised packer empty_32 stack_3x3 Sh Sa).
Defined.

(** C4, counterexample.  A stack of height 5 stands on the cell (0, 1) and
    is not touched; the placement raises the cell (0, 0) from 0 to 1.  No
    newly occupied cell is higher than (0, 0), so the specification counts
    it as a base cell; the code does not, because of the old stack beside
    it, and the support score is 0. *)
Lemma old_stack_shadows_new_cell :
  (at2 0 beside_tall_stack 0 1 == at2 0 tall_stack 0 1)%Q
  /\ specified_base_cell 32 tall_stack beside_tall_stack 0 0 = true
  /\ (exists bm,
         PythonBinPacker.base_mask_loop packer tall_stack beside_tall_stack
           (np_zeros_like beside_tall_stack) = Return bm
         /\ at2 false bm 0 0 = false)
  /\ DeepPack3DModel.is_base_scan beside_tall_stack 0 0 = Return false
  /\ PythonBinPacker._calculate_support_score packer tall_stack beside_tall_stack
     = Return 0%Q.
Proof.
  split; [reflexivity|]. split; [vm_compute; reflexivity|]. split.
  - eexists. split; [vm_compute; reflexivity|reflexivity].
  - split; vm_compute; reflexivity.
Qed.

(** ** The bounding box of [_calculate_compactness] *)

Lemma np_where_cells (m : ndarray bool) :
  np_where m = (map fst (where_cells m), map snd (where_cells m)).
Proof. reflexivity. Qed.

Lemma In_combine_seq {A : Type} (l : list A) (s i : nat) (x : A) :
  In (i, x) (combine (seq s (length l)) l)
  <-> s <= i /\ nth_error l (i - s) = Some x.
Proof.
  revert s. induction l as [|y l IH]; intros s; simpl.
  - split; [intros []|]. intros [_ H]. destruct (i - s); discriminate.
  - rewrite IH. split.
    + intros [H|[H1 H2]].
      * injection H as <- <-. rewrite Nat.sub_diag. split; [lia|reflexivity].
      * split; [lia|]. replace (i - s) with (S (i - S s)) by lia. exact H2.
    + intros [H1 H2]. destruct (Nat.eq_dec s i) as [->|Hne].
      * rewrite Nat.sub_diag in H2. injection H2 as ->. left. reflexivity.
      * right. split; [lia|].
        replace (i - s) with (S (i - S s)) in H2 by lia. exact H2.
Qed.

Lemma In_where_cells (m : ndarray bool) (i j : nat) :
  In (i, j) (where_cells m) <-> getitem2 m i j = Return true.
Proof.
  unfold where_cells, getitem2, getitem. rewrite in_concat. split.
  - intros (cells & Hc & Hin).
    apply in_map_iff in Hc as ([i' row] & <- & Hrow). simpl in Hin.
    apply in_map_iff in Hin as ([j' b] & Heq & Hb). simpl in Heq.
    injection Heq as -> ->.
    apply filter_In in Hb as [Hb Ht]. simpl in Ht. subst b.
    apply In_combine_seq in Hrow as [_ Hrow], Hb as [_ Hb].
    rewrite Nat.sub_0_r in Hrow, Hb. rewrite Hrow. simpl. rewrite Hb. reflexivity.
  - destruct (nth_error m i) as [row|] eqn:Er; simpl; [|discriminate].
    destruct (nth_error row j) as [b|] eqn:Eb; [|discriminate].
    intros H. injection H as ->.
    exists (map (fun jb : nat * bool => (i, fst jb))
                (filter (fun jb : nat * bool => snd jb)
                        (combine (seq 0 (length row)) row))).
    split.
    + apply in_map_iff. exists (i, row). split; [reflexivity|].
      apply In_combine_seq. rewrite Nat.sub_0_r. split; [lia|exact Er].
    + apply in_map_iff. exists (j, true). split; [reflexivity|].
      apply filter_In. split; [|reflexivity].
      apply In_combine_seq. rewrite Nat.sub_0_r. split; [lia|exact Eb].
Qed.

Lemma getitem2_np_map {A B : Type} (f : A -> B) (a : ndarray A) (i j : nat) (y : B) :
  getitem2 (np_map f a) i j = Return y
  <-> exists x, getitem2 a i j = Return x /\ f x = y.
Proof.
  unfold getitem2, getitem, np_map. rewrite nth_error_map.
  destruct (nth_error a i) as [row|]; simpl.
  - rewrite nth_error_map. destruct (nth_error row j) as [x|]; simpl.
    + split.
      * intros H. injection H as <-. exists x. auto.
      * intros (x' & H & <-). injection H as ->. reflexivity.
    + split; [discriminate|]. intros (x' & H & _). discriminate.
  - split; [discriminate|]. intros (x' & H & _). discriminate.
Qed.

Lemma In_occupied_cells (a : ndarray Q) (i j : nat) :
  In (i, j) (where_cells (np_map (fun x => Qgtb x 0) a)) <-> positive_at a i j.
Proof.
  rewrite In_where_cells, getitem2_np_map. unfold positive_at.
  split; intros (x & H & G); exists x; (split; [exact H|]); apply Qgtb_gt; exact G.
Qed.

Lemma nat_min_list_spec (x : nat) (l : list nat) :
  In (nat_min_list x l) (x :: l)
  /\ forall y, In y (x :: l) -> nat_min_list x l <= y.
Proof.
  unfold nat_min_list. revert x. induction l as [|z l IH]; intros x; simpl.
  - split; [auto|]. intros y [<-|[]]. lia.
  - destruct (IH (Nat.min x z)) as [Hin Hle]. split.
    + destruct Hin as [Hin|Hin]; [|auto].
      rewrite <- Hin. destruct (Nat.min_spec x z) as [[_ ->]|[_ ->]]; auto.
    + intros y Hy.
      assert (Hm : fold_left Nat.min l (Nat.min x z) <= Nat.min x z)
        by (apply Hle; left; reflexivity).
      destruct Hy as [<-|[<-|Hy]]; [lia|lia|]. apply Hle. right. exact Hy.
Qed.

Lemma nat_max_list_spec (x : nat) (l : list nat) :
  In (nat_max_list x l) (x :: l)
  /\ forall y, In y (x :: l) -> y <= nat_max_list x l.
Proof.
  unfold nat_max_list. revert x. induction l as [|z l IH]; intros x; simpl.
  - split; [auto|]. intros y [<-|[]]. lia.
  - destruct (IH (Nat.max x z)) as [Hin Hle]. split.
    + destruct Hin as [Hin|Hin]; [|auto].
      rewrite <- Hin. destruct (Nat.max_spec x z) as [[_ ->]|[_ ->]]; auto.
    + intros y Hy.
      assert (Hm : Nat.max x z <= fold_left Nat.max l (Nat.max x z))
        by (apply Hle; left; reflexivity).
      destruct Hy as [<-|[<-|Hy]]; [lia|lia|]. apply Hle. right. exact Hy.
Qed.

Lemma np_min_idx_spec (l : list nat) (x : nat) :
  In x l ->
  exists m, np_min_idx l = Return m /\ In m l /\ forall y, In y l -> m <= y.
Proof.
  destruct l as [|z l]; [intros []|]. intros _. simpl.
  exists (nat_min_list z l). split; [reflexivity|]. apply nat_min_list_spec.
Qed.

Lemma np_max_idx_spec (l : list nat) (x : nat) :
  In x l ->
  exists m, np_max_idx l = Return m /\ In m l /\ forall y, In y l -> y <= m.
Proof.
  destruct l as [|z l]; [intros []|]. intros _. simpl.
  exists (nat_max_list z l). split; [reflexivity|]. apply nat_max_list_spec.
Qed.

Lemma occupied_bounding_box (a : ndarray Q) (i0 j0 : nat) :
  positive_at a i0 j0 ->
  let w := np_where (np_map (fun x => Qgtb x 0) a) in
  exists mi Mi mj Mj,
    np_min_idx (fst w) = Return mi /\ np_max_idx (fst w) = Return Mi
    /\ np_min_idx (snd w) = Return mj /\ np_max_idx (snd w) = Return Mj
    /\ is_bounding_box a mi Mi mj Mj.
Proof.
  intros Hpos w. subst w. rewrite np_where_cells. simpl.
  set (cells := where_cells (np_map (fun x => Qgtb x 0) a)).
  assert (Hc : forall i j, In (i, j) cells <-> positive_at a i j)
    by (intros; apply In_occupied_cells).
  assert (H0 : In (i0, j0) cells) by (apply Hc; exact Hpos).
  assert (Hf : forall i j, In (i, j) cells -> In i (map fst cells))
    by (intros i j H; apply in_map_iff; exists (i, j); auto).
  assert (Hs : forall i j, In (i, j) cells -> In j (map snd cells))
    by (intros i j H; apply in_map_iff; exists (i, j); auto).
  destruct (np_min_idx_spec (map fst cells) i0 (Hf _ _ H0)) as (mi & E1 & I1 & L1).
  destruct (np_max_idx_spec (map fst cells) i0 (Hf _ _ H0)) as (Mi & E2 & I2 & L2).
  destruct (np_min_idx_spec (map snd cells) j0 (Hs _ _ H0)) as (mj & E3 & I3 & L3).
  destruct (np_max_idx_spec (map snd cells) j0 (Hs _ _ H0)) as (Mj & E4 & I4 & L4).
  exists mi, Mi, mj, Mj. repeat split; try assumption.
  - apply L1. apply (Hf i j). apply Hc. assumption.
  - apply L2. apply (Hf i j). apply Hc. assumption.
  - apply L3. apply (Hs i j). apply Hc. assumption.
  - apply L4. apply (Hs i j). apply Hc. assumption.
  - apply in_map_iff in I1 as ([i j] & <- & H). exists j. apply Hc. exact H.
  - apply in_map_iff in I2 as ([i j] & <- & H). exists j. apply Hc. exact H.
  - apply in_map_iff in I3 as ([i j] & <- & H). exists i. apply Hc. exact H.
  - apply in_map_iff in I4 as ([i j] & <- & H). exists i. apply Hc. exact H.
Qed.

Lemma list_max_spec (x : Q) (l : list Q) :
  In (list_max x l) (x :: l)
  /\ forall y, In y (x :: l) -> (y <= list_max x l)%Q.
Proof.
  revert x. induction l as [|z l IH]; intros x; simpl.
  - split; [auto|]. intros y [<-|[]]. apply Qle_refl.
  - destruct (IH (if Qltb x z then z else x)) as [Hin Hle]. split.
    + destruct Hin as [Hin|Hin]; [|auto].
      rewrite <- Hin. destruct (Qltb x z); auto.
    + intros y Hy.
      assert (Hm : ((if Qltb x z then z else x) <= list_max (if Qltb x z then z else x) l)%Q)
        by (apply Hle; left; reflexivity).
      destruct Hy as [<-|[<-|Hy]].
      * destruct (Qltb x z) eqn:E; [apply Qltb_lt in E; lra|exact Hm].
      * destruct (Qltb x z) eqn:E; [exact Hm|apply Qltb_ge in E; lra].
      * apply Hle. right. exact Hy.
Qed.

Lemma np_max_spec (a : ndarray Q) (x : Q) :
  In x (flat a) -> exists m, np_max a = Return m /\ is_max a m.
Proof.
  unfold np_max, is_max. destruct (flat a) as [|y l]; [intros []|].
  intros _. exists (list_max y l). split; [reflexivity|]. apply list_max_spec.
Qed.

Lemma np_any_occupied (a : ndarray Q) (i j : nat) :
  positive_at a i j -> np_any (np_map (fun x => Qgtb x 0) a) = true.
Proof.
  intros (x & Hx & Hp). unfold np_any. apply existsb_exists.
  exists true. split; [|reflexivity].
  apply (getitem2_In _ i j). apply getitem2_np_map.
  exists x. split; [exact Hx|]. apply Qgtb_gt. exact Hp.
Qed.

Lemma inject_Z_pos (z : Z) : (0 < z)%Z -> (0 < inject_Z z)%Q.
Proof. intros H. unfold Qlt. simpl. lia. Qed.

Lemma bbox_area_pos (mi Mi mj Mj : nat) :
  mi <= Mi -> mj <= Mj -> (0 < bbox_area mi Mi mj Mj)%Q.
Proof. intros H1 H2. apply inject_Z_pos. nia. Qed.

Lemma compactness_value (a : ndarray Q) (i0 j0 : nat) :
  positive_at a i0 j0 ->
  exists mi Mi mj Mj m,
    is_bounding_box a mi Mi mj Mj
    /\ is_max a m
    /\ (0 < bbox_area mi Mi mj Mj * m)%Q
    /\ PythonBinPacker._calculate_compactness_body a
       = Return (np_sum a / (bbox_area mi Mi mj Mj * m))%Q.
Proof.
  intros Hpos.
  destruct (occupied_bounding_box a i0 j0 Hpos)
    as (mi & Mi & mj & Mj & E1 & E2 & E3 & E4 & Hbox).
  destruct Hpos as (x0 & Hx0 & Hp0).
  destruct (np_max_spec a x0 (getitem2_In _ _ _ _ Hx0)) as (m & Em & Hmax).
  exists mi, Mi, mj, Mj, m.
  assert (Hvol : (0 < bbox_area mi Mi mj Mj * m)%Q).
  { destruct Hbox as (Hin & _).
    destruct (Hin i0 j0) as [Hi Hj]; [exists x0; auto|].
    apply Qmult_lt_0_compat.
    - apply bbox_area_pos; lia.
    - destruct Hmax as [_ Hle]. apply Qlt_le_trans with x0; [exact Hp0|].
      apply Hle. apply (getitem2_In _ _ _ _ Hx0). }
  split; [exact Hbox|]. split; [exact Hmax|]. split; [exact Hvol|].
  unfold PythonBinPacker._calculate_compactness_body.
  cbv zeta.
  rewrite (np_any_occupied a i0 j0) by (exists x0; auto).
  rewrite E1, E2, E3, E4, Em. cbn [bind negb].
  apply Qgtb_gt in Hvol. rewrite Hvol. reflexivity.
Qed.

(** ** A full rectangle *)

Lemma nth_error_map_seq {A : Type} (f : nat -> A) (n i : nat) :
  nth_error (map f (seq 0 n)) i = if i <? n then Some (f i) else None.
Proof.
  rewrite nth_error_map. destruct (i <? n) eqn:E.
  - apply Nat.ltb_lt in E. rewrite nth_error_nth' with (d := 0)
      by (rewrite length_seq; exact E).
    rewrite seq_nth by exact E. reflexivity.
  - apply Nat.ltb_ge in E.
    replace (nth_error (seq 0 n) i) with (@None nat); [reflexivity|].
    symmetry. apply nth_error_None. rewrite length_seq. exact E.
Qed.

Lemma getitem2_rect_map (R C r0 c0 hh ww : nat) (v : Q) (i j : nat) (x : Q) :
  getitem2 (rect_map R C r0 c0 hh ww v) i j = Return x
  <-> i < R /\ j < C /\ x = if in_rect r0 c0 hh ww i j then v else 0%Q.
Proof.
  unfold getitem2, getitem, rect_map. rewrite nth_error_map_seq.
  destruct (i <? R) eqn:Ei; simpl.
  - rewrite nth_error_map_seq. destruct (j <? C) eqn:Ej.
    + apply Nat.ltb_lt in Ei, Ej. split.
      * intros H. injection H as <-. auto.
      * intros (_ & _ & ->). reflexivity.
    + apply Nat.ltb_ge in Ej. split; [discriminate|]. lia.
  - apply Nat.ltb_ge in Ei. split; [discriminate|]. lia.
Qed.

Lemma in_rect_iff (r0 c0 hh ww i j : nat) :
  in_rect r0 c0 hh ww i j = true
  <-> r0 <= i /\ i < r0 + hh /\ c0 <= j /\ j < c0 + ww.
Proof.
  unfold in_rect. rewrite !andb_true_iff, !Nat.leb_le, !Nat.ltb_lt. tauto.
Qed.

Lemma positive_at_rect_map (R C r0 c0 hh ww : nat) (v : Q) (i j : nat) :
  (0 < v)%Q -> r0 + hh <= R -> c0 + ww <= C ->
  (positive_at (rect_map R C r0 c0 hh ww v) i j
   <-> r0 <= i /\ i < r0 + hh /\ c0 <= j /\ j < c0 + ww).
Proof.
  intros Hv HR HC. unfold positive_at. rewrite <- in_rect_iff. split.
  - intros (x & Hx & Hp). apply getitem2_rect_map in Hx as (_ & _ & ->).
    destruct (in_rect r0 c0 hh ww i j); [reflexivity|].
    exfalso. apply (Qlt_irrefl 0). exact Hp.
  - intros Hin. exists v. split; [|exact Hv].
    apply getitem2_rect_map. rewrite Hin.
    apply in_rect_iff in Hin. repeat split; lia.
Qed.

Lemma In_flat_rect_map (R C r0 c0 hh ww : nat) (v x : Q) :
  In x (flat (rect_map R C r0 c0 hh ww v)) -> x = v \/ x = 0%Q.
Proof.
  unfold flat, rect_map. rewrite in_concat. intros (row & Hrow & Hx).
  apply in_map_iff in Hrow as (i & <- & _).
  apply in_map_iff in Hx as (j & <- & _).
  destruct (in_rect r0 c0 hh ww i j); auto.
Qed.

Lemma Qsum_app (l1 l2 : list Q) : (Qsum (l1 ++ l2) == Qsum l1 + Qsum l2)%Q.
Proof.
  unfold Qsum. induction l1 as [|x l1 IH]; simpl.
  - lra.
  - rewrite IH. lra.
Qed.

Lemma Qsum_map_ext {A : Type} (f g : A -> Q) (l : list A) :
  (forall x, In x l -> (f x == g x)%Q) ->
  (Qsum (map f l) == Qsum (map g l))%Q.
Proof.
  unfold Qsum. induction l as [|x l IH]; intros H; simpl.
  - reflexivity.
  - rewrite (H x) by (left; reflexivity).
    rewrite IH; [reflexivity|]. intros y Hy. apply H. right. exact Hy.
Qed.

Lemma Qsum_concat_map {A : Type} (F : A -> list Q) (l : list A) :
  (Qsum (concat (map F l)) == Qsum (map (fun i => Qsum (F i)) l))%Q.
Proof.
  induction l as [|x l IH]; simpl.
  - reflexivity.
  - rewrite Qsum_app, IH. reflexivity.
Qed.

Lemma Q_of_nat_S (n : nat) : (Q_of_nat (S n) == Q_of_nat n + 1)%Q.
Proof.
  unfold Q_of_nat. rewrite Nat2Z.inj_succ. unfold Z.succ.
  rewrite inject_Z_plus. reflexivity.
Qed.

Lemma Qsum_indicator {A : Type} (f : A -> bool) (c : Q) (l : list A) :
  (Qsum (map (fun j => if f j then c else 0) l)
   == Q_of_nat (length (filter f l)) * c)%Q.
Proof.
  unfold Qsum. induction l as [|x l IH]; simpl.
  - unfold Q_of_nat, inject_Z. simpl. lra.
  - destruct (f x); simpl.
    + rewrite IH, Q_of_nat_S. lra.
    + rewrite IH. lra.
Qed.

Lemma count_interval (lo hi n s : nat) :
  length (filter (fun j => (lo <=? j) && (j <? hi)) (seq s n))
  = Nat.min hi (s + n) - Nat.max lo s.
Proof.
  revert s. induction n as [|n IH]; intros s.
  - simpl. lia.
  - change (seq s (S n)) with (s :: seq (S s) n). cbn [filter].
    destruct (Nat.leb_spec lo s), (Nat.ltb_spec s hi); cbn [andb length];
      rewrite IH; lia.
Qed.

Lemma np_sum_rect_map (R C r0 c0 hh ww : nat) (v : Q) :
  r0 + hh <= R -> c0 + ww <= C ->
  (np_sum (rect_map R C r0 c0 hh ww v) == Q_of_nat hh * (Q_of_nat ww * v))%Q.
Proof.
  intros HR HC. unfold np_sum, flat, rect_map.
  rewrite Qsum_concat_map.
  rewrite (Qsum_map_ext _
             (fun i => if (r0 <=? i) && (i <? r0 + hh)
                       then (Q_of_nat ww * v)%Q else 0%Q)).
  - rewrite Qsum_indicator, count_interval.
    replace (Nat.min (r0 + hh) (0 + R) - Nat.max r0 0) with hh by lia.
    reflexivity.
  - intros i _. rewrite Qsum_indicator.
    unfold in_rect. destruct ((r0 <=? i) && (i <? r0 + hh)); simpl.
    + rewrite count_interval.
      replace (Nat.min (c0 + ww) (0 + C) - Nat.max c0 0) with ww by lia.
      reflexivity.
    + replace (filter (fun _ : nat => false) (seq 0 C)) with (@nil nat).
      * unfold Q_of_nat, inject_Z. simpl. lra.
      * symmetry. induction (seq 0 C); simpl; auto.
Qed.

Lemma compactness_of_rect_map (R C r0 c0 hh ww : nat) (v : Q) :
  0 < hh -> 0 < ww -> r0 + hh <= R -> c0 + ww <= C -> (0 < v)%Q ->
  exists q,
    PythonBinPacker._calculate_compactness (rect_map R C r0 c0 hh ww v) = Return q
    /\ (q == 1)%Q.
Proof.
  intros Hh Hw HR HC Hv.
  set (a := rect_map R C r0 c0 hh ww v).
  assert (P : forall i j, positive_at a i j
                          <-> r0 <= i /\ i < r0 + hh /\ c0 <= j /\ j < c0 + ww)
    by (intros; apply positive_at_rect_map; assumption).
  assert (P0 : positive_at a r0 c0) by (apply P; lia).
  destruct (compactness_value a r0 c0 P0)
    as (mi & Mi & mj & Mj & m & Hbox & Hmax & Hvol & E).
  unfold PythonBinPacker._calculate_compactness. rewrite E. simpl.
  eexists. split; [reflexivity|].
  destruct Hbox as (Hin & (j1 & H1) & (j2 & H2) & (i3 & H3) & (i4 & H4)).
  apply P in H1, H2, H3, H4.
  assert (L1 : r0 <= r0 + hh - 1 < r0 + hh) by lia.
  assert (L2 : c0 <= c0 + ww - 1 < c0 + ww) by lia.
  destruct (Hin r0 c0 P0) as [A1 A2].
  destruct (Hin (r0 + hh - 1) (c0 + ww - 1)) as [B1 B2]; [apply P; lia|].
  assert (Ei : mi = r0 /\ Mi = r0 + hh - 1 /\ mj = c0 /\ Mj = c0 + ww - 1) by lia.
  destruct Ei as (-> & -> & -> & ->).
  assert (Em : m = v).
  { destruct Hmax as [Hm Hle].
    destruct (In_flat_rect_map _ _ _ _ _ _ _ _ Hm) as [->| ->]; [reflexivity|].
    exfalso. apply (Qlt_not_le _ _ Hv). apply Hle.
    destruct P0 as (x & Hx & _).
    pose proof (getitem2_In _ _ _ _ Hx) as Hx'.
    apply getitem2_rect_map in Hx as (_ & _ & ->).
    replace (in_rect r0 c0 hh ww r0 c0) with true in Hx'; [exact Hx'|].
    symmetry. apply in_rect_iff. lia. }
  subst m. unfold a. rewrite (np_sum_rect_map R C r0 c0 hh ww v HR HC).
  assert (Ea : (bbox_area r0 (r0 + hh - 1) c0 (c0 + ww - 1)
                == Q_of_nat hh * Q_of_nat ww)%Q).
  { unfold bbox_area, Q_of_nat. rewrite <- inject_Z_mult.
    replace (Z.of_nat (r0 + hh - 1) - Z.of_nat r0 + 1)%Z with (Z.of_nat hh) by lia.
    replace (Z.of_nat (c0 + ww - 1) - Z.of_nat c0 + 1)%Z with (Z.of_nat ww) by lia.
    reflexivity. }
  rewrite Ea in Hvol |- *.
  assert (Qh : (0 < Q_of_nat hh)%Q) by (apply inject_Z_pos; lia).
  assert (Qw : (0 < Q_of_nat ww)%Q) by (apply inject_Z_pos; lia).
  field. repeat split; lra.
Qed.

(** C9.  With a cell above zero, the compactness score is the sum of the
    action map divided by the product of the area of the bounding box of the
    cells above zero and the greatest cell; for a map that is a positive
    constant on a rectangle and zero elsewhere the score is 1. *)
Theorem compactness_is_volume_ratio :
  (forall (a : ndarray Q) (i0 j0 : nat),
      positive_at a i0 j0 ->
      exists mi Mi mj Mj m,
        is_bounding_box a mi Mi mj Mj
        /\ is_max a m
        /\ (0 < bbox_area mi Mi mj Mj * m)%Q
        /\ PythonBinPacker._calculate_compactness a
           = Return (np_sum a / (bbox_area mi Mi mj Mj * m))%Q)
  /\ (forall (R C r0 c0 hh ww : nat) (v : Q),
         0 < hh -> 0 < ww -> r0 + hh <= R -> c0 + ww <= C -> (0 < v)%Q ->
         exists q,
           PythonBinPacker._calculate_compactness (rect_map R C r0 c0 hh ww v)
           = Return q
           /\ (q == 1)%Q).
Proof.
  split.
  - intros a i0 j0 Hpos.
    destruct (compactness_value a i0 j0 Hpos)
      as (mi & Mi & mj & Mj & m & Hbox & Hmax & Hvol & E).
    exists mi, Mi, mj, Mj, m.
    split; [exact Hbox|]. split; [exact Hmax|]. split; [exact Hvol|].
    unfold PythonBinPacker._calculate_compactness. rewrite E. reflexivity.
  - apply compactness_of_rect_map.
Qed.

Lemma compactness_is_volume_ratio_witness :
  positive_at stack_3x3 4 5
  /\ (exists mi Mi mj Mj m,
         is_bounding_box stack_3x3 mi Mi mj Mj
         /\ is_max stack_3x3 m
         /\ (0 < bbox_area mi Mi mj Mj * m)%Q
         /\ PythonBinPacker._calculate_compactness stack_3x3
            = Return (np_sum stack_3x3 / (bbox_area mi Mi mj Mj * m))%Q)
  /\ exists q,
      PythonBinPacker._calculate_compactness (rect_map 32 32 4 5 3 3 (1 # 2))
      = Return q
      /\ (q == 1)%Q.
Proof.
  assert (P : positive_at stack_3x3 4 5).
  { exists 1%Q. split; reflexivity. }
  destruct compactness_is_volume_ratio as [G K].
  split; [exact P|]. split.
  - exact (G stack_3x3 4 5 P).
  - apply (K 32 32 4 5 3 3 (1 # 2)%Q); try lia. reflexivity.
Defined.


(** ** Counting marks *)

Lemma count_upd_row (row : list bool) (j : nat) :
  j < length row -> nth j row false = false ->
  length (filter (fun b => b) (upd row j true))
  = S (length (filter (fun b => b) row)).
Proof.
  revert j. induction row as [|b row IH]; intros [|j] Hj Hn; simpl in *; try lia.
  - subst b. reflexivity.
  - destruct b; simpl; rewrite IH by (assumption || lia); reflexivity.
Qed.

Lemma count_flat_upd (g : ndarray bool) (i : nat) (row' : list bool) :
  i < length g ->
  length (filter (fun b => b) (concat (upd g i row')))
  + length (filter (fun b => b) (nth i g []))
  = length (filter (fun b => b) (concat g))
    + length (filter (fun b => b) row').
Proof.
  revert i. induction g as [|row g IH]; intros [|i] Hi; simpl in *; try lia.
  - rewrite !filter_app, !length_app. lia.
  - rewrite !filter_app, !length_app.
    specialize (IH i ltac:(lia)). lia.
Qed.

Lemma np_count_upd2 (n : nat) (v : ndarray bool) (i j : nat) :
  square n v -> i < n -> j < n -> at2 false v i j = false ->
  np_count (upd2 v i j true) = S (np_count v).
Proof.
  intros Hs Hi Hj Hf. unfold np_count, flat, upd2.
  pose proof (count_flat_upd v i (upd (nth i v []) j true)) as H.
  rewrite count_upd_row in H.
  - destruct Hs as [Hl _]. specialize (H ltac:(lia)). lia.
  - rewrite (square_row n v i Hs Hi). exact Hj.
  - exact Hf.
Qed.

Lemma length_flat_square {A : Type} (n : nat) (g : ndarray A) :
  square n g -> length (flat g) = n * n.
Proof.
  intros [Hl Hr]. unfold flat.
  assert (E : length (concat g) = length g * n).
  { clear Hl. induction Hr as [|row g Hrow _ IH]; simpl; [reflexivity|].
    rewrite length_app, IH, Hrow. reflexivity. }
  rewrite E, Hl. reflexivity.
Qed.

Lemma np_count_le (n : nat) (v : ndarray bool) :
  square n v -> np_count v <= n * n.
Proof.
  intros Hs. unfold np_count. rewrite <- (length_flat_square n v Hs).
  apply filter_length_le.
Qed.

(** ** [_flood_fill] *)

Section FloodFill.

Variable self : PythonBinPacker.t.
Let n := PythonBinPacker.grid_size self.
Variable height_map : ndarray Q.
Variables target tolerance : Q.
Hypothesis square_height_map : square n height_map.

Lemma flood_stop_value (v : ndarray bool) (i j : Z) :
  square n v ->
  PythonBinPacker.flood_stop self height_map v i j target tolerance
  = Return (if ((i <? 0) || (Z.of_nat n <=? i) || (j <? 0) || (Z.of_nat n <=? j))%Z
            then true
            else if at2 false v (Z.to_nat i) (Z.to_nat j) then true
                 else Qgtb (Qabs (at2 0%Q height_map (Z.to_nat i) (Z.to_nat j)
                                  - target)) tolerance).
Proof.
  intros Hv. unfold PythonBinPacker.flood_stop. fold n.
  destruct ((i <? 0) || (Z.of_nat n <=? i) || (j <? 0) || (Z.of_nat n <=? j))%Z
    eqn:E; [reflexivity|].
  rewrite !orb_false_iff in E. destruct E as [[[E1 E2] E3] E4].
  apply Z.ltb_ge in E1, E3. apply Z.leb_gt in E2, E4.
  assert (Hi : Z.to_nat i < n) by lia. assert (Hj : Z.to_nat j < n) by lia.
  rewrite (getitem2_at2 false n v _ _ Hv Hi Hj). simpl.
  destruct (at2 false v (Z.to_nat i) (Z.to_nat j)); [reflexivity|].
  rewrite (getitem2_at2 0%Q n height_map _ _ square_height_map Hi Hj).
  reflexivity.
Qed.

Lemma fill_ok_refl (v : ndarray bool) :
  square n v -> fill_ok n height_map target tolerance v (v, 0).
Proof.
  intros Hv. unfold fill_ok. simpl.
  split; [exact Hv|]. split; [lia|]. split; [auto|].
  intros i j _ _ H1 H2. congruence.
Qed.

Lemma fill_ok_trans (v vk : ndarray bool) (ak : nat) (r : ndarray bool * nat) :
  fill_ok n height_map target tolerance v (vk, ak) ->
  fill_ok n height_map target tolerance vk r ->
  fill_ok n height_map target tolerance v (fst r, ak + snd r).
Proof.
  intros (S1 & C1 & M1 & T1) (S2 & C2 & M2 & T2). simpl in *.
  unfold fill_ok. simpl.
  split; [exact S2|]. split; [lia|]. split; [auto|].
  intros i j Hi Hj Hv Hr.
  destruct (at2 false vk i j) eqn:Ek; [apply T1|apply T2]; assumption.
Qed.

Lemma fill_ok_mark (v : ndarray bool) (i j : nat) :
  square n v -> i < n -> j < n -> at2 false v i j = false ->
  (Qabs (at2 0 height_map i j - target) <= tolerance)%Q ->
  fill_ok n height_map target tolerance v (upd2 v i j true, 1).
Proof.
  intros Hv Hi Hj Hf Ht. unfold fill_ok. simpl.
  split; [|split; [|split]].
  - apply (square_upd2 n v i j true Hv Hi).
  - rewrite (np_count_upd2 n v i j Hv Hi Hj Hf). lia.
  - intros i' j' H. rewrite (at2_upd2 false n) by assumption.
    destruct ((i' =? i) && (j' =? j)); auto.
  - intros i' j' Hi' Hj' H1 H2. rewrite (at2_upd2 false n) in H2 by assumption.
    destruct ((i' =? i) && (j' =? j)) eqn:E; [|congruence].
    apply andb_true_iff in E as [Ei Ej]. apply Nat.eqb_eq in Ei, Ej.
    subst i' j'. exact Ht.
Qed.

Lemma fill_bind (frames : nat) (v vk : ndarray bool) (ak : nat)
  (o : outcome (ndarray bool * nat))
  (K : ndarray bool * nat -> outcome (ndarray bool * nat)) :
  fill_ok n height_map target tolerance v (vk, ak) -> 1 <= ak ->
  fill_spec n height_map target tolerance frames vk o ->
  (forall r, fill_ok n height_map target tolerance vk r ->
             fill_spec n height_map target tolerance (S frames) v (K r)) ->
  fill_spec n height_map target tolerance (S frames) v (bind o K).
Proof.
  intros (_ & C & _) Hak Ho HK. simpl in C.
  destruct o as [r|e]; simpl in *.
  - apply HK. exact Ho.
  - destruct e; try contradiction. lia.
Qed.

Lemma flood_fill_spec (frames : nat) :
  forall (v : ndarray bool) (i j : Z),
    square n v ->
    fill_spec n height_map target tolerance frames v
      (PythonBinPacker._flood_fill self frames height_map v i j target tolerance).
Proof.
  induction frames as [|frames IH]; intros v i j Hv.
  - simpl. apply np_count_le. exact Hv.
  - cbn [PythonBinPacker._flood_fill]. rewrite flood_stop_value by exact Hv.
    cbn [bind].
    destruct ((i <? 0) || (Z.of_nat n <=? i) || (j <? 0) || (Z.of_nat n <=? j))%Z
      eqn:E; [apply fill_ok_refl; exact Hv|].
    rewrite !orb_false_iff in E. destruct E as [[[E1 E2] E3] E4].
    apply Z.ltb_ge in E1, E3. apply Z.leb_gt in E2, E4.
    assert (Hi : Z.to_nat i < n) by lia. assert (Hj : Z.to_nat j < n) by lia.
    destruct (at2 false v (Z.to_nat i) (Z.to_nat j)) eqn:Ev;
      [apply fill_ok_refl; exact Hv|].
    destruct (Qgtb _ tolerance) eqn:Et; [apply fill_ok_refl; exact Hv|].
    apply Qgtb_le in Et.
    rewrite (setitem2_upd2 n v _ _ true Hv Hi Hj). cbn [bind].
    pose proof (fill_ok_mark v _ _ Hv Hi Hj Ev Et) as M0.
    set (v1 := upd2 v (Z.to_nat i) (Z.to_nat j) true) in *.
    assert (S1 : square n v1) by apply M0.
    apply (fill_bind frames v v1 1 _ _ M0 (le_n 1)); [apply IH; exact S1|].
    intros r1 R1. cbn zeta.
    pose proof (fill_ok_trans v v1 1 r1 M0 R1) as M1.
    apply (fill_bind frames v (fst r1) (1 + snd r1) _ _ M1 ltac:(lia));
      [apply IH; apply R1|].
    intros r2 R2.
    pose proof (fill_ok_trans v (fst r1) (1 + snd r1) r2 M1 R2) as M2.
    apply (fill_bind frames v (fst r2) (1 + snd r1 + snd r2) _ _ M2 ltac:(lia));
      [apply IH; apply R2|].
    intros r3 R3.
    pose proof (fill_ok_trans v (fst r2) (1 + snd r1 + snd r2) r3 M2 R3) as M3.
    apply (fill_bind frames v (fst r3) (1 + snd r1 + snd r2 + snd r3) _ _ M3
             ltac:(lia)); [apply IH; apply R3|].
    intros r4 R4.
    exact (fill_ok_trans v (fst r3) (1 + snd r1 + snd r2 + snd r3) r4 M3 R4).
Qed.

(** With more frames than cells left unmarked, [_flood_fill] returns. *)
Lemma flood_fill_returns (frames : nat) (v : ndarray bool) (i j : Z) :
  square n v -> n * n < frames + np_count v ->
  exists r,
    PythonBinPacker._flood_fill self frames height_map v i j target tolerance
    = Return r
    /\ fill_ok n height_map target tolerance v r.
Proof.
  intros Hv Hf. pose proof (flood_fill_spec frames v i j Hv) as H.
  destruct (PythonBinPacker._flood_fill self frames height_map v i j
              target tolerance) as [r|e]; simpl in H.
  - exists r. auto.
  - destruct e; try contradiction. lia.
Qed.

End FloodFill.

(** More frames do not change a result. *)
Lemma flood_fill_more_frames (self : PythonBinPacker.t) (height_map : ndarray Q)
  (target tolerance : Q) (frames : nat) :
  forall (frames' : nat) (v : ndarray bool) (i j : Z) (r : ndarray bool * nat),
    frames <= frames' ->
    PythonBinPacker._flood_fill self frames height_map v i j target tolerance
    = Return r ->
    PythonBinPacker._flood_fill self frames' height_map v i j target tolerance
    = Return r.
Proof.
  induction frames as [|frames IH]; intros frames' v i j r Hle H.
  - discriminate.
  - destruct frames' as [|frames']; [lia|].
    assert (Hle' : frames <= frames') by lia.
    cbn [PythonBinPacker._flood_fill] in *.
    destruct (PythonBinPacker.flood_stop self height_map v i j target tolerance)
      as [[|]|e]; cbn [bind] in *; try assumption.
    destruct (setitem2 v (Z.to_nat i) (Z.to_nat j) true) as [v1|e];
      cbn [bind] in *; [|discriminate].
    destruct (PythonBinPacker._flood_fill self frames height_map v1 (i + 1) j
                target tolerance) as [r1|e] eqn:E1; cbn [bind] in H; [|discriminate].
    rewrite (IH frames' _ _ _ _ Hle' E1). cbn [bind].
    destruct (PythonBinPacker._flood_fill self frames height_map (fst r1) (i - 1) j
                target tolerance) as [r2|e] eqn:E2; cbn [bind] in H; [|discriminate].
    rewrite (IH frames' _ _ _ _ Hle' E2). cbn [bind].
    destruct (PythonBinPacker._flood_fill self frames height_map (fst r2) i (j + 1)
                target tolerance) as [r3|e] eqn:E3; cbn [bind] in H; [|discriminate].
    rewrite (IH frames' _ _ _ _ Hle' E3). cbn [bind].
    destruct (PythonBinPacker._flood_fill self frames height_map (fst r3) i (j - 1)
                target tolerance) as [r4|e] eqn:E4; cbn [bind] in H; [|discriminate].
    rewrite (IH frames' _ _ _ _ Hle' E4). cbn [bind]. exact H.
Qed.

Lemma for_each_mono {A S : Type} (b1 b2 : A -> S -> outcome S) (l : list A) :
  (forall x s r, b1 x s = Return r -> b2 x s = Return r) ->
  forall s r, for_each l b1 s = Return r -> for_each l b2 s = Return r.
Proof.
  intros Hb. induction l as [|x l IH]; intros s r H; simpl in *.
  - exact H.
  - destruct (b1 x s) as [s1|e] eqn:E; simpl in H; [|discriminate].
    rewrite (Hb x s s1 E). simpl. apply IH. exact H.
Qed.

Lemma flat_area_step_more_frames (limit limit' : nat) (self : PythonBinPacker.t)
  (height_map : ndarray Q) (i j : nat) (st r : ndarray bool * list nat) :
  limit <= limit' ->
  PythonBinPacker.flat_area_step limit self height_map i j st = Return r ->
  PythonBinPacker.flat_area_step limit' self height_map i j st = Return r.
Proof.
  intros Hle. unfold PythonBinPacker.flat_area_step.
  destruct (getitem2 height_map i j) as [h|e]; cbn [bind]; [|discriminate].
  destruct (if Qgtb h 0
            then v <- getitem2 (fst st) i j;; Return (negb v)
            else Return false) as [[|]|e]; cbn [bind]; try (intros H; exact H).
  destruct (PythonBinPacker._flood_fill self limit height_map (fst st)
              (Z.of_nat i) (Z.of_nat j) h (1 # 10)) as [r1|e] eqn:E;
    cbn [bind]; [|discriminate].
  rewrite (flood_fill_more_frames self height_map h (1 # 10) limit limit'
             _ _ _ _ Hle E).
  cbn [bind]. intros H; exact H.
Qed.

Lemma find_flat_areas_more_frames (limit limit' : nat) (self : PythonBinPacker.t)
  (height_map : ndarray Q) (areas : list nat) :
  limit <= limit' ->
  PythonBinPacker._find_flat_areas limit self height_map = Return areas ->
  PythonBinPacker._find_flat_areas limit' self height_map = Return areas.
Proof.
  intros Hle. unfold PythonBinPacker._find_flat_areas, PythonBinPacker.flat_area_scan.
  match goal with
  | |- bind (for_each ?l ?b1 ?s) _ = _ -> bind (for_each _ ?b2 _) _ = _ =>
      destruct (for_each l b1 s) as [r|e] eqn:E; cbn [bind]; [|discriminate];
      rewrite (for_each_mono b1 b2 l) with (r := r); [auto| |exact E]
  end.
  intros i s r0. apply for_each_mono. intros j s' r'.
  apply flat_area_step_more_frames. exact Hle.
Qed.

(** ** The scan of [_find_flat_areas] *)

Lemma for_each_outcome {A S : Type} (P : S -> Prop) (E : exn -> Prop)
  (body : A -> S -> outcome S) (l : list A) :
  (forall x s, In x l -> P s ->
               match body x s with Return s' => P s' | Raise e => E e end) ->
  forall s, P s ->
            match for_each l body s with Return s' => P s' | Raise e => E e end.
Proof.
  induction l as [|x l IH]; intros Hb s Hs; simpl.
  - exact Hs.
  - pose proof (Hb x s (or_introl eq_refl) Hs) as H.
    destruct (body x s) as [s1|e]; simpl; [|exact H].
    apply IH; [|exact H]. intros y s' Hy. apply Hb. right. exact Hy.
Qed.

Lemma total_area_app (l : list nat) (x : nat) :
  total_area (l ++ [x]) = total_area l + x.
Proof.
  unfold total_area. induction l as [|y l IH]; simpl; [lia|]. rewrite IH. lia.
Qed.

Lemma np_count_zeros_like {A : Type} (g : ndarray A) :
  np_count (np_zeros_like g) = 0.
Proof.
  unfold np_count, np_zeros_like, np_map, flat.
  induction g as [|row g IH]; simpl; [reflexivity|].
  rewrite filter_app, length_app, IH, Nat.add_0_r.
  induction row as [|x row IHr]; simpl; auto.
Qed.

Section Scan.

Variable limit : nat.
Variable self : PythonBinPacker.t.
Let n := PythonBinPacker.grid_size self.
Variable height_map : ndarray Q.
Hypothesis square_height_map : square n height_map.

Lemma flat_area_step_spec (i j : nat) (st : ndarray bool * list nat) :
  i < n -> j < n -> scan_inv n st ->
  match PythonBinPacker.flat_area_step limit self height_map i j st with
  | Return st' => scan_inv n st'
  | Raise e => scan_exn n limit e
  end.
Proof.
  intros Hi Hj (Hsq & Htot & Hpos). unfold PythonBinPacker.flat_area_step.
  rewrite (getitem2_at2 0%Q n height_map i j square_height_map Hi Hj).
  cbn [bind].
  destruct (Qgtb (at2 0%Q height_map i j) 0).
  - rewrite (getitem2_at2 false n (fst st) i j Hsq Hi Hj). cbn [bind].
    destruct (negb (at2 false (fst st) i j)); cbn [bind].
    + pose proof (flood_fill_spec self height_map (at2 0%Q height_map i j) (1 # 10)
                    square_height_map limit (fst st) (Z.of_nat i) (Z.of_nat j) Hsq)
        as H.
      fold n in H.
      destruct (PythonBinPacker._flood_fill self limit height_map (fst st)
                  (Z.of_nat i) (Z.of_nat j) (at2 0%Q height_map i j) (1 # 10))
        as [r|e]; cbn [bind]; simpl in H.
      * destruct H as (S1 & C1 & _).
        destruct (0 <? snd r) eqn:E; unfold scan_inv; simpl.
        -- apply Nat.ltb_lt in E. split; [exact S1|]. split.
           ++ rewrite total_area_app, C1, Htot. reflexivity.
           ++ apply Forall_app. split; [exact Hpos|]. constructor; [exact E|constructor].
        -- apply Nat.ltb_ge in E. split; [exact S1|]. split; [lia|exact Hpos].
      * destruct e; try contradiction. split; [reflexivity|]. fold n. lia.
    + split; [exact Hsq|]. split; assumption.
  - cbn [bind]. split; [exact Hsq|]. split; assumption.
Qed.

Lemma flat_area_scan_spec :
  match PythonBinPacker.flat_area_scan limit self height_map with
  | Return st => scan_inv n st
  | Raise e => scan_exn n limit e
  end.
Proof.
  unfold PythonBinPacker.flat_area_scan. fold n.
  apply (for_each_outcome (scan_inv n) (scan_exn n limit)).
  - intros i st Hi Hst. apply in_range in Hi.
    apply (for_each_outcome (scan_inv n) (scan_exn n limit)); [|exact Hst].
    intros j st' Hj Hst'. apply in_range in Hj.
    apply flat_area_step_spec; assumption.
  - unfold scan_inv. simpl. split; [apply square_zeros_like; assumption|].
    split; [rewrite np_count_zeros_like; reflexivity|constructor].
Qed.

End Scan.

(** ** The recursion of [_flood_fill] along a level column *)

Lemma flood_fill_column (self : PythonBinPacker.t) (height_map : ndarray Q)
  (target tolerance : Q) :
  square (PythonBinPacker.grid_size self) height_map ->
  (forall i, i < PythonBinPacker.grid_size self ->
             (Qabs (at2 0 height_map i 0 - target) <= tolerance)%Q) ->
  forall (frames : nat) (v : ndarray bool) (i : nat),
    square (PythonBinPacker.grid_size self) v ->
    frames + i <= PythonBinPacker.grid_size self ->
    (forall i', i <= i' < PythonBinPacker.grid_size self ->
                at2 false v i' 0 = false) ->
    PythonBinPacker._flood_fill self frames height_map v (Z.of_nat i) 0
      target tolerance
    = Raise RecursionError.
Proof.
  intros Hh Hlevel. induction frames as [|frames IH]; intros v i Hv Hf Hun.
  - reflexivity.
  - cbn [PythonBinPacker._flood_fill].
    rewrite (flood_stop_value self height_map target tolerance Hh v _ _ Hv).
    assert (Hi : i < PythonBinPacker.grid_size self) by lia.
    replace ((Z.of_nat i <? 0) || (Z.of_nat (PythonBinPacker.grid_size self) <=? Z.of_nat i)
             || (0 <? 0) || (Z.of_nat (PythonBinPacker.grid_size self) <=? 0))%Z
      with false.
    2:{ symmetry. rewrite !orb_false_iff. repeat split.
        - apply Z.ltb_ge. lia.
        - apply Z.leb_gt. lia.
        - apply Z.leb_gt. lia. }
    rewrite Nat2Z.id. change (Z.to_nat 0) with 0.
    rewrite (Hun i) by lia.
    replace (Qgtb (Qabs (at2 0%Q height_map i 0 - target)) tolerance) with false
      by (symmetry; apply Qgtb_le; apply Hlevel; exact Hi).
    cbn [bind].
    rewrite (setitem2_upd2 (PythonBinPacker.grid_size self) v i 0 true Hv Hi)
      by lia.
    cbn [bind].
    replace (Z.of_nat i + 1)%Z with (Z.of_nat (S i)) by lia.
    rewrite IH; [reflexivity| |lia|].
    + apply square_upd2; assumption.
    + intros i' Hi'.
      rewrite (at2_upd2 false (PythonBinPacker.grid_size self)) by (assumption || lia).
      replace (i' =? i) with false by (symmetry; apply Nat.eqb_neq; lia).
      apply Hun. lia.
Qed.

Lemma square_rect_map (n r0 c0 hh ww : nat) (v : Q) :
  square n (rect_map n n r0 c0 hh ww v).
Proof.
  unfold square, rect_map. split.
  - rewrite length_map, length_seq. reflexivity.
  - apply Forall_forall. intros row Hrow.
    apply in_map_iff in Hrow as (i & <- & _).
    rewrite length_map, length_seq. reflexivity.
Qed.

Lemma at2_rect_map (n r0 c0 hh ww : nat) (v : Q) (i j : nat) :
  i < n -> j < n ->
  at2 0%Q (rect_map n n r0 c0 hh ww v) i j
  = if in_rect r0 c0 hh ww i j then v else 0%Q.
Proof.
  intros Hi Hj.
  pose proof (getitem2_at2 0%Q n _ i j (square_rect_map n r0 c0 hh ww v) Hi Hj) as H.
  apply getitem2_rect_map in H as (_ & _ & H). exact H.
Qed.

Lemma one_area_everywhere :
  forallb (fun r => forallb (fun c => finds_one_area_of_9 r c) (seq 0 30)) (seq 0 30)
  = true.
Proof. vm_compute. reflexivity. Qed.

Lemma one_area_of_9 (r c limit : nat) :
  r <= 29 -> c <= 29 -> 10 <= limit ->
  PythonBinPacker._find_flat_areas limit packer (rect_map 32 32 r c 3 3 1)
  = Return [9].
Proof.
  intros Hr Hc Hl.
  pose proof one_area_everywhere as H. rewrite forallb_forall in H.
  specialize (H r ltac:(apply in_seq; lia)). rewrite forallb_forall in H.
  specialize (H c ltac:(apply in_seq; lia)). unfold finds_one_area_of_9 in H.
  apply (find_flat_areas_more_frames 10 limit); [exact Hl|].
  destruct (PythonBinPacker._find_flat_areas 10 packer (rect_map 32 32 r c 3 3 1))
    as [[|x l]|e]; try discriminate.
  do 9 (destruct x as [|x]; [discriminate|]).
  destruct x; [|discriminate].
  destruct l; [reflexivity|discriminate].
Qed.



(** ** Frames *)

Lemma plateau_column_overflows (k : nat) :
  PythonBinPacker._flood_fill {| PythonBinPacker.grid_size := S k |} k
    (plateau (S k) 1) (np_zeros_like (plateau (S k) 1)) 0 0
    (at2 0%Q (plateau (S k) 1) 0 0) (1 # 10)
  = Raise RecursionError.
Proof.
  assert (Hs : square (S k) (plateau (S k) 1)) by apply square_rect_map.
  assert (Hat : forall i, i < S k -> at2 0%Q (plateau (S k) 1) i 0 = 1%Q).
  { intros i Hi. unfold plateau. rewrite at2_rect_map by lia.
    replace (in_rect 0 0 (S k) (S k) i 0) with true; [reflexivity|].
    symmetry. apply in_rect_iff. lia. }
  apply (flood_fill_column {| PythonBinPacker.grid_size := S k |}
           (plateau (S k) 1) (at2 0%Q (plateau (S k) 1) 0 0) (1 # 10) Hs)
    with (i := 0).
  - intros i Hi. simpl in Hi. rewrite !Hat by lia. vm_compute. discriminate.
  - apply square_zeros_like. exact Hs.
  - simpl. lia.
  - intros i' _. apply at2_zeros_like.
Qed.

(** C2, counterexample.  No number of frames is enough for every grid: on
    the level grid of side [k + 1] a call with [k] frames overflows.  With
    the 1000 frames of the interpreter's default limit, the level 32 x 32
    grid overflows. *)
Lemma flood_fill_is_not_constant_stack :
  ~ (exists k, forall self height_map,
        square (PythonBinPacker.grid_size self) height_map ->
        PythonBinPacker._flood_fill self k height_map (np_zeros_like height_map)
          0 0 (at2 0%Q height_map 0 0) (1 # 10) <> Raise RecursionError)
  /\ PythonBinPacker._flood_fill packer 1000 plateau_32 (np_zeros_like plateau_32)
       0 0 (at2 0%Q plateau_32 0 0) (1 # 10) = Raise RecursionError.
Proof.
  split.
  - intros [k H].
    apply (H {| PythonBinPacker.grid_size := S k |} (plateau (S k) 1)).
    + apply square_rect_map.
    + apply plateau_column_overflows.
  - vm_compute. reflexivity.
Qed.

(** ** Scores in the unit interval *)

Open Scope Q_scope.

Lemma py_min_unit (m : Q) : 0 <= m -> unit_score (py_min 1 m).
Proof.
  intros Hm. unfold unit_score, py_min.
  destruct (Qltb m 1) eqn:E.
  - apply Qltb_lt in E. lra.
  - lra.
Qed.

Lemma py_max_unit (x : Q) : x <= 1 -> unit_score (py_max 0 x).
Proof.
  intros Hx. unfold unit_score, py_max.
  destruct (Qgtb x 0) eqn:E.
  - apply Qgtb_gt in E. lra.
  - lra.
Qed.

Lemma Qdiv_nonneg (a b : Q) : 0 <= a -> 0 <= b -> 0 <= a / b.
Proof.
  intros Ha Hb. unfold Qdiv. apply Qmult_le_0_compat; [exact Ha|].
  apply Qinv_le_0_compat. exact Hb.
Qed.

Lemma Qsum_nonneg (l : list Q) : (forall x, In x l -> 0 <= x) -> 0 <= Qsum l.
Proof.
  unfold Qsum. induction l as [|x l IH]; intros H; simpl.
  - lra.
  - assert (0 <= x) by (apply H; left; reflexivity).
    assert (0 <= fold_right Qplus 0 l) by (apply IH; intros y Hy; apply H; right; exact Hy).
    lra.
Qed.

Lemma Q_of_nat_nonneg (n : nat) : 0 <= Q_of_nat n.
Proof. unfold Q_of_nat, Qle. simpl. lia. Qed.

Lemma Q_of_nat_le (n m : nat) : (n <= m)%nat -> Q_of_nat n <= Q_of_nat m.
Proof. intros H. unfold Q_of_nat, Qle. simpl. lia. Qed.

Lemma Q_of_nat_pos (n : nat) : (0 < n)%nat -> 0 < Q_of_nat n.
Proof. intros H. apply inject_Z_pos. lia. Qed.

Lemma mean_nonneg (l : list Q) : (forall x, In x l -> 0 <= x) -> 0 <= mean l.
Proof.
  intros H. unfold mean. apply Qdiv_nonneg.
  - apply Qsum_nonneg. exact H.
  - apply Q_of_nat_nonneg.
Qed.

Lemma variance_nonneg (l : list Q) : 0 <= variance l.
Proof.
  unfold variance. apply mean_nonneg. intros x Hx.
  apply in_map_iff in Hx as (y & <- & _).
  set (d := y - mean l). nra.
Qed.

Lemma variance_score_unit (a : ndarray Q) :
  unit_score (py_max 0 (1 - np_var a / (1 # 4))).
Proof.
  apply py_max_unit. unfold np_var.
  pose proof (variance_nonneg (flat a)) as H.
  assert (0 <= variance (flat a) / (1 # 4)) by (apply Qdiv_nonneg; [exact H|lra]).
  lra.
Qed.

Lemma height_utilization_unit (a : ndarray Q) (m : Q) :
  nonneg_grid a -> np_max a = Return m -> unit_score (py_min 1 m).
Proof.
  intros Hn Hm. apply py_min_unit. apply Hn.
  unfold np_max in Hm. destruct (flat a) as [|x l] eqn:E; [discriminate|].
  injection Hm as <-. apply (list_max_spec x l).
Qed.

Lemma ratio_score_unit (s b : nat) :
  (s <= b)%nat -> (0 < b)%nat ->
  let p := Q_of_nat s / Q_of_nat b in
  unit_score (if Qltb p (1 # 2) then (1 # 10) * (p / (1 # 2)) else p).
Proof.
  intros Hsb Hb p.
  assert (Hp0 : 0 <= p)
    by (apply Qdiv_nonneg; apply Q_of_nat_nonneg).
  assert (Hp1 : p <= 1).
  { unfold p. apply Qle_shift_div_r; [apply Q_of_nat_pos; exact Hb|].
    rewrite Qmult_1_l. apply Q_of_nat_le. exact Hsb. }
  unfold unit_score. destruct (Qltb p (1 # 2)) eqn:E.
  - apply Qltb_lt in E.
    assert (Hd : p / (1 # 2) == 2 * p) by (field).
    rewrite Hd. lra.
  - lra.
Qed.

Ltac unit_const :=
  match goal with
  | |- Return _ = Return _ -> _ =>
      let H := fresh in intros H; injection H as <-; unfold unit_score; lra
  end.

Lemma zip_same_andb_count (r1 r2 r : list bool) :
  zip_same (fun x y => Return (x && y)%bool) r1 r2 = Return r ->
  (length (filter (fun b => b) r) <= length (filter (fun b => b) r1))%nat.
Proof.
  revert r2 r. induction r1 as [|x r1 IH]; intros [|y r2] r; simpl; try discriminate.
  - intros H. injection H as <-. simpl. lia.
  - destruct (zip_same _ r1 r2) as [r'|] eqn:E; simpl; [|discriminate].
    intros H. injection H as <-. specialize (IH r2 r' E).
    destruct x, y; simpl; lia.
Qed.

Lemma np_map2_andb_count (bm close sm : ndarray bool) :
  np_map2 andb bm close = Return sm -> (np_count sm <= np_count bm)%nat.
Proof.
  unfold np_map2, np_count, flat.
  revert close sm. induction bm as [|r1 bm IH]; intros [|r2 close] sm; simpl;
    try discriminate.
  - intros H. injection H as <-. simpl. lia.
  - destruct (zip_same (fun x y => Return (x && y)%bool) r1 r2) as [r|] eqn:E1;
      simpl; [|discriminate].
    destruct (zip_same _ bm close) as [sm'|] eqn:E2; simpl; [|discriminate].
    intros H. injection H as <-. simpl. rewrite !filter_app, !length_app.
    pose proof (zip_same_andb_count r1 r2 r E1). specialize (IH close sm' E2). lia.
Qed.

Lemma support_score_unit (self : PythonBinPacker.t) (h a : ndarray Q) (s : Q) :
  PythonBinPacker._calculate_support_score self h a = Return s -> unit_score s.
Proof.
  unfold PythonBinPacker._calculate_support_score,
    PythonBinPacker._calculate_support_score_body.
  destruct (np_map2 Qgtb a h) as [ac|]; cbn [bind try_except]; [|unit_const].
  destruct (negb (np_any ac)); cbn [try_except]; [unit_const|].
  destruct (PythonBinPacker.base_mask_loop self h a (np_zeros_like a)) as [bm|];
    cbn [bind try_except]; [|unit_const].
  destruct (np_count bm =? 0)%nat eqn:Eb; cbn [try_except]; [unit_const|].
  apply Nat.eqb_neq in Eb.
  destruct (np_map2 (fun a0 h0 => Qltb (a0 - h0) (1 # 10)) a h) as [close|];
    cbn [bind try_except]; [|unit_const].
  destruct (np_map2 andb bm close) as [sm|] eqn:Es;
    cbn [bind try_except]; [|unit_const].
  pose proof (ratio_score_unit (np_count sm) (np_count bm)
                (np_map2_andb_count bm close sm Es) ltac:(lia)) as U.
  cbv zeta in U.
  destruct (Qltb (Q_of_nat (np_count sm) / Q_of_nat (np_count bm)) (1 # 2));
    cbn [try_except]; intros H; injection H as <-; exact U.
Qed.

Lemma future_sizes_nonneg (L : list (list Q)) (sizes : list Q) :
  nonneg_triples L -> PythonBinPacker.future_sizes L = Return sizes ->
  forall x, In x sizes -> 0 <= x.
Proof.
  intros HL. revert sizes.
  induction HL as [|item L [Hlen Hitem] _ IH]; intros sizes; simpl.
  - intros H. injection H as <-. intros x [].
  - destruct item as [|x0 [|y0 [|z0 [|]]]]; try discriminate.
    destruct (Qgtb (Qsum [x0; y0; z0]) 0); [|apply IH].
    unfold getitem. simpl.
    destruct (PythonBinPacker.future_sizes L) as [r|]; simpl; [|discriminate].
    intros H. injection H as <-. intros x [<-|Hx]; [|apply (IH r eq_refl x Hx)].
    inversion Hitem as [|? ? Hx0 Hi1]; subst.
    inversion Hi1 as [|? ? Hy0 Hi2]; subst.
    inversion Hi2 as [|? ? Hz0 _]; subst.
    apply Qmult_le_0_compat; [apply Qmult_le_0_compat|]; assumption.
Qed.

Lemma best_fit_unit (flat_areas : list nat) (avg : Q) :
  0 <= avg -> unit_score (PythonBinPacker.best_fit flat_areas avg).
Proof.
  intros Havg. unfold PythonBinPacker.best_fit.
  destruct flat_areas as [|x l]; [unfold unit_score; lra|].
  set (d := Qabs (Q_of_nat (max_area_of x l) - avg)).
  assert (Hd : 0 <= d) by apply Qabs_nonneg.
  assert (Hr : 0 <= (if Qeq_bool avg 0 then 1 else py_min 1 (d / avg))
               /\ (if Qeq_bool avg 0 then 1 else py_min 1 (d / avg)) <= 1).
  { destruct (Qeq_bool avg 0); [lra|].
    apply py_min_unit. apply Qdiv_nonneg; assumption. }
  destruct Hr as [Hr0 Hr1].
  pose proof (py_max_unit (1 - (if Qeq_bool avg 0 then 1 else py_min 1 (d / avg))))
    as U.
  apply U. lra.
Qed.

Lemma flatness_unit (exp sqrt : Q -> Q) (l : list Q) :
  exp_like exp -> sqrt_like sqrt ->
  unit_score (PythonBinPacker.flatness exp sqrt l).
Proof.
  intros He Hs. unfold PythonBinPacker.flatness, PythonBinPacker.np_std.
  apply He. specialize (Hs (variance l)). lra.
Qed.

Lemma future_items_unit (exp sqrt : Q -> Q) (limit : nat)
  (self : PythonBinPacker.t) (a : ndarray Q) (L : list (list Q)) (f : Q) :
  exp_like exp -> sqrt_like sqrt -> nonneg_triples L ->
  PythonBinPacker._evaluate_future_items exp sqrt limit self a L = Return f ->
  unit_score f.
Proof.
  intros He Hs HL.
  unfold PythonBinPacker._evaluate_future_items,
    PythonBinPacker._evaluate_future_items_body.
  destruct (length L =? 0)%nat; cbn [try_except]; [unit_const|].
  destruct (length (filter (fun x => Qgtb x 0) (flat a)) =? 0)%nat;
    cbn [try_except]; [unit_const|].
  pose proof (flatness_unit exp sqrt (filter (fun x => Qgtb x 0) (flat a)) He Hs)
    as [F0 F1].
  destruct (PythonBinPacker.future_sizes L) as [sizes|] eqn:Es;
    cbn [bind try_except]; [|unit_const].
  destruct sizes as [|x sizes]; cbn [try_except].
  - intros H. injection H as <-. split; assumption.
  - destruct (PythonBinPacker._find_flat_areas limit self a) as [areas|];
      cbn [bind try_except]; [|unit_const].
    intros H. injection H as <-.
    assert (Havg : 0 <= Qsum (x :: sizes) / Q_of_nat (length (x :: sizes))).
    { apply Qdiv_nonneg; [|apply Q_of_nat_nonneg].
      apply Qsum_nonneg. apply (future_sizes_nonneg L (x :: sizes) HL Es). }
    match goal with
    | |- context [PythonBinPacker.best_fit areas ?avg] =>
        destruct (best_fit_unit areas avg Havg) as [B0 B1]
    end.
    unfold unit_score. lra.
Qed.

(** *** The volume fits in the bounding box *)

Lemma Qsum_window (M : Q) (lo hi : nat) (l : list Q) :
  0 <= M ->
  forall s,
    (forall k x, nth_error l k = Some x ->
                 x <= M /\ (~ (lo <= s + k <= hi)%nat -> x <= 0)) ->
    Qsum l
    <= Q_of_nat (length (filter (fun j => (lo <=? j)%nat && (j <? S hi)%nat)
                                (seq s (length l)))) * M.
Proof.
  intros HM. unfold Qsum. induction l as [|x l IH]; intros s H.
  - simpl. unfold Q_of_nat, inject_Z. simpl. lra.
  - change (seq s (length (x :: l))) with (s :: seq (S s) (length l)).
    cbn [filter fold_right].
    assert (IH' := IH (S s)).
    assert (Hl : fold_right Qplus 0 l
                 <= Q_of_nat (length (filter (fun j => (lo <=? j)%nat && (j <? S hi)%nat)
                                             (seq (S s) (length l)))) * M).
    { apply IH'. intros k y Hk. destruct (H (S k) y Hk) as [H1 H2].
      split; [exact H1|]. intros Hn. apply H2. lia. }
    destruct (H 0%nat x eq_refl) as [Hx1 Hx2].
    destruct (Nat.leb_spec lo s), (Nat.ltb_spec s (S hi)); cbn [andb length];
      try rewrite Q_of_nat_S; try (assert (x <= 0) by (apply Hx2; lia)); nra.
Qed.

Lemma Qsum_window_bound (M : Q) (lo hi : nat) (l : list Q) :
  0 <= M -> (lo <= hi)%nat ->
  (forall k x, nth_error l k = Some x ->
               x <= M /\ (~ (lo <= k <= hi)%nat -> x <= 0)) ->
  Qsum l <= Q_of_nat (hi - lo + 1) * M.
Proof.
  intros HM Hlh H.
  apply Qle_trans with
    (Q_of_nat (length (filter (fun j => (lo <=? j)%nat && (j <? S hi)%nat)
                              (seq 0 (length l)))) * M).
  - apply Qsum_window; [exact HM|]. intros k x Hk. simpl. apply H. exact Hk.
  - rewrite count_interval. apply Qmult_le_compat_r; [|exact HM].
    apply Q_of_nat_le. lia.
Qed.

Lemma Qsum_concat (a : ndarray Q) : Qsum (concat a) == Qsum (map Qsum a).
Proof.
  induction a as [|row a IH]; simpl.
  - reflexivity.
  - rewrite Qsum_app, IH. reflexivity.
Qed.

Lemma Qsum_nonpos (l : list Q) : (forall x, In x l -> x <= 0) -> Qsum l <= 0.
Proof.
  unfold Qsum. induction l as [|x l IH]; intros H; simpl.
  - lra.
  - assert (x <= 0) by (apply H; left; reflexivity).
    assert (fold_right Qplus 0 l <= 0) by (apply IH; intros y Hy; apply H; right; exact Hy).
    lra.
Qed.

Lemma In_flat_getitem2 {A : Type} (g : ndarray A) (x : A) :
  In x (flat g) -> exists i j, getitem2 g i j = Return x.
Proof.
  unfold flat. rewrite in_concat. intros (row & Hrow & Hx).
  apply In_nth_error in Hrow as [i Hi]. apply In_nth_error in Hx as [j Hj].
  exists i, j. unfold getitem2, getitem. rewrite Hi. simpl. rewrite Hj. reflexivity.
Qed.

Lemma np_any_positive (a : ndarray Q) :
  np_any (np_map (fun x => Qgtb x 0) a) = true ->
  exists i j, positive_at a i j.
Proof.
  unfold np_any. intros H. apply existsb_exists in H as (b & Hb & ->).
  apply In_flat_getitem2 in Hb as (i & j & Hij).
  apply getitem2_np_map in Hij as (x & Hx & Hp).
  exists i, j, x. split; [exact Hx|]. apply Qgtb_gt. exact Hp.
Qed.

Lemma bbox_area_product (mi Mi mj Mj : nat) :
  (mi <= Mi)%nat -> (mj <= Mj)%nat ->
  bbox_area mi Mi mj Mj == Q_of_nat (Mi - mi + 1) * Q_of_nat (Mj - mj + 1).
Proof.
  intros Hi Hj. unfold bbox_area, Q_of_nat. rewrite <- inject_Z_mult.
  replace (Z.of_nat (Mi - mi + 1)) with (Z.of_nat Mi - Z.of_nat mi + 1)%Z by lia.
  replace (Z.of_nat (Mj - mj + 1)) with (Z.of_nat Mj - Z.of_nat mj + 1)%Z by lia.
  reflexivity.
Qed.

(** A grid whose cells are at most [m] and are above zero only inside a
    box sums to at most the area of the box times [m]. *)
Lemma volume_in_box (a : ndarray Q) (mi Mi mj Mj : nat) (m : Q) :
  (mi <= Mi)%nat -> (mj <= Mj)%nat -> 0 <= m ->
  (forall i j x, getitem2 a i j = Return x ->
                 x <= m /\ (0 < x -> (mi <= i <= Mi)%nat /\ (mj <= j <= Mj)%nat)) ->
  np_sum a <= bbox_area mi Mi mj Mj * m.
Proof.
  intros Hi Hj Hm0 Hbox.
  assert (Hcell : forall i j x, getitem2 a i j = Return x ->
                    x <= m /\ (~ ((mi <= i <= Mi)%nat /\ (mj <= j <= Mj)%nat) -> x <= 0)).
  { intros i j x Hx. destruct (Hbox i j x Hx) as [H1 H2]. split; [exact H1|].
    intros Hout. destruct (Qlt_le_dec 0 x) as [Hp|Hn]; [|exact Hn].
    exfalso. apply Hout. apply H2. exact Hp. }
  rewrite (bbox_area_product mi Mi mj Mj Hi Hj).
  unfold np_sum, flat. rewrite Qsum_concat.
  rewrite <- Qmult_assoc.
  apply Qsum_window_bound.
  - apply Qmult_le_0_compat; [apply Q_of_nat_nonneg|exact Hm0].
  - lia.
  - intros i y Hy. rewrite nth_error_map in Hy.
    destruct (nth_error a i) as [row|] eqn:Erow; [|discriminate].
    injection Hy as <-.
    assert (Hrow : forall j x, nth_error row j = Some x -> getitem2 a i j = Return x).
    { intros j x Hx. unfold getitem2, getitem. rewrite Erow. simpl. rewrite Hx.
      reflexivity. }
    split.
    + apply Qsum_window_bound; [exact Hm0|lia|].
      intros j x Hx. destruct (Hcell i j x (Hrow j x Hx)) as [H1 H2].
      split; [exact H1|]. intros Hn. apply H2. lia.
    + intros Hn. apply Qsum_nonpos. intros x Hx.
      apply In_nth_error in Hx as [j Hxj].
      apply (Hcell i j x (Hrow j x Hxj)). lia.
Qed.

Lemma volume_in_bounding_box (a : ndarray Q) (mi Mi mj Mj : nat) (m : Q) :
  is_bounding_box a mi Mi mj Mj -> is_max a m ->
  np_sum a <= bbox_area mi Mi mj Mj * m.
Proof.
  intros (Hin & (j1 & P1) & _) [Hm Hle].
  destruct (Hin mi j1 P1) as [Hi Hj].
  apply volume_in_box; try lia.
  - destruct P1 as (x & Hx & Hp). apply Qle_trans with x; [lra|].
    apply Hle. apply (getitem2_In _ _ _ _ Hx).
  - intros i j x Hx. split; [apply Hle; apply (getitem2_In _ _ _ _ Hx)|].
    intros Hp. apply Hin. exists x. auto.
Qed.

Lemma compactness_unit (a : ndarray Q) (c : Q) :
  nonneg_grid a ->
  PythonBinPacker._calculate_compactness a = Return c -> unit_score c.
Proof.
  intros Hn. unfold PythonBinPacker._calculate_compactness.
  destruct (np_any (np_map (fun x => Qgtb x 0) a)) eqn:Eany.
  - destruct (np_any_positive a Eany) as (i0 & j0 & Hpos).
    destruct (compactness_value a i0 j0 Hpos)
      as (mi & Mi & mj & Mj & m & Hbox & Hmax & Hvol & E).
    rewrite E. cbn [try_except]. intros H. injection H as <-.
    pose proof (volume_in_bounding_box a mi Mi mj Mj m Hbox Hmax) as Hup.
    assert (H0 : 0 <= np_sum a) by (apply Qsum_nonneg; exact Hn).
    split.
    + apply Qle_shift_div_l; [exact Hvol|]. lra.
    + apply Qle_shift_div_r; [exact Hvol|]. lra.
  - unfold PythonBinPacker._calculate_compactness_body. rewrite Eany.
    cbn [negb try_except]. unit_const.
Qed.

(** *** The JavaScript scorer *)

Lemma map_nth_seq {A B : Type} (f : A -> B) (d : A) (l : list A) :
  map (fun j => f (nth j l d)) (seq 0 (length l)) = map f l.
Proof.
  induction l as [|x l IH]; simpl; [reflexivity|].
  f_equal. rewrite <- seq_shift, map_map. exact IH.
Qed.

Lemma js_get2_nth (a : ndarray Q) (i j : nat) (row : list Q) :
  nth_error a i = Some row -> (j < length row)%nat ->
  DeepPack3DModel.get2 a i j = Return (Some (nth j row 0))
  /\ getitem2 a i j = Return (nth j row 0).
Proof.
  intros Hrow Hj. unfold DeepPack3DModel.get2, getitem2, getitem.
  rewrite Hrow. simpl. rewrite (nth_error_nth' row 0 Hj). split; reflexivity.
Qed.

Lemma getitem2_row (a : ndarray Q) (i j : nat) (x : Q) :
  getitem2 a i j = Return x ->
  exists row, nth_error a i = Some row /\ nth_error row j = Some x.
Proof.
  unfold getitem2, getitem.
  destruct (nth_error a i) as [row|]; simpl; [|discriminate].
  destruct (nth_error row j) as [y|] eqn:E; [|discriminate].
  intros H. injection H as <-. exists row. auto.
Qed.

Lemma box_inv_step (a : ndarray Q) (D : nat -> nat -> Prop) (V : Q)
  (st : DeepPack3DModel.bbox) (i j : nat) (row : list Q) :
  nth_error a i = Some row -> (j < length row)%nat ->
  box_inv a D V st ->
  exists st',
    (x <- DeepPack3DModel.get2 a i j ;;
     if DeepPack3DModel.gt x (Some 0) then
       Return {| DeepPack3DModel.minI := Nat.min (DeepPack3DModel.minI st) i;
                 DeepPack3DModel.maxI := Nat.max (DeepPack3DModel.maxI st) i;
                 DeepPack3DModel.minJ := Nat.min (DeepPack3DModel.minJ st) j;
                 DeepPack3DModel.maxJ := Nat.max (DeepPack3DModel.maxJ st) j;
                 DeepPack3DModel.occupiedVolume :=
                   DeepPack3DModel.occupiedVolume st
                   + match x with Some v => v | None => 0 end;
                 DeepPack3DModel.hasOccupied := true |}
     else Return st) = Return st'
    /\ box_inv a (fun i' j' => D i' j' \/ (i' = i /\ j' = j))
         (V + positive_part (nth j row 0)) st'.
Proof.
  intros Hrow Hj (HV & Hbox & Hocc).
  destruct (js_get2_nth a i j row Hrow Hj) as [E1 E2].
  rewrite E1. cbn [bind DeepPack3DModel.gt]. unfold positive_part.
  destruct (Qgtb (nth j row 0) 0) eqn:Eg.
  - eexists. split; [reflexivity|]. unfold box_inv. simpl.
    split; [rewrite HV; reflexivity|]. split.
    + intros i' j' x [Hd|[-> ->]] Hx Hp.
      * destruct (Hbox i' j' x Hd Hx Hp) as (_ & H1 & H2).
        split; [reflexivity|]. lia.
      * split; [reflexivity|]. lia.
    + intros _. exists i, j, (nth j row 0). split; [exact E2|].
      apply Qgtb_gt. exact Eg.
  - exists st. split; [reflexivity|]. unfold box_inv.
    split; [rewrite HV; lra|]. split; [|exact Hocc].
    intros i' j' x [Hd|[-> ->]] Hx Hp; [apply (Hbox i' j' x Hd Hx Hp)|].
    rewrite E2 in Hx. injection Hx as <-.
    apply Qgtb_le in Eg. lra.
Qed.

Lemma box_inv_ext (a : ndarray Q) (D D' : nat -> nat -> Prop) (V V' : Q)
  (st : DeepPack3DModel.bbox) :
  (forall i j x, D' i j -> getitem2 a i j = Return x -> D i j) -> V == V' ->
  box_inv a D V st -> box_inv a D' V' st.
Proof.
  intros HD HV (H1 & H2 & H3). unfold box_inv.
  split; [rewrite H1; exact HV|]. split; [|exact H3].
  intros i j x Hd Hx. apply (H2 i j x); [|exact Hx]. apply (HD i j x Hd Hx).
Qed.

Lemma Qsum_snoc (l : list Q) (x : Q) : Qsum (l ++ [x]) == Qsum l + x.
Proof. rewrite Qsum_app. unfold Qsum. simpl. lra. Qed.

Lemma compactness_loops (a : ndarray Q) (st0 : DeepPack3DModel.bbox) :
  DeepPack3DModel.occupiedVolume st0 == 0 ->
  DeepPack3DModel.hasOccupied st0 = false ->
  exists st,
    for_each (range (length a)) (fun i st =>
      n <- DeepPack3DModel.row_length a i ;;
      for_each (range n) (fun j st =>
        x <- DeepPack3DModel.get2 a i j ;;
        if DeepPack3DModel.gt x (Some 0) then
          Return {| DeepPack3DModel.minI := Nat.min (DeepPack3DModel.minI st) i;
                    DeepPack3DModel.maxI := Nat.max (DeepPack3DModel.maxI st) i;
                    DeepPack3DModel.minJ := Nat.min (DeepPack3DModel.minJ st) j;
                    DeepPack3DModel.maxJ := Nat.max (DeepPack3DModel.maxJ st) j;
                    DeepPack3DModel.occupiedVolume :=
                      DeepPack3DModel.occupiedVolume st
                      + match x with Some v => v | None => 0 end;
                    DeepPack3DModel.hasOccupied := true |}
        else Return st) st) st0 = Return st
    /\ box_inv a (fun i _ => (i < length a)%nat)
         (np_sum (np_map positive_part a)) st.
Proof.
  intros HV0 Hocc0.
  match goal with
  | |- exists st, for_each _ ?body _ = _ /\ _ =>
      destruct (for_each_invariant
                  (fun done st =>
                     box_inv a (fun i _ => In i done)
                       (Qsum (map (fun i => Qsum (map positive_part (nth i a [])))
                                  done)) st)
                  body (range (length a))) with (s := st0) as (st & E & P)
  end.
  - intros done i st Hst Hi. apply in_range in Hi.
    unfold DeepPack3DModel.row_length.
    rewrite (nth_error_nth' a [] Hi). cbn [bind].
    set (row := nth i a []).
    match goal with
    | |- exists st', for_each _ ?body _ = _ /\ _ =>
        destruct (for_each_invariant
                    (fun dj st =>
                       box_inv a (fun i' j' => In i' done \/ (i' = i /\ In j' dj))
                         (Qsum (map (fun i => Qsum (map positive_part (nth i a [])))
                                    done)
                          + Qsum (map (fun j => positive_part (nth j row 0)) dj)) st)
                    body (range (length row))) with (s := st) as (sj & Ej & Pj)
    end.
    + intros dj j s Hs Hj. apply in_range in Hj.
      destruct (box_inv_step a _ _ s i j row (nth_error_nth' a [] Hi) Hj Hs)
        as (s' & Es & Ps).
      exists s'. split; [exact Es|].
      eapply box_inv_ext; [| |exact Ps].
      * intros i' j' x [H|[-> H]] _; [left; left; exact H|].
        apply in_app_or in H as [H|[<-|[]]]; [left; right; auto|right; auto].
      * rewrite map_app. cbn [map]. rewrite Qsum_snoc. lra.
    + eapply box_inv_ext; [| |exact Hst].
      * intros i' j' x [H|[_ []]] _. exact H.
      * cbn [map]. change (Qsum []) with 0. lra.
    + exists sj. split; [exact Ej|].
      eapply box_inv_ext; [| |exact Pj].
      * intros i' j' x H Hx. apply in_app_or in H as [H|[<-|[]]]; [left; exact H|].
        right. split; [reflexivity|]. apply in_range.
        apply getitem2_row in Hx as (row' & Hr & Hc).
        rewrite (nth_error_nth' a [] Hi) in Hr. injection Hr as <-.
        apply nth_error_Some. unfold row. rewrite Hc. discriminate.
      * rewrite map_app. cbn [map]. rewrite Qsum_snoc.
        unfold row, range. rewrite (map_nth_seq positive_part 0 (nth i a [])).
        reflexivity.
  - unfold box_inv. split; [rewrite HV0; reflexivity|]. split.
    + intros i j x [].
    + rewrite Hocc0. discriminate.
  - exists st. split; [exact E|].
    eapply box_inv_ext; [| |exact P].
    + intros i j x H _. apply in_range. exact H.
    + unfold np_sum, np_map, flat. rewrite Qsum_concat, map_map.
      unfold range.
      rewrite (map_nth_seq (fun row => Qsum (map positive_part row)) [] a).
      reflexivity.
Qed.

Lemma positive_part_nonneg (x : Q) : 0 <= positive_part x.
Proof.
  unfold positive_part. destruct (Qgtb x 0) eqn:E; [|lra].
  apply Qgtb_gt in E. lra.
Qed.

Lemma max_flat_spec (a : ndarray Q) (m : Q) :
  DeepPack3DModel.max_flat (Some a) = Return m -> is_max a m.
Proof.
  unfold DeepPack3DModel.max_flat, is_max.
  destruct (flat a) as [|x l]; [discriminate|].
  intros H. injection H as <-. apply list_max_spec.
Qed.

Lemma js_compactness_unit (a : ndarray Q) (c : Q) :
  DeepPack3DModel.calculateCompactness a = Return c -> unit_score c.
Proof.
  unfold DeepPack3DModel.calculateCompactness.
  destruct (DeepPack3DModel.row_length a 0) as [n0|]; cbn [bind]; [|discriminate].
  destruct (compactness_loops a
              {| DeepPack3DModel.minI := length a; DeepPack3DModel.maxI := 0;
                 DeepPack3DModel.minJ := n0; DeepPack3DModel.maxJ := 0;
                 DeepPack3DModel.occupiedVolume := 0;
                 DeepPack3DModel.hasOccupied := false |})
    as (st & E & HV & Hbox & Hocc); [reflexivity|reflexivity|].
  rewrite E. cbn [bind].
  destruct (DeepPack3DModel.hasOccupied st) eqn:Eo; cbn [negb]; [|unit_const].
  destruct (Hocc eq_refl) as (i0 & j0 & x0 & Hx0 & Hp0).
  destruct (DeepPack3DModel.max_flat (Some a)) as [m|] eqn:Em; cbn [bind];
    [|discriminate].
  pose proof (max_flat_spec a m Em) as [_ Hle].
  assert (Hin : forall i j x, getitem2 a i j = Return x -> 0 < x ->
                  (DeepPack3DModel.minI st <= i <= DeepPack3DModel.maxI st)%nat
                  /\ (DeepPack3DModel.minJ st <= j <= DeepPack3DModel.maxJ st)%nat).
  { intros i j x Hx Hp. apply (Hbox i j x); [|exact Hx|exact Hp].
    apply getitem2_row in Hx as (row & Hr & _).
    apply nth_error_Some. rewrite Hr. discriminate. }
  destruct (Hin i0 j0 x0 Hx0 Hp0) as [Hi Hj].
  assert (Hm0 : 0 < m).
  { apply Qlt_le_trans with x0; [exact Hp0|]. apply Hle.
    apply (getitem2_In _ _ _ _ Hx0). }
  assert (Hup : np_sum (np_map positive_part a)
                <= bbox_area (DeepPack3DModel.minI st) (DeepPack3DModel.maxI st)
                     (DeepPack3DModel.minJ st) (DeepPack3DModel.maxJ st) * m).
  { apply volume_in_box; try lia; [lra|].
    intros i j y Hy. apply getitem2_np_map in Hy as (x & Hx & <-).
    unfold positive_part. destruct (Qgtb x 0) eqn:Eg.
    - apply Qgtb_gt in Eg. split; [apply Hle; apply (getitem2_In _ _ _ _ Hx)|].
      intros _. apply (Hin i j x Hx Eg).
    - split; [lra|]. intros H. exfalso. apply (Qlt_irrefl 0). exact H. }
  assert (Hlow : 0 <= np_sum (np_map positive_part a)).
  { apply Qsum_nonneg. intros y Hy. unfold np_map, flat in Hy.
    apply in_concat in Hy as (row & Hrow & Hy).
    apply in_map_iff in Hrow as (r & <- & _).
    apply in_map_iff in Hy as (x & <- & _). apply positive_part_nonneg. }
  destruct (Qgtb _ 0) eqn:Ev; [|unit_const].
  apply Qgtb_gt in Ev. intros H. injection H as <-. split.
  - apply Qle_shift_div_l; [exact Ev|]. rewrite HV. lra.
  - apply Qle_shift_div_r; [exact Ev|]. rewrite HV. lra.
Qed.

Lemma js_support_count_le (h a : ndarray Q) (st : nat * nat) :
  DeepPack3DModel.support_count h a = Return st -> (snd st <= fst st)%nat.
Proof.
  unfold DeepPack3DModel.support_count. intros E.
  match type of E with
  | for_each ?l ?body ?s = _ =>
      assert (H : match for_each l body s with
                  | Return st' => (snd st' <= fst st')%nat
                  | Raise _ => True
                  end)
  end.
  { apply (for_each_outcome (fun st : nat * nat => (snd st <= fst st)%nat)
             (fun _ => True)); [|simpl; lia].
    intros i s _ Hs.
    destruct (DeepPack3DModel.row_length h i) as [n|]; cbn [bind]; [|exact I].
    apply (for_each_outcome (fun st : nat * nat => (snd st <= fst st)%nat)
             (fun _ => True)); [|exact Hs].
    intros j s' _ Hs'.
    destruct (DeepPack3DModel.get2 a i j) as [x|]; cbn [bind]; [|exact I].
    destruct (DeepPack3DModel.get2 h i j) as [y|]; cbn [bind]; [|exact I].
    destruct x as [a0|], y as [h0|]; try exact Hs'.
    destruct (Qgtb a0 h0); [|exact Hs'].
    destruct (DeepPack3DModel.is_base_scan a i j) as [[|]|]; cbn [bind];
      [|exact Hs'|exact I].
    destruct (Qltb (a0 - h0) (1 # 10)); simpl; lia. }
  rewrite E in H. exact H.
Qed.

Lemma js_support_unit (h a : ndarray Q) (s : Q) :
  DeepPack3DModel.calculateSupportScore h a = Return s -> unit_score s.
Proof.
  unfold DeepPack3DModel.calculateSupportScore.
  destruct (DeepPack3DModel.support_count h a) as [st|] eqn:E; cbn [bind];
    [|discriminate].
  pose proof (js_support_count_le h a st E) as Hle.
  destruct (fst st =? 0)%nat eqn:Eb; [unit_const|].
  apply Nat.eqb_neq in Eb.
  pose proof (ratio_score_unit (snd st) (fst st) Hle ltac:(lia)) as U.
  cbv zeta in U.
  destruct (Qltb (Q_of_nat (snd st) / Q_of_nat (fst st)) (1 # 2));
    intros H; injection H as <-; exact U.
Qed.

Lemma futureItemsSizes_nonneg (L : list (list Q)) :
  nonneg_triples L ->
  forall x, In x (DeepPack3DModel.futureItemsSizes L) -> 0 <= x.
Proof.
  induction 1 as [|item L [Hlen Hitem] _ IH]; simpl; [intros x []|].
  destruct item as [|x0 [|y0 [|z0 [|]]]]; try discriminate.
  destruct (Qgtb (x0 + y0 + z0) 0); [|exact IH].
  intros x [<-|Hx]; [|exact (IH x Hx)].
  inversion Hitem as [|? ? Hx0 Hi1]; subst.
  inversion Hi1 as [|? ? Hy0 Hi2]; subst.
  inversion Hi2 as [|? ? Hz0 _]; subst.
  apply Qmult_le_0_compat; [apply Qmult_le_0_compat|]; assumption.
Qed.

Lemma js_future_items_unit (exp sqrt : Q -> Q) (limit : nat) (a : ndarray Q)
  (L : list (list Q)) (f : Q) :
  exp_like exp -> sqrt_like sqrt -> nonneg_triples L ->
  DeepPack3DModel.evaluateFutureItems exp sqrt limit a (Some L) = Return f ->
  unit_score f.
Proof.
  intros He Hs HL. unfold DeepPack3DModel.evaluateFutureItems.
  destruct (length L =? 0)%nat; [unit_const|].
  destruct (length (filter (fun x => Qgtb x 0) (flat a)) =? 0)%nat; [unit_const|].
  pose proof (flatness_unit exp sqrt (filter (fun x => Qgtb x 0) (flat a)) He Hs)
    as [F0 F1].
  unfold PythonBinPacker.flatness, PythonBinPacker.np_std in F0, F1.
  pose proof (futureItemsSizes_nonneg L HL) as Hsz.
  destruct (DeepPack3DModel.futureItemsSizes L) as [|x sizes].
  - simpl. intros H. injection H as <-. split; assumption.
  - cbn [length Nat.eqb].
    destruct (DeepPack3DModel.findFlatAreas limit a) as [areas|]; cbn [bind];
      [|discriminate].
    intros H. injection H as <-.
    assert (Havg : 0 <= Qsum (x :: sizes) / Q_of_nat (length (x :: sizes))).
    { apply Qdiv_nonneg; [|apply Q_of_nat_nonneg]. apply Qsum_nonneg. exact Hsz. }
    match goal with
    | |- context [DeepPack3DModel.bestFit areas ?avg] =>
        destruct (best_fit_unit areas avg Havg) as [B0 B1];
        change (PythonBinPacker.best_fit areas avg)
          with (DeepPack3DModel.bestFit areas avg) in B0, B1
    end.
    unfold unit_score. lra.
Qed.

Lemma js_weighted_sum_unit (u s c f : Q) :
  unit_score u -> unit_score s -> unit_score c -> unit_score f ->
  unit_score ((3 # 10) * u + (4 # 10) * s + (2 # 10) * c + (1 # 10) * f).
Proof. unfold unit_score. intros. lra. Qed.

Lemma js_heuristic_unit (exp sqrt : Q -> Q) (limit : nat)
  (constIn hrest arest : list (ndarray Q)) (h a : ndarray Q)
  (L : list (list Q)) (Lrest : list (list (list Q))) (q : Q) :
  exp_like exp -> sqrt_like sqrt -> nonneg_grid a -> nonneg_triples L ->
  DeepPack3DModel.calculateHeuristic exp sqrt limit constIn
    (h :: hrest) (a :: arest) (L :: Lrest) = Return q ->
  unit_score q.
Proof.
  intros He Hs Hna HL. unfold DeepPack3DModel.calculateHeuristic.
  cbn [nth_error].
  destruct (DeepPack3DModel.max_flat (Some h)) as [mh|]; cbn [bind]; [|discriminate].
  destruct (DeepPack3DModel.max_flat (Some a)) as [m|] eqn:Em; cbn [bind];
    [|discriminate].
  destruct (DeepPack3DModel.calculateSupportScore h a) as [s|] eqn:Es; cbn [bind];
    [|discriminate].
  destruct (DeepPack3DModel.calculateCompactness a) as [c|] eqn:Ec; cbn [bind];
    [|discriminate].
  destruct (DeepPack3DModel.evaluateFutureItems exp sqrt limit a (Some L))
    as [f|] eqn:Ef; cbn [bind]; [|discriminate].
  intros H. injection H as <-.
  apply js_weighted_sum_unit.
  - change (DeepPack3DModel.Math_min 1 m) with (py_min 1 m).
    apply py_min_unit. apply Hna. apply (max_flat_spec a m Em).
  - apply (js_support_unit h a s Es).
  - apply (js_compactness_unit a c Ec).
  - apply (js_future_items_unit exp sqrt limit a L f He Hs HL Ef).
Qed.

Lemma exp_standin_like : exp_like exp_standin.
Proof.
  intros x _. unfold exp_standin.
  pose proof (Qabs_nonneg x) as H.
  split.
  - apply Qdiv_nonneg; lra.
  - apply Qle_shift_div_r; lra.
Qed.

Lemma sqrt_standin_like : sqrt_like sqrt_standin.
Proof. intros x. apply Qabs_nonneg. Qed.

Lemma weighted_sum_unit (u v s c f : Q) :
  unit_score u -> unit_score v -> unit_score s -> unit_score c -> unit_score f ->
  unit_score ((3 # 10) * u + (2 # 10) * v + (3 # 10) * s + (1 # 10) * c
              + (1 # 10) * f).
Proof. unfold unit_score. intros. lra. Qed.

Lemma well_shaped_is_input (n : nat) (h a : ndarray Q) (L : list (list Q)) :
  well_shaped n h a L -> well_shaped_input n h a L.
Proof.
  intros (H1 & H2 & H3 & H4 & _ & H6).
  exact (conj H1 (conj H2 (conj H3 (conj H4 H6)))).
Qed.

(** C6 (as the code has it).  For square grids of the same side without a
    negative cell and a lookahead of triples without a negative component
    (the action map may lie below the height map), and library functions
    [exp] and [sqrt] with values in [[0, 1]] on the numbers that are not
    positive, respectively not negative: each of the five sub-scores of
    [PythonBinPacker] lies in [[0, 1]], and so does the score [predict]
    returns; every score [calculateHeuristic] of the JavaScript class
    returns lies in [[0, 1]] as well. *)
Theorem python_scores_in_unit_interval (exp sqrt : Q -> Q) (limit n : nat)
  (self : PythonBinPacker.t) (const_in hrest arest : list (ndarray Q))
  (h a : ndarray Q) (L : list (list Q)) (Lrest : list (list (list Q))) :
  exp_like exp -> sqrt_like sqrt -> well_shaped_input n h a L ->
  (forall m, np_max a = Return m -> unit_score (py_min 1 m))
  /\ unit_score (py_max 0 (1 - np_var a / (1 # 4)))
  /\ (exists s, PythonBinPacker._calculate_support_score self h a = Return s
                /\ unit_score s)
  /\ (exists c, PythonBinPacker._calculate_compactness a = Return c
                /\ unit_score c)
  /\ (exists f, PythonBinPacker._evaluate_future_items exp sqrt limit self a L
                = Return f
                /\ unit_score f)
  /\ (exists q, PythonBinPacker.predict exp sqrt limit self const_in
                  (h :: hrest) (a :: arest) (L :: Lrest) = Return q
                /\ unit_score q)
  /\ (forall q, DeepPack3DModel.calculateHeuristic exp sqrt limit const_in
                  (h :: hrest) (a :: arest) (L :: Lrest) = Return q ->
                unit_score q).
Proof.
  intros He Hs (_ & _ & _ & Hna & HL).
  assert (Hjs : forall q, DeepPack3DModel.calculateHeuristic exp sqrt limit const_in
                            (h :: hrest) (a :: arest) (L :: Lrest) = Return q ->
                          unit_score q).
  { intros q. apply js_heuristic_unit; assumption. }
  destruct (support_score_returns self h a) as [s Es].
  destruct (compactness_returns a) as [c Ec].
  destruct (future_items_returns exp sqrt limit self a L) as [f Ef].
  pose proof (support_score_unit self h a s Es) as Us.
  pose proof (compactness_unit a c Hna Ec) as Uc.
  pose proof (future_items_unit exp sqrt limit self a L f He Hs HL Ef) as Uf.
  pose proof (variance_score_unit a) as Uv.
  split; [intros m; apply height_utilization_unit; exact Hna|].
  split; [exact Uv|].
  split; [exists s; auto|]. split; [exists c; auto|]. split; [exists f; auto|].
  split; [|exact Hjs].
  unfold PythonBinPacker.predict, PythonBinPacker.predict_body, item0, getitem.
  cbn [nth_error bind].
  destruct (np_max h) as [mh|]; cbn [bind try_except];
    [|exists 0; split; [reflexivity|unfold unit_score; lra]].
  destruct (np_max a) as [m|] eqn:Em; cbn [bind try_except];
    [|exists 0; split; [reflexivity|unfold unit_score; lra]].
  rewrite Es, Ec, Ef. cbn [bind try_except].
  eexists. split; [reflexivity|].
  apply weighted_sum_unit; try assumption.
  apply (height_utilization_unit a m Hna Em).
Qed.

Lemma python_scores_in_unit_interval_witness :
  (exp_like exp_standin /\ sqrt_like sqrt_standin
   /\ well_shaped_input 32 stack_3x3 empty_32 [[1; 1; 1]])
  /\ (exists q,
         PythonBinPacker.predict exp_standin sqrt_standin 1000 packer []
           [stack_3x3] [empty_32] [[[1; 1; 1]]] = Return q
         /\ unit_score q)
  /\ (exists q,
         DeepPack3DModel.calculateHeuristic exp_standin sqrt_standin 1000 []
           [stack_3x3] [empty_32] [[[1; 1; 1]]] = Return q
         /\ unit_score q).
Proof.
  assert (W : well_shaped_input 32 stack_3x3 empty_32 [[1; 1; 1]]).
  { destruct (well_shapedb_spec 32 empty_32 stack_3x3 [[1; 1; 1]])
      as (H1 & H2 & H3 & H4 & _ & H6); [vm_compute; reflexivity|].
    exact (conj H2 (conj H1 (conj H4 (conj H3 H6)))). }
  split; [split; [exact exp_standin_like|split; [exact sqrt_standin_like|exact W]]|].
  destruct (python_scores_in_unit_interval exp_standin sqrt_standin 1000 32 packer
              [] [] [] stack_3x3 empty_32 [[1; 1; 1]] []
              exp_standin_like sqrt_standin_like W)
    as (_ & _ & _ & _ & _ & Hpy & Hjs).
  split; [exact Hpy|].
  destruct (DeepPack3DModel.calculateHeuristic exp_standin sqrt_standin 1000 []
              [stack_3x3] [empty_32] [[[1; 1; 1]]]) as [q|e] eqn:E.
  - exists q. split; [reflexivity|]. apply Hjs. reflexivity.
  - exfalso. vm_compute in E. discriminate.
Defined.

(** C6, counterexample.  For the empty container and the placement that
    changes nothing, an input as above, the support ratio of the fallback
    of [model_server] is 1024000000 and its score 307200000. *)
Lemma model_server_score_exceeds_one :
  well_shaped_input 32 empty_32 empty_32 []
  /\ exists s q,
      model_server.support_score empty_32 empty_32 = Return s
      /\ model_server.heuristic [empty_32] [empty_32] = Return q
      /\ s == 1024000000 /\ q == 307200000
      /\ ~ unit_score s /\ ~ unit_score q.
Proof.
  split; [apply well_shaped_is_input, well_shapedb_spec; vm_compute; reflexivity|].
  destruct (returns_value_spec (model_server.support_score empty_32 empty_32)
              1024000000) as (s & Es & Vs); [vm_compute; reflexivity|].
  destruct (returns_value_spec (model_server.heuristic [empty_32] [empty_32])
              307200000) as (q & Eq & Vq); [vm_compute; reflexivity|].
  exists s, q. repeat split; try assumption.
  - intros [_ H]. rewrite Vs in H. vm_compute in H. apply H. reflexivity.
  - intros [_ H]. rewrite Vq in H. vm_compute in H. apply H. reflexivity.
Qed.


(** * Further properties of the scorers *)

(** ** Frames and results *)

(** X1.  A result of the flat-area finder does not depend on the frames
    that were left over: with more frames, [_flood_fill] and
    [_find_flat_areas] return what they returned. *)
Theorem frames_do_not_change_areas (limit limit' : nat) (self : PythonBinPacker.t)
  (height_map : ndarray Q) (areas : list nat) :
  (limit <= limit')%nat ->
  PythonBinPacker._find_flat_areas limit self height_map = Return areas ->
  PythonBinPacker._find_flat_areas limit' self height_map = Return areas
  /\ forall v i j target tolerance r,
      PythonBinPacker._flood_fill self limit height_map v i j target tolerance
      = Return r ->
      PythonBinPacker._flood_fill self limit' height_map v i j target tolerance
      = Return r.
Proof.
  intros Hle E. split.
  - exact (find_flat_areas_more_frames limit limit' self height_map areas Hle E).
  - intros v i j target tolerance r.
    apply flood_fill_more_frames. exact Hle.
Qed.

Lemma frames_do_not_change_areas_witness :
  ((10 <= 1000)%nat
   /\ PythonBinPacker._find_flat_areas 10 packer stack_3x3 = Return [9%nat])
  /\ PythonBinPacker._find_flat_areas 1000 packer stack_3x3 = Return [9%nat].
Proof.
  assert (L : (10 <= 1000)%nat) by lia.
  assert (E : PythonBinPacker._find_flat_areas 10 packer stack_3x3 = Return [9%nat])
    by (vm_compute; reflexivity).
  split; [split; assumption|].
  apply (frames_do_not_change_areas 10 1000 packer stack_3x3 [9%nat] L E).
Defined.

(** ** The gap of the support score *)

Lemma ratio_score_gap (s b : nat) :
  (s <= b)%nat -> (0 < b)%nat ->
  let p := Q_of_nat s / Q_of_nat b in
  let r := if Qltb p (1 # 2) then (1 # 10) * (p / (1 # 2)) else p in
  0 <= r /\ (r < 1 # 10 \/ 1 # 2 <= r) /\ r <= 1.
Proof.
  intros Hsb Hb p r.
  destruct (ratio_score_unit s b Hsb Hb) as [U0 U1]. fold p in U0, U1. fold r in U0, U1.
  split; [exact U0|]. split; [|exact U1].
  unfold r in *. destruct (Qltb p (1 # 2)) eqn:E.
  - apply Qltb_lt in E. left.
    assert (Hd : p / (1 # 2) == 2 * p) by field.
    rewrite Hd. lra.
  - apply Qltb_ge in E. right. exact E.
Qed.

(** X2.  The support score of [PythonBinPacker] lies in [[0, 1]] and is
    never in the interval from 0.1 to 0.5: it is below 0.1 or at least 0.5.
    The same holds of every score [calculateSupportScore] returns. *)
Theorem support_score_gap (self : PythonBinPacker.t) (h a : ndarray Q) :
  (exists s, PythonBinPacker._calculate_support_score self h a = Return s
             /\ 0 <= s <= 1 /\ (s < 1 # 10 \/ 1 # 2 <= s))
  /\ (forall s, DeepPack3DModel.calculateSupportScore h a = Return s ->
                0 <= s <= 1 /\ (s < 1 # 10 \/ 1 # 2 <= s)).
Proof.
  split.
  - unfold PythonBinPacker._calculate_support_score,
      PythonBinPacker._calculate_support_score_body.
    assert (C1 : exists s, Return (A := Q) 1 = Return s
                           /\ 0 <= s <= 1 /\ (s < 1 # 10 \/ 1 # 2 <= s))
      by (exists 1; split; [reflexivity|]; split; [split; lra|right; lra]).
    assert (C0 : exists s, Return (A := Q) 0 = Return s
                           /\ 0 <= s <= 1 /\ (s < 1 # 10 \/ 1 # 2 <= s))
      by (exists 0; split; [reflexivity|]; split; [split; lra|left; lra]).
    assert (Ch : exists s, Return (A := Q) (1 # 2) = Return s
                           /\ 0 <= s <= 1 /\ (s < 1 # 10 \/ 1 # 2 <= s))
      by (exists (1 # 2); split; [reflexivity|]; split; [split; lra|right; lra]).
    destruct (np_map2 Qgtb a h) as [ac|]; cbn [bind try_except]; [|exact Ch].
    destruct (negb (np_any ac)); cbn [try_except]; [exact C1|].
    destruct (PythonBinPacker.base_mask_loop self h a (np_zeros_like a)) as [bm|];
      cbn [bind try_except]; [|exact Ch].
    destruct (np_count bm =? 0)%nat eqn:Eb; cbn [try_except]; [exact C0|].
    apply Nat.eqb_neq in Eb.
    destruct (np_map2 (fun a0 h0 => Qltb (a0 - h0) (1 # 10)) a h) as [close|];
      cbn [bind try_except]; [|exact Ch].
    destruct (np_map2 andb bm close) as [sm|] eqn:Es;
      cbn [bind try_except]; [|exact Ch].
    pose proof (ratio_score_gap (np_count sm) (np_count bm)
                  (np_map2_andb_count bm close sm Es) ltac:(lia)) as G.
    cbv zeta in G. destruct G as (G0 & G1 & G2).
    destruct (Qltb (Q_of_nat (np_count sm) / Q_of_nat (np_count bm)) (1 # 2));
      cbn [try_except]; eexists; (split; [reflexivity|]); auto.
  - intros s. unfold DeepPack3DModel.calculateSupportScore.
    destruct (DeepPack3DModel.support_count h a) as [st|] eqn:E; cbn [bind];
      [|discriminate].
    pose proof (js_support_count_le h a st E) as Hle.
    destruct (fst st =? 0)%nat eqn:Eb.
    + intros H. injection H as <-. split; [split; lra|left; lra].
    + apply Nat.eqb_neq in Eb.
      pose proof (ratio_score_gap (snd st) (fst st) Hle ltac:(lia)) as G.
      cbv zeta in G. destruct G as (G0 & G1 & G2).
      destruct (Qltb (Q_of_nat (snd st) / Q_of_nat (fst st)) (1 # 2));
        intros H; injection H as <-; auto.
Qed.

(** ** When [predict] falls back to zero *)

Lemma np_max_raises (a : ndarray Q) :
  (exists e, np_max a = Raise e) <-> flat a = [].
Proof.
  unfold np_max. destruct (flat a) as [|x l]; split.
  - reflexivity.
  - intros _. exists ValueError. reflexivity.
  - intros [e H]. discriminate.
  - discriminate.
Qed.

Lemma predict_cases (exp sqrt : Q -> Q) (limit : nat)
  (self : PythonBinPacker.t) (const_in hmap_in amap_in : list (ndarray Q))
  (imap_in : list (list (list Q))) :
  ((exists e, PythonBinPacker.predict_body exp sqrt limit self
                const_in hmap_in amap_in imap_in = Raise e)
   <-> match hmap_in, amap_in, imap_in with
       | h :: _, a :: _, _ :: _ => flat h = [] \/ flat a = []
       | _, _, _ => True
       end)
  /\ match hmap_in, amap_in, imap_in with
     | h :: _, a :: _, L :: _ =>
         flat h <> [] -> flat a <> [] ->
         exists m s c f,
           np_max a = Return m
           /\ PythonBinPacker._calculate_support_score self h a = Return s
           /\ PythonBinPacker._calculate_compactness a = Return c
           /\ PythonBinPacker._evaluate_future_items exp sqrt limit self a L
              = Return f
           /\ PythonBinPacker.predict exp sqrt limit self
                const_in hmap_in amap_in imap_in
              = Return ((3 # 10) * py_min 1 m
                        + (2 # 10) * py_max 0 (1 - np_var a / (1 # 4))
                        + (3 # 10) * s + (1 # 10) * c + (1 # 10) * f)
     | _, _, _ =>
         PythonBinPacker.predict exp sqrt limit self
           const_in hmap_in amap_in imap_in = Return 0
     end.
Proof.
  unfold PythonBinPacker.predict, PythonBinPacker.predict_body, item0, getitem.
  destruct hmap_in as [|h hrest]; cbn [nth_error bind try_except];
    [split; [split; [auto|intros _; eexists; reflexivity]|reflexivity]|].
  destruct amap_in as [|a arest]; cbn [nth_error bind try_except];
    [split; [split; [auto|intros _; eexists; reflexivity]|reflexivity]|].
  destruct imap_in as [|L Lrest]; cbn [nth_error bind try_except];
    [split; [split; [auto|intros _; eexists; reflexivity]|reflexivity]|].
  destruct (support_score_returns self h a) as [s Es].
  destruct (compactness_returns a) as [c Ec].
  destruct (future_items_returns exp sqrt limit self a L) as [f Ef].
  rewrite Es, Ec, Ef.
  pose proof (np_max_raises h) as Rh. pose proof (np_max_raises a) as Ra.
  destruct (np_max h) as [mh|eh]; cbn [bind try_except].
  - destruct (np_max a) as [m|ea]; cbn [bind try_except].
    + split.
      * split.
        -- intros [e H]. discriminate.
        -- intros [H|H]; [apply Rh in H|apply Ra in H]; destruct H as [e H];
             discriminate.
      * intros _ _. exists m, s, c, f. repeat split; assumption || reflexivity.
    + split.
      * split; [intros _; right; apply Ra; eexists; reflexivity|].
        intros _. eexists. reflexivity.
      * intros _ Hn. exfalso. apply Hn. apply Ra. eexists. reflexivity.
  - split.
    + split; [intros _; left; apply Rh; eexists; reflexivity|].
      intros _. eexists. reflexivity.
    + intros Hn. exfalso. apply Hn. apply Rh. eexists. reflexivity.
Qed.

(** X3.  For batches numpy turns into arrays (the items of a batch have
    the same shape, their rows the same number of cells): the [try] block
    of [predict] raises exactly when one of the three batches it reads is
    empty or one of the two grids has no cell; then, and only through this
    handler, [predict] answers 0.  Otherwise the score is the weighted
    sum. *)
Theorem predict_fallback_cases (exp sqrt : Q -> Q) (limit : nat)
  (self : PythonBinPacker.t) (const_in hmap_in amap_in : list (ndarray Q))
  (imap_in : list (list (list Q))) :
  array3 hmap_in -> array3 amap_in -> array3 imap_in ->
  ((exists e, PythonBinPacker.predict_body exp sqrt limit self
                const_in hmap_in amap_in imap_in = Raise e)
   <-> match hmap_in, amap_in, imap_in with
       | h :: _, a :: _, _ :: _ => flat h = [] \/ flat a = []
       | _, _, _ => True
       end)
  /\ match hmap_in, amap_in, imap_in with
     | h :: _, a :: _, L :: _ =>
         flat h <> [] -> flat a <> [] ->
         exists m s c f,
           np_max a = Return m
           /\ PythonBinPacker._calculate_support_score self h a = Return s
           /\ PythonBinPacker._calculate_compactness a = Return c
           /\ PythonBinPacker._evaluate_future_items exp sqrt limit self a L
              = Return f
           /\ PythonBinPacker.predict exp sqrt limit self
                const_in hmap_in amap_in imap_in
              = Return ((3 # 10) * py_min 1 m
                        + (2 # 10) * py_max 0 (1 - np_var a / (1 # 4))
                        + (3 # 10) * s + (1 # 10) * c + (1 # 10) * f)
     | _, _, _ =>
         PythonBinPacker.predict exp sqrt limit self
           const_in hmap_in amap_in imap_in = Return 0
     end.
Proof.
  intros _ _ _.
  exact (predict_cases exp sqrt limit self const_in hmap_in amap_in imap_in).
Qed.

Lemma predict_fallback_cases_witness :
  (array3 [empty_32] /\ array3 [stack_3x3] /\ array3 [[[1; 1; 1]]])
  /\ ((exists e, PythonBinPacker.predict_body exp_standin sqrt_standin 1000 packer
                   [] [empty_32] [stack_3x3] [[[1; 1; 1]]] = Raise e)
      <-> flat empty_32 = [] \/ flat stack_3x3 = [])
  /\ (flat empty_32 <> [] -> flat stack_3x3 <> [] ->
      exists m s c f,
        np_max stack_3x3 = Return m
        /\ PythonBinPacker._calculate_support_score packer empty_32 stack_3x3
           = Return s
        /\ PythonBinPacker._calculate_compactness stack_3x3 = Return c
        /\ PythonBinPacker._evaluate_future_items exp_standin sqrt_standin 1000
             packer stack_3x3 [[1; 1; 1]] = Return f
        /\ PythonBinPacker.predict exp_standin sqrt_standin 1000 packer
             [] [empty_32] [stack_3x3] [[[1; 1; 1]]]
           = Return ((3 # 10) * py_min 1 m
                     + (2 # 10) * py_max 0 (1 - np_var stack_3x3 / (1 # 4))
                     + (3 # 10) * s + (1 # 10) * c + (1 # 10) * f)).
Proof.
  destruct square_stack_3x3 as [Sa Sh].
  assert (A1 : array3 [empty_32]).
  { exists 32%nat, 32%nat. constructor; [exact Sh|constructor]. }
  assert (A2 : array3 [stack_3x3]).
  { exists 32%nat, 32%nat. constructor; [exact Sa|constructor]. }
  assert (A3 : array3 [[[1; 1; 1]]]).
  { exists 1%nat, 3%nat. repeat constructor. }
  split; [split; [exact A1|split; [exact A2|exact A3]]|].
  exact (predict_fallback_cases exp_standin sqrt_standin 1000 packer []
           [empty_32] [stack_3x3] [[[1; 1; 1]]] A1 A2 A3).
Defined.


(** ** Arrays smaller than the window *)

Lemma for_each_raises {A S : Type} (body : A -> S -> outcome S) (l : list A) (x : A) :
  In x l -> (forall s, exists e, body x s = Raise e) ->
  forall s, exists e, for_each l body s = Raise e.
Proof.
  intros Hin Hx. induction l as [|y l IH]; [destruct Hin|].
  intros s. simpl. destruct Hin as [->|Hin].
  - destruct (Hx s) as [e E]. rewrite E. exists e. reflexivity.
  - destruct (body y s) as [s'|e]; simpl.
    + apply IH. exact Hin.
    + exists e. reflexivity.
Qed.

Lemma getitem2_outside {A : Type} (gs : nat) (a : ndarray A) :
  window_sticks_out gs a ->
  exists i j, (i < gs)%nat /\ (j < gs)%nat /\ getitem2 a i j = Raise IndexError.
Proof.
  intros [Hrows|(i & Hi & Hrow)].
  - exists (length a), 0%nat. split; [exact Hrows|]. split; [lia|].
    unfold getitem2, getitem.
    replace (nth_error a (length a)) with (@None (list A)); [reflexivity|].
    symmetry. apply nth_error_None. lia.
  - exists i, (length (nth i a [])). split; [exact Hi|]. split; [exact Hrow|].
    unfold getitem2, getitem.
    destruct (nth_error a i) as [row|] eqn:E; [|reflexivity]. simpl.
    rewrite (nth_error_nth a i [] E).
    replace (nth_error row (length row)) with (@None A); [reflexivity|].
    symmetry. apply nth_error_None. lia.
Qed.

(** X4.  The scans of [PythonBinPacker] run over the 32 x 32 window
    whatever the shape of the arrays.  When the action map does not cover
    the window, a placement that raises a cell gets the support score 0.5
    (the scan leaves the array and the handler answers), and
    [_find_flat_areas] raises. *)
Theorem scans_leave_small_arrays (limit : nat) (self : PythonBinPacker.t)
  (h a : ndarray Q) (action_cells : ndarray bool) :
  window_sticks_out (PythonBinPacker.grid_size self) a ->
  np_map2 Qgtb a h = Return action_cells -> np_any action_cells = true ->
  PythonBinPacker._calculate_support_score self h a = Return (1 # 2)
  /\ exists e, PythonBinPacker._find_flat_areas limit self a = Raise e.
Proof.
  intros Hout Eac Hany.
  destruct (getitem2_outside _ a Hout) as (i & j & Hi & Hj & E).
  split.
  - unfold PythonBinPacker._calculate_support_score,
      PythonBinPacker._calculate_support_score_body.
    rewrite Eac. cbn [bind]. rewrite Hany. cbn [negb].
    destruct (for_each_raises
                (fun i base_mask =>
                   for_each (range (PythonBinPacker.grid_size self))
                     (fun j base_mask =>
                        a0 <- getitem2 a i j ;;
                        h0 <- getitem2 h i j ;;
                        if Qgtb a0 h0 then
                          base_mask <- setitem2 base_mask i j true ;;
                          PythonBinPacker.shadow_scan self a i j base_mask
                        else Return base_mask) base_mask)
                (range (PythonBinPacker.grid_size self)) i)
      with (s := np_zeros_like a) as [e Ee].
    + apply in_range. exact Hi.
    + intros s. apply (for_each_raises _ _ j); [apply in_range; exact Hj|].
      intros s'. rewrite E. exists IndexError. reflexivity.
    + unfold PythonBinPacker.base_mask_loop. rewrite Ee. reflexivity.
  - unfold PythonBinPacker._find_flat_areas, PythonBinPacker.flat_area_scan.
    destruct (for_each_raises
                (fun i st =>
                   for_each (range (PythonBinPacker.grid_size self))
                     (fun j st =>
                        PythonBinPacker.flat_area_step limit self a i j st) st)
                (range (PythonBinPacker.grid_size self)) i)
      with (s := (np_zeros_like a, @nil nat)) as [e Ee].
    + apply in_range. exact Hi.
    + intros s. apply (for_each_raises _ _ j); [apply in_range; exact Hj|].
      intros s'. unfold PythonBinPacker.flat_area_step. rewrite E.
      exists IndexError. reflexivity.
    + rewrite Ee. exists e. reflexivity.
Qed.

Lemma scans_leave_small_arrays_witness :
  (window_sticks_out (PythonBinPacker.grid_size packer) (rect_map 5 5 1 1 3 3 1)
   /\ np_any (np_map (fun x => Qgtb x 0) (rect_map 5 5 1 1 3 3 1)) = true)
  /\ PythonBinPacker._calculate_support_score packer (zeros 5) (rect_map 5 5 1 1 3 3 1)
     = Return (1 # 2)
  /\ exists e,
      PythonBinPacker._find_flat_areas 1000 packer (rect_map 5 5 1 1 3 3 1)
      = Raise e.
Proof.
  assert (W : window_sticks_out (PythonBinPacker.grid_size packer)
                (rect_map 5 5 1 1 3 3 1)) by (left; simpl; lia).
  assert (N : np_any (np_map (fun x => Qgtb x 0) (rect_map 5 5 1 1 3 3 1)) = true)
    by reflexivity.
  split; [split; assumption|].
  apply (scans_leave_small_arrays 1000 packer (zeros 5) (rect_map 5 5 1 1 3 3 1)
           (np_map (fun x => Qgtb x 0) (rect_map 5 5 1 1 3 3 1)) W);
    [reflexivity|exact N].
Defined.

(** ** Every cell above zero is counted *)

Lemma for_each_invariant_outcome {A S : Type} (P : list A -> S -> Prop)
  (E : exn -> Prop) (body : A -> S -> outcome S) (l : list A) :
  (forall done x s, P done s -> In x l ->
                    match body x s with
                    | Return s' => P (done ++ [x]) s'
                    | Raise e => E e
                    end) ->
  forall s, P [] s ->
            match for_each l body s with
            | Return s' => P l s'
            | Raise e => E e
            end.
Proof.
  intros Hstep.
  assert (G : forall rest done s,
             incl rest l -> P done s ->
             match for_each rest body s with
             | Return s' => P (done ++ rest) s'
             | Raise e => E e
             end).
  { induction rest as [|x rest IH]; intros done s Hincl HP; simpl.
    - rewrite app_nil_r. exact HP.
    - pose proof (Hstep done x s HP (Hincl x (or_introl eq_refl))) as H1.
      destruct (body x s) as [s1|e]; simpl; [|exact H1].
      specialize (IH (done ++ [x]) s1).
      rewrite <- app_assoc in IH. apply IH; [|exact H1].
      intros y Hy. apply Hincl. right. exact Hy. }
  intros s HP. apply (G l [] s); [apply incl_refl|exact HP].
Qed.

Lemma flood_fill_counts_seed (self : PythonBinPacker.t) (height_map : ndarray Q)
  (target tolerance : Q) (frames : nat) (v : ndarray bool) (i j : nat)
  (r : ndarray bool * nat) :
  square (PythonBinPacker.grid_size self) height_map ->
  square (PythonBinPacker.grid_size self) v ->
  (i < PythonBinPacker.grid_size self)%nat ->
  (j < PythonBinPacker.grid_size self)%nat ->
  at2 false v i j = false ->
  Qabs (at2 0 height_map i j - target) <= tolerance ->
  PythonBinPacker._flood_fill self frames height_map v (Z.of_nat i) (Z.of_nat j)
    target tolerance = Return r ->
  at2 false (fst r) i j = true /\ (1 <= snd r)%nat.
Proof.
  intros Hh Hv Hi Hj Hun Htol.
  destruct frames as [|frames]; [discriminate|].
  cbn [PythonBinPacker._flood_fill].
  rewrite (flood_stop_value self height_map target tolerance Hh v _ _ Hv).
  replace ((Z.of_nat i <? 0)
           || (Z.of_nat (PythonBinPacker.grid_size self) <=? Z.of_nat i)
           || (Z.of_nat j <? 0)
           || (Z.of_nat (PythonBinPacker.grid_size self) <=? Z.of_nat j))%Z
    with false.
  2:{ symmetry. rewrite !orb_false_iff. repeat split.
      - apply Z.ltb_ge. lia.
      - apply Z.leb_gt. lia.
      - apply Z.ltb_ge. lia.
      - apply Z.leb_gt. lia. }
  rewrite !Nat2Z.id, Hun.
  replace (Qgtb (Qabs (at2 0 height_map i j - target)) tolerance) with false
    by (symmetry; apply Qgtb_le; exact Htol).
  cbn [bind].
  rewrite (setitem2_upd2 (PythonBinPacker.grid_size self) v i j true Hv Hi Hj).
  cbn [bind].
  set (v1 := upd2 v i j true).
  assert (S1 : square (PythonBinPacker.grid_size self) v1)
    by (apply square_upd2; assumption).
  assert (M1 : at2 false v1 i j = true).
  { unfold v1. rewrite (at2_upd2 false (PythonBinPacker.grid_size self))
      by assumption.
    rewrite !Nat.eqb_refl. reflexivity. }
  pose proof (flood_fill_spec self height_map target tolerance Hh frames) as FS.
  pose proof (FS v1 (Z.of_nat i + 1)%Z (Z.of_nat j) S1) as F1.
  destruct (PythonBinPacker._flood_fill self frames height_map v1 _ _ target
              tolerance) as [r1|]; cbn [bind]; [|discriminate].
  destruct F1 as (Q1 & _ & K1 & _).
  pose proof (FS (fst r1) (Z.of_nat i - 1)%Z (Z.of_nat j) Q1) as F2.
  destruct (PythonBinPacker._flood_fill self frames height_map (fst r1) _ _ target
              tolerance) as [r2|]; cbn [bind]; [|discriminate].
  destruct F2 as (Q2 & _ & K2 & _).
  pose proof (FS (fst r2) (Z.of_nat i) (Z.of_nat j + 1)%Z Q2) as F3.
  destruct (PythonBinPacker._flood_fill self frames height_map (fst r2) _ _ target
              tolerance) as [r3|]; cbn [bind]; [|discriminate].
  destruct F3 as (Q3 & _ & K3 & _).
  pose proof (FS (fst r3) (Z.of_nat i) (Z.of_nat j - 1)%Z Q3) as F4.
  destruct (PythonBinPacker._flood_fill self frames height_map (fst r3) _ _ target
              tolerance) as [r4|]; cbn [bind]; [|discriminate].
  destruct F4 as (Q4 & _ & K4 & _).
  intros H. injection H as <-. simpl. split; [|lia].
  apply K4, K3, K2, K1. exact M1.
Qed.

Lemma scan_covers_cells (limit : nat) (self : PythonBinPacker.t)
  (height_map : ndarray Q) (st : ndarray bool * list nat) :
  square (PythonBinPacker.grid_size self) height_map ->
  PythonBinPacker.flat_area_scan limit self height_map = Return st ->
  (forall i j,
      (i < PythonBinPacker.grid_size self)%nat ->
      (j < PythonBinPacker.grid_size self)%nat ->
      0 < at2 0 height_map i j -> at2 false (fst st) i j = true)
  /\ (forall frames v i j r,
         square (PythonBinPacker.grid_size self) v ->
         (i < PythonBinPacker.grid_size self)%nat ->
         (j < PythonBinPacker.grid_size self)%nat ->
         at2 false v i j = false ->
         PythonBinPacker._flood_fill self frames height_map v
           (Z.of_nat i) (Z.of_nat j) (at2 0 height_map i j) (1 # 10) = Return r ->
         at2 false (fst r) i j = true /\ (1 <= snd r)%nat).
Proof.
  intros Hh E.
  set (n := PythonBinPacker.grid_size self) in *.
  assert (Seed : forall frames v i j r,
             square n v -> (i < n)%nat -> (j < n)%nat -> at2 false v i j = false ->
             PythonBinPacker._flood_fill self frames height_map v
               (Z.of_nat i) (Z.of_nat j) (at2 0 height_map i j) (1 # 10) = Return r ->
             at2 false (fst r) i j = true /\ (1 <= snd r)%nat).
  { intros frames v i j r Hv Hi Hj Hun.
    apply flood_fill_counts_seed; try assumption.
    setoid_replace (at2 0 height_map i j - at2 0 height_map i j) with 0 by ring.
    vm_compute. discriminate. }
  split; [|exact Seed].
  unfold PythonBinPacker.flat_area_scan in E. fold n in E.
  match type of E with
  | for_each ?l ?body ?s = _ =>
      assert (H : match for_each l body s with
                  | Return st' => covered n height_map (fun i _ => In i l) st'
                  | Raise _ => True
                  end)
  end.
  { apply (for_each_invariant_outcome
             (fun done st => covered n height_map (fun i _ => In i done) st)
             (fun _ => True)).
    - intros done i s Hs Hi. apply in_range in Hi.
      match goal with
      | |- match for_each ?l ?body ?s0 with _ => _ end =>
          assert (H : match for_each l body s0 with
                      | Return st' =>
                          covered n height_map
                            (fun i' j' => In i' done \/ (i' = i /\ In j' l)) st'
                      | Raise _ => True
                      end)
      end.
      { apply (for_each_invariant_outcome
                 (fun dj st =>
                    covered n height_map
                      (fun i' j' => In i' done \/ (i' = i /\ In j' dj)) st)
                 (fun _ => True)).
        - intros dj j s0 [Hsq Hc] Hj. apply in_range in Hj.
          unfold PythonBinPacker.flat_area_step.
          rewrite (getitem2_at2 0 n height_map i j Hh Hi Hj). cbn [bind].
          assert (Keep : forall v',
                     square n v' ->
                     (forall i' j', at2 false (fst s0) i' j' = true ->
                                    at2 false v' i' j' = true) ->
                     (0 < at2 0 height_map i j -> at2 false v' i j = true) ->
                     forall areas,
                       covered n height_map
                         (fun i' j' => In i' done \/ (i' = i /\ In j' (dj ++ [j])))
                         (v', areas)).
          { intros v' Sv' Mono Here areas. split; [exact Sv'|].
            intros i' j' Hi' Hj' Hp Hpos. simpl.
            destruct Hp as [Hp|[-> Hp]].
            - apply Mono. apply Hc; auto.
            - apply in_app_or in Hp as [Hp|[<-|[]]].
              + apply Mono. apply Hc; auto.
              + apply Here. exact Hpos. }
          destruct (Qgtb (at2 0 height_map i j) 0) eqn:Epos.
          + rewrite (getitem2_at2 false n (fst s0) i j Hsq Hi Hj). cbn [bind].
            destruct (at2 false (fst s0) i j) eqn:Ev; cbn [negb bind].
            * destruct s0 as [v0 a0]. apply Keep; auto.
            * pose proof (flood_fill_spec self height_map (at2 0 height_map i j)
                            (1 # 10) Hh limit (fst s0) (Z.of_nat i) (Z.of_nat j) Hsq)
                as FS.
              destruct (PythonBinPacker._flood_fill self limit height_map (fst s0)
                          (Z.of_nat i) (Z.of_nat j) (at2 0 height_map i j) (1 # 10))
                as [r|] eqn:Er; cbn [bind]; [|exact I].
              destruct FS as (Sr & _ & Kr & _).
              destruct (Seed limit (fst s0) i j r Hsq Hi Hj Ev Er) as [Mr _].
              destruct (0 <? snd r)%nat; apply Keep; auto.
          + cbn [bind]. destruct s0 as [v0 a0]. apply Keep; auto.
            intros Hpos. apply Qgtb_le in Epos. lra.
        - destruct Hs as [Hsq Hc]. split; [exact Hsq|].
          intros i' j' Hi' Hj' [Hp|[_ []]]. apply Hc; auto. }
      destruct (for_each _ _ s) as [s'|]; [|exact I].
      destruct H as [Hsq Hc]. split; [exact Hsq|].
      intros i' j' Hi' Hj' Hp Hpos. apply Hc; auto.
      apply in_app_or in Hp as [Hp|[<-|[]]]; [left; exact Hp|].
      right. split; [reflexivity|]. apply in_range. exact Hj'.
    - split; [apply square_zeros_like; exact Hh|]. intros i j _ _ []. }
  rewrite E in H. destruct H as [_ Hc].
  intros i j Hi Hj Hpos. apply Hc; auto. apply in_range. exact Hi.
Qed.

(** X5.  When the scan of [_find_flat_areas] returns on a grid of the
    packer's size, every cell above zero is marked, so it has been counted
    in an area; and a flood fill that starts on an unmarked cell of the
    window, with the height of that cell as target, counts at least that
    cell. *)
Theorem scan_covers_positive_cells (limit : nat) (self : PythonBinPacker.t)
  (height_map : ndarray Q) (st : ndarray bool * list nat) :
  square (PythonBinPacker.grid_size self) height_map ->
  PythonBinPacker.flat_area_scan limit self height_map = Return st ->
  (forall i j,
      (i < PythonBinPacker.grid_size self)%nat ->
      (j < PythonBinPacker.grid_size self)%nat ->
      0 < at2 0 height_map i j -> at2 false (fst st) i j = true)
  /\ (forall frames v i j r,
         square (PythonBinPacker.grid_size self) v ->
         (i < PythonBinPacker.grid_size self)%nat ->
         (j < PythonBinPacker.grid_size self)%nat ->
         at2 false v i j = false ->
         PythonBinPacker._flood_fill self frames height_map v
           (Z.of_nat i) (Z.of_nat j) (at2 0 height_map i j) (1 # 10) = Return r ->
         at2 false (fst r) i j = true /\ (1 <= snd r)%nat).
Proof. exact (scan_covers_cells limit self height_map st). Qed.


Lemma scan_covers_positive_cells_witness :
  (square (PythonBinPacker.grid_size packer) stack_3x3
   /\ exists st, PythonBinPacker.flat_area_scan 1025 packer stack_3x3 = Return st)
  /\ exists st,
      PythonBinPacker.flat_area_scan 1025 packer stack_3x3 = Return st
      /\ forall i j, (i < 32)%nat -> (j < 32)%nat ->
                     0 < at2 0 stack_3x3 i j -> at2 false (fst st) i j = true.
Proof.
  assert (S : square (PythonBinPacker.grid_size packer) stack_3x3)
    by apply square_rect_map.
  destruct (PythonBinPacker.flat_area_scan 1025 packer stack_3x3) as [st|e] eqn:E.
  - split; [split; [exact S|exists st; reflexivity]|].
    exists st. split; [reflexivity|].
    apply (scan_covers_positive_cells 1025 packer stack_3x3 st S E).
  - exfalso. vm_compute in E. discriminate.
Defined.

(** ** The JavaScript port against [PythonBinPacker] *)

Lemma for_each_ext_inv {A S : Type} (P : S -> Prop)
  (b1 b2 : A -> S -> outcome S) (l : list A) :
  (forall x s, In x l -> P s ->
               b1 x s = b2 x s /\ (forall s', b2 x s = Return s' -> P s')) ->
  forall s, P s -> for_each l b1 s = for_each l b2 s.
Proof.
  induction l as [|x l IH]; intros H s Hs; simpl; [reflexivity|].
  destruct (H x s (or_introl eq_refl) Hs) as [E K]. rewrite E.
  destruct (b2 x s) as [s'|e] eqn:E2; simpl; [|reflexivity].
  apply IH; [|apply K; reflexivity].
  intros y s0 Hy. apply H. right. exact Hy.
Qed.

Lemma for_each_keeps {A S : Type} (P : S -> Prop)
  (body : A -> S -> outcome S) (l : list A) :
  (forall x s s', In x l -> P s -> body x s = Return s' -> P s') ->
  forall s s', P s -> for_each l body s = Return s' -> P s'.
Proof.
  induction l as [|x l IH]; intros H s s' Hs; simpl.
  - intros E. injection E as <-. exact Hs.
  - destruct (body x s) as [s1|e] eqn:E1; simpl; [|discriminate].
    apply IH; [|apply (H x s s1 (or_introl eq_refl) Hs E1)].
    intros y t t' Hy. apply H. right. exact Hy.
Qed.

Section Port.

Variable self : PythonBinPacker.t.
Let n := PythonBinPacker.grid_size self.
Variable height_map : ndarray Q.
Hypothesis square_height_map : square n height_map.

Lemma js_seen_at2 (v : ndarray bool) (i j : nat) :
  square n v -> (i < n)%nat -> (j < n)%nat ->
  DeepPack3DModel.seen v i j = Return (at2 false v i j).
Proof.
  intros Hv Hi Hj. unfold DeepPack3DModel.seen, DeepPack3DModel.get2, at2.
  rewrite (nth_error_nth' v [] (n := i)) by (destruct Hv; lia).
  cbn [bind].
  rewrite (nth_error_nth' (nth i v []) false (n := j));
    [reflexivity|rewrite (square_row n v i Hv Hi); exact Hj].
Qed.

Lemma js_mark_upd2 (v : ndarray bool) (i j : nat) :
  square n v -> (i < n)%nat -> (j < n)%nat ->
  DeepPack3DModel.mark v i j = Return (upd2 v i j true).
Proof.
  intros Hv Hi Hj. unfold DeepPack3DModel.mark, upd2.
  rewrite (nth_error_nth' v [] (n := i)) by (destruct Hv; lia).
  rewrite (square_row n v i Hv Hi).
  apply Nat.ltb_lt in Hj. rewrite Hj. reflexivity.
Qed.

Lemma js_fill_stop (v : ndarray bool) (i j : Z) (target tolerance : Q) :
  square n v ->
  DeepPack3DModel.fill_stop height_map v i j target tolerance
  = PythonBinPacker.flood_stop self height_map v i j target tolerance.
Proof.
  intros Hv.
  rewrite (flood_stop_value self height_map target tolerance square_height_map
             v i j Hv).
  fold n. unfold DeepPack3DModel.fill_stop.
  replace (length height_map) with n by (destruct square_height_map; congruence).
  destruct (i <? 0)%Z eqn:E1; cbn [orb]; [reflexivity|].
  destruct (Z.of_nat n <=? i)%Z eqn:E2; cbn [orb]; [reflexivity|].
  apply Z.ltb_ge in E1. apply Z.leb_gt in E2.
  assert (Hi : (Z.to_nat i < n)%nat) by lia.
  rewrite (js_row_length n height_map _ square_height_map Hi). cbn [bind].
  destruct (j <? 0)%Z eqn:E3; cbn [orb]; [reflexivity|].
  destruct (Z.of_nat n <=? j)%Z eqn:E4; cbn [orb]; [reflexivity|].
  apply Z.ltb_ge in E3. apply Z.leb_gt in E4.
  assert (Hj : (Z.to_nat j < n)%nat) by lia.
  rewrite (js_seen_at2 v _ _ Hv Hi Hj). cbn [bind].
  destruct (at2 false v (Z.to_nat i) (Z.to_nat j)); [reflexivity|].
  rewrite (js_get2_at2 n height_map _ _ square_height_map Hi Hj). reflexivity.
Qed.

Lemma js_flood_fill (target tolerance : Q) (frames : nat) :
  forall (v : ndarray bool) (i j : Z),
    square n v ->
    DeepPack3DModel.floodFill frames height_map v i j target tolerance
    = PythonBinPacker._flood_fill self frames height_map v i j target tolerance.
Proof.
  induction frames as [|frames IH]; intros v i j Hv; [reflexivity|].
  cbn [DeepPack3DModel.floodFill PythonBinPacker._flood_fill].
  rewrite (js_fill_stop v i j target tolerance Hv).
  pose proof (flood_stop_value self height_map target tolerance square_height_map
                v i j Hv) as Es.
  fold n in Es. rewrite Es. cbn [bind].
  destruct ((i <? 0) || (Z.of_nat n <=? i) || (j <? 0) || (Z.of_nat n <=? j))%Z
    eqn:E; [reflexivity|].
  rewrite !orb_false_iff in E. destruct E as [[[E1 E2] E3] E4].
  apply Z.ltb_ge in E1, E3. apply Z.leb_gt in E2, E4.
  assert (Hi : (Z.to_nat i < n)%nat) by lia.
  assert (Hj : (Z.to_nat j < n)%nat) by lia.
  destruct (at2 false v (Z.to_nat i) (Z.to_nat j)); [reflexivity|].
  destruct (Qgtb _ tolerance); [reflexivity|].
  rewrite (js_mark_upd2 v _ _ Hv Hi Hj), (setitem2_upd2 n v _ _ true Hv Hi Hj).
  cbn [bind].
  assert (S1 : square n (upd2 v (Z.to_nat i) (Z.to_nat j) true))
    by (apply square_upd2; assumption).
  pose proof (flood_fill_spec self height_map target tolerance square_height_map
                frames) as FS. fold n in FS.
  rewrite (IH _ (i + 1)%Z j S1).
  pose proof (FS _ (i + 1)%Z j S1) as F1.
  destruct (PythonBinPacker._flood_fill self frames height_map _ (i + 1)%Z j
              target tolerance) as [r1|]; cbn [bind]; [|reflexivity].
  destruct F1 as (Q1 & _).
  rewrite (IH _ (i - 1)%Z j Q1).
  pose proof (FS _ (i - 1)%Z j Q1) as F2.
  destruct (PythonBinPacker._flood_fill self frames height_map _ (i - 1)%Z j
              target tolerance) as [r2|]; cbn [bind]; [|reflexivity].
  destruct F2 as (Q2 & _).
  rewrite (IH _ i (j + 1)%Z Q2).
  pose proof (FS _ i (j + 1)%Z Q2) as F3.
  destruct (PythonBinPacker._flood_fill self frames height_map _ i (j + 1)%Z
              target tolerance) as [r3|]; cbn [bind]; [|reflexivity].
  destruct F3 as (Q3 & _).
  rewrite (IH _ i (j - 1)%Z Q3). reflexivity.
Qed.

Lemma zeros_like_repeat (g : ndarray Q) :
  square n g -> np_zeros_like g = map (fun _ => repeat false n) g.
Proof.
  intros [_ Hr]. unfold np_zeros_like, np_map.
  apply map_ext_in. intros row Hrow.
  rewrite Forall_forall in Hr. rewrite <- (Hr row Hrow).
  clear. induction row as [|x row IH]; simpl; [reflexivity|]. rewrite IH. reflexivity.
Qed.

Lemma js_find_flat_areas (limit : nat) :
  (0 < n)%nat ->
  DeepPack3DModel.findFlatAreas limit height_map
  = PythonBinPacker._find_flat_areas limit self height_map.
Proof.
  intros Hn. unfold DeepPack3DModel.findFlatAreas,
    PythonBinPacker._find_flat_areas, PythonBinPacker.flat_area_scan.
  replace (length height_map =? 0)%nat with false
    by (symmetry; apply Nat.eqb_neq; destruct square_height_map; lia).
  rewrite (js_row_length n height_map 0 square_height_map Hn). cbn [bind].
  rewrite <- (zeros_like_repeat height_map square_height_map).
  replace (length height_map) with n by (destruct square_height_map; congruence).
  fold n. f_equal.
  apply (for_each_ext_inv (fun st : ndarray bool * list nat => square n (fst st))).
  - intros i st Hi Hst. apply in_range in Hi.
    rewrite (js_row_length n height_map i square_height_map Hi). cbn [bind].
    assert (Step : forall j s, In j (range n) -> square n (fst s) ->
              (h <- DeepPack3DModel.get2 height_map i j ;;
               c <- (if DeepPack3DModel.gt h (Some 0)
                     then v <- DeepPack3DModel.seen (fst s) i j ;; Return (negb v)
                     else Return false) ;;
               if c then
                 r <- DeepPack3DModel.floodFill limit height_map (fst s)
                        (Z.of_nat i) (Z.of_nat j)
                        (match h with Some v => v | None => 0 end) (1 # 10) ;;
                 if (0 <? snd r)%nat then Return (fst r, snd s ++ [snd r])
                 else Return (fst r, snd s)
               else Return s)
              = PythonBinPacker.flat_area_step limit self height_map i j s
              /\ (forall s', PythonBinPacker.flat_area_step limit self height_map
                               i j s = Return s' -> square n (fst s'))).
    { intros j s Hj Hs. apply in_range in Hj.
      pose proof (flat_area_step_spec limit self height_map square_height_map
                    i j s Hi Hj) as Spec.
      unfold PythonBinPacker.flat_area_step in *.
      rewrite (js_get2_at2 n height_map i j square_height_map Hi Hj).
      rewrite (getitem2_at2 0 n height_map i j square_height_map Hi Hj) in *.
      cbn [bind DeepPack3DModel.gt] in *.
      destruct (Qgtb (at2 0 height_map i j) 0).
      - rewrite (js_seen_at2 (fst s) i j Hs Hi Hj).
        rewrite (getitem2_at2 false n (fst s) i j Hs Hi Hj) in *.
        cbn [bind] in *.
        destruct (negb (at2 false (fst s) i j)); cbn [bind] in *.
        + rewrite (js_flood_fill (at2 0 height_map i j) (1 # 10) limit (fst s)
                     (Z.of_nat i) (Z.of_nat j) Hs).
          split; [destruct s; reflexivity|].
          pose proof (flood_fill_spec self height_map (at2 0 height_map i j)
                        (1 # 10) square_height_map limit (fst s)
                        (Z.of_nat i) (Z.of_nat j) Hs) as FS.
          destruct (PythonBinPacker._flood_fill self limit height_map (fst s)
                      (Z.of_nat i) (Z.of_nat j) (at2 0 height_map i j) (1 # 10))
            as [r|]; cbn [bind]; [|discriminate].
          destruct FS as (Sr & _).
          destruct (0 <? snd r)%nat; intros s' H; injection H as <-; exact Sr.
        + split; [destruct s; reflexivity|].
          intros s' H. injection H as <-. exact Hs.
      - cbn [bind]. split; [destruct s; reflexivity|].
        intros s' H. injection H as <-. exact Hs. }
    split.
    + apply (for_each_ext_inv (fun st : ndarray bool * list nat => square n (fst st)));
        [|exact Hst].
      intros j s Hj Hs. exact (Step j s Hj Hs).
    + intros s'. apply (for_each_keeps (fun st : ndarray bool * list nat =>
                                          square n (fst st))); [|exact Hst].
      intros j s s0 Hj Hs. apply (Step j s Hj Hs).
  - simpl. apply square_zeros_like. exact square_height_map.
Qed.

End Port.

(** X6.  On a grid of the packer's size the flood fill and the flat-area
    finder of the JavaScript port compute what those of [PythonBinPacker]
    compute, frame for frame: the same marks, the same areas, the same
    overflow. *)
Theorem port_finds_the_same_areas (self : PythonBinPacker.t) (limit : nat)
  (height_map : ndarray Q) :
  square (PythonBinPacker.grid_size self) height_map ->
  (0 < PythonBinPacker.grid_size self)%nat ->
  DeepPack3DModel.findFlatAreas limit height_map
  = PythonBinPacker._find_flat_areas limit self height_map
  /\ forall frames v i j target tolerance,
      square (PythonBinPacker.grid_size self) v ->
      DeepPack3DModel.floodFill frames height_map v i j target tolerance
      = PythonBinPacker._flood_fill self frames height_map v i j target tolerance.
Proof.
  intros Hh Hn. split.
  - apply js_find_flat_areas; assumption.
  - intros frames v i j target tolerance Hv. apply js_flood_fill; assumption.
Qed.

Lemma port_finds_the_same_areas_witness :
  (square (PythonBinPacker.grid_size packer) stack_3x3
   /\ (0 < PythonBinPacker.grid_size packer)%nat)
  /\ DeepPack3DModel.findFlatAreas 1000 stack_3x3
     = PythonBinPacker._find_flat_areas 1000 packer stack_3x3.
Proof.
  assert (S : square (PythonBinPacker.grid_size packer) stack_3x3)
    by apply square_rect_map.
  assert (N : (0 < PythonBinPacker.grid_size packer)%nat) by (simpl; lia).
  split; [split; assumption|].
  apply (port_finds_the_same_areas packer 1000 stack_3x3 S N).
Defined.

Lemma Qgtb_compat (x y : Q) : x == y -> Qgtb x 0 = Qgtb y 0.
Proof.
  intros E. destruct (Qgtb y 0) eqn:Ey.
  - apply Qgtb_gt in Ey. apply Qgtb_gt. rewrite E. exact Ey.
  - apply Qgtb_le in Ey. apply Qgtb_le. rewrite E. exact Ey.
Qed.

Lemma future_sizes_of_triples (L : list (list Q)) :
  Forall (fun item => length item = 3%nat) L ->
  PythonBinPacker.future_sizes L = Return (DeepPack3DModel.futureItemsSizes L).
Proof.
  induction 1 as [|item L Hlen _ IH]; simpl; [reflexivity|].
  destruct item as [|x [|y [|z [|]]]]; try discriminate.
  replace (Qgtb (Qsum [x; y; z]) 0) with (Qgtb (x + y + z) 0)
    by (apply Qgtb_compat; unfold Qsum; simpl; ring).
  destruct (Qgtb (x + y + z) 0); [|exact IH].
  unfold getitem. simpl. rewrite IH. reflexivity.
Qed.

Lemma future_items_body_agree (exp sqrt : Q -> Q) (limit : nat)
  (self : PythonBinPacker.t) (a : ndarray Q) (L : list (list Q)) :
  square (PythonBinPacker.grid_size self) a ->
  (0 < PythonBinPacker.grid_size self)%nat ->
  Forall (fun item => length item = 3%nat) L ->
  PythonBinPacker._evaluate_future_items_body exp sqrt limit self a L
  = DeepPack3DModel.evaluateFutureItems exp sqrt limit a (Some L).
Proof.
  intros Ha Hn HL.
  unfold PythonBinPacker._evaluate_future_items_body,
    DeepPack3DModel.evaluateFutureItems.
  destruct (length L =? 0)%nat; [reflexivity|].
  destruct (length (filter (fun x => Qgtb x 0) (flat a)) =? 0)%nat; [reflexivity|].
  rewrite (future_sizes_of_triples L HL). cbn [bind].
  rewrite (js_find_flat_areas self a Ha limit Hn).
  destruct (DeepPack3DModel.futureItemsSizes L) as [|x sizes]; [reflexivity|].
  cbn [length Nat.eqb].
  destruct (PythonBinPacker._find_flat_areas limit self a) as [areas|];
    reflexivity.
Qed.

Lemma future_items_agree (exp sqrt : Q -> Q) (limit : nat)
  (self : PythonBinPacker.t) (a : ndarray Q) (L : list (list Q)) :
  square (PythonBinPacker.grid_size self) a ->
  (0 < PythonBinPacker.grid_size self)%nat ->
  Forall (fun item => length item = 3%nat) L ->
  PythonBinPacker._evaluate_future_items exp sqrt limit self a L
  = try_except (DeepPack3DModel.evaluateFutureItems exp sqrt limit a (Some L))
      (fun _ => Return (1 # 2)).
Proof.
  intros Ha Hn HL. unfold PythonBinPacker._evaluate_future_items.
  rewrite (future_items_body_agree exp sqrt limit self a L Ha Hn HL).
  reflexivity.
Qed.

Lemma future_items_body_more_frames (exp sqrt : Q -> Q) (limit limit' : nat)
  (self : PythonBinPacker.t) (a : ndarray Q) (L : list (list Q)) (f : Q) :
  (limit <= limit')%nat ->
  PythonBinPacker._evaluate_future_items_body exp sqrt limit self a L = Return f ->
  PythonBinPacker._evaluate_future_items_body exp sqrt limit' self a L = Return f.
Proof.
  intros Hle. unfold PythonBinPacker._evaluate_future_items_body.
  destruct (length L =? 0)%nat; [auto|].
  destruct (length (filter (fun x => Qgtb x 0) (flat a)) =? 0)%nat; [auto|].
  cbv zeta.
  destruct (PythonBinPacker.future_sizes L) as [sizes|]; cbn [bind]; [|auto].
  destruct sizes as [|x sizes]; [auto|].
  destruct (PythonBinPacker._find_flat_areas limit self a) as [areas|] eqn:E;
    cbn [bind]; [|discriminate].
  rewrite (find_flat_areas_more_frames limit limit' self a areas Hle E).
  cbn [bind]. auto.
Qed.

Lemma port_future_items_with_more_frames (exp sqrt : Q -> Q)
  (port_limit limit : nat) (self : PythonBinPacker.t) (a : ndarray Q)
  (L : list (list Q)) (f : Q) :
  square (PythonBinPacker.grid_size self) a ->
  (0 < PythonBinPacker.grid_size self)%nat ->
  Forall (fun item => length item = 3%nat) L ->
  (port_limit <= limit)%nat ->
  DeepPack3DModel.evaluateFutureItems exp sqrt port_limit a (Some L) = Return f ->
  PythonBinPacker._evaluate_future_items exp sqrt limit self a L = Return f.
Proof.
  intros Ha Hn HL Hle E.
  rewrite <- (future_items_body_agree exp sqrt port_limit self a L Ha Hn HL) in E.
  unfold PythonBinPacker._evaluate_future_items.
  rewrite (future_items_body_more_frames exp sqrt port_limit limit self a L f Hle E).
  reflexivity.
Qed.

(** X7.  For an action map of the packer's size and a lookahead of triples:
    with the same number of frames for the flood fill, the future-items
    score of [PythonBinPacker] is the score the JavaScript port computes,
    and 0.5 where the port throws; and a score the port returns with some
    number of frames is the score of [PythonBinPacker] with that number of
    frames or more. *)
Theorem port_scores_future_items_alike (exp sqrt : Q -> Q)
  (self : PythonBinPacker.t) (a : ndarray Q) (L : list (list Q)) :
  square (PythonBinPacker.grid_size self) a ->
  (0 < PythonBinPacker.grid_size self)%nat ->
  Forall (fun item => length item = 3%nat) L ->
  (forall limit,
      PythonBinPacker._evaluate_future_items exp sqrt limit self a L
      = try_except (DeepPack3DModel.evaluateFutureItems exp sqrt limit a (Some L))
          (fun _ => Return (1 # 2)))
  /\ (forall port_limit limit f,
         (port_limit <= limit)%nat ->
         DeepPack3DModel.evaluateFutureItems exp sqrt port_limit a (Some L)
         = Return f ->
         PythonBinPacker._evaluate_future_items exp sqrt limit self a L = Return f).
Proof.
  intros Ha Hn HL. split.
  - intros limit. exact (future_items_agree exp sqrt limit self a L Ha Hn HL).
  - intros port_limit limit f Hle E.
    exact (port_future_items_with_more_frames exp sqrt port_limit limit self a L f
             Ha Hn HL Hle E).
Qed.

Lemma port_scores_future_items_alike_witness :
  (square (PythonBinPacker.grid_size packer) stack_3x3
   /\ (0 < PythonBinPacker.grid_size packer)%nat
   /\ Forall (fun item => length item = 3%nat) [[2; 2; 2]; [0; 0; 0]])
  /\ (forall limit,
         PythonBinPacker._evaluate_future_items exp_standin sqrt_standin limit
           packer stack_3x3 [[2; 2; 2]; [0; 0; 0]]
         = try_except
             (DeepPack3DModel.evaluateFutureItems exp_standin sqrt_standin limit
                stack_3x3 (Some [[2; 2; 2]; [0; 0; 0]]))
             (fun _ => Return (1 # 2)))
  /\ (forall port_limit limit f,
         (port_limit <= limit)%nat ->
         DeepPack3DModel.evaluateFutureItems exp_standin sqrt_standin port_limit
           stack_3x3 (Some [[2; 2; 2]; [0; 0; 0]]) = Return f ->
         PythonBinPacker._evaluate_future_items exp_standin sqrt_standin limit
           packer stack_3x3 [[2; 2; 2]; [0; 0; 0]] = Return f).
Proof.
  assert (S : square (PythonBinPacker.grid_size packer) stack_3x3)
    by apply square_rect_map.
  assert (N : (0 < PythonBinPacker.grid_size packer)%nat) by (simpl; lia).
  assert (T : Forall (fun item => length item = 3%nat) [[2; 2; 2]; [0; 0; 0]])
    by (repeat constructor).
  split; [split; [exact S|split; [exact N|exact T]]|].
  apply (port_scores_future_items_alike exp_standin sqrt_standin packer
           stack_3x3 [[2; 2; 2]; [0; 0; 0]] S N T).
Defined.

(** ** The support score, cell by cell *)

Lemma square_tabulate {A : Type} (n : nat) (F : nat -> nat -> A) :
  square n (tabulate n F).
Proof.
  unfold square, tabulate, range. split.
  - rewrite length_map, length_seq. reflexivity.
  - apply Forall_forall. intros row Hrow.
    apply in_map_iff in Hrow as (i & <- & _).
    rewrite length_map, length_seq. reflexivity.
Qed.

Lemma nth_map_seq {A : Type} (d : A) (f : nat -> A) (n i : nat) :
  (i < n)%nat -> nth i (map f (seq 0 n)) d = f i.
Proof.
  intros Hi.
  pose proof (nth_error_map_seq f n i) as H.
  apply Nat.ltb_lt in Hi. rewrite Hi in H.
  apply (nth_error_nth _ _ d H).
Qed.

Lemma at2_tabulate {A : Type} (d : A) (n : nat) (F : nat -> nat -> A) (i j : nat) :
  (i < n)%nat -> (j < n)%nat -> at2 d (tabulate n F) i j = F i j.
Proof.
  intros Hi Hj. unfold at2, tabulate, range.
  rewrite (nth_map_seq [] _ n i Hi). apply nth_map_seq. exact Hj.
Qed.

Lemma list_as_map_nth {A : Type} (d : A) (l : list A) :
  l = map (fun i => nth i l d) (seq 0 (length l)).
Proof.
  rewrite (map_nth_seq (fun x => x) d l). symmetry. apply map_id.
Qed.

Lemma tabulate_at2 {A : Type} (d : A) (n : nat) (g : ndarray A) :
  square n g -> g = tabulate n (at2 d g).
Proof.
  intros Hs. destruct Hs as [Hl Hr]. unfold tabulate, range, at2.
  rewrite (list_as_map_nth [] g) at 1. rewrite Hl.
  apply map_ext_in. intros i Hi. apply in_seq in Hi.
  assert (Hrow : length (nth i g []) = n).
  { rewrite Forall_forall in Hr. apply Hr. apply nth_In. lia. }
  rewrite (list_as_map_nth d (nth i g [])) at 1. rewrite Hrow. reflexivity.
Qed.

Lemma tabulate_ext {A : Type} (n : nat) (F G : nat -> nat -> A) :
  (forall i j, (i < n)%nat -> (j < n)%nat -> F i j = G i j) ->
  tabulate n F = tabulate n G.
Proof.
  intros H. unfold tabulate, range.
  apply map_ext_in. intros i Hi. apply in_seq in Hi.
  apply map_ext_in. intros j Hj. apply in_seq in Hj.
  apply H; lia.
Qed.

Lemma count_filter_map {A : Type} (f : A -> bool) (l : list A) :
  length (filter (fun b => b) (map f l)) = length (filter f l).
Proof.
  induction l as [|x l IH]; simpl; [reflexivity|].
  destruct (f x); simpl; rewrite IH; reflexivity.
Qed.

Lemma np_count_tabulate (n : nat) (B : nat -> nat -> bool) :
  np_count (tabulate n B) = count2 n B.
Proof.
  unfold np_count, flat, tabulate, count2.
  assert (G : forall rows cols,
             length (filter (fun b => b)
                       (concat (map (fun i => map (fun j => B i j) cols) rows)))
             = list_sum (map (fun i => length (filter (B i) cols)) rows)).
  { intros rows cols. induction rows as [|i l IH]; simpl; [reflexivity|].
    rewrite filter_app, length_app, IH, count_filter_map. reflexivity. }
  apply G.
Qed.

Lemma existsb_id_map {A : Type} (f : A -> bool) (l : list A) :
  existsb (fun b => b) (map f l) = existsb f l.
Proof.
  induction l as [|x l IH]; simpl; [reflexivity|]. rewrite IH. reflexivity.
Qed.

Lemma np_any_tabulate (n : nat) (B : nat -> nat -> bool) :
  np_any (tabulate n B) = any2 n B.
Proof.
  unfold np_any, flat, tabulate, any2.
  assert (G : forall rows cols,
             existsb (fun b => b)
               (concat (map (fun i => map (fun j => B i j) cols) rows))
             = existsb (fun i => existsb (B i) cols) rows).
  { intros rows cols. induction rows as [|i l IH]; simpl; [reflexivity|].
    rewrite existsb_app, IH, existsb_id_map. reflexivity. }
  apply G.
Qed.

Lemma zip_same_map {A B C D : Type} (f : A -> B -> C) (F : D -> A) (G : D -> B)
  (l : list D) :
  zip_same (fun x y => Return (f x y)) (map F l) (map G l)
  = Return (map (fun i => f (F i) (G i)) l).
Proof.
  induction l as [|x l IH]; simpl; [reflexivity|]. rewrite IH. reflexivity.
Qed.

Lemma np_map2_tabulate {A B C : Type} (f : A -> B -> C) (n : nat)
  (F : nat -> nat -> A) (G : nat -> nat -> B) :
  np_map2 f (tabulate n F) (tabulate n G)
  = Return (tabulate n (fun i j => f (F i j) (G i j))).
Proof.
  unfold np_map2, tabulate.
  assert (H : forall rows cols,
             zip_same (zip_same (fun x y => Return (f x y)))
               (map (fun i => map (fun j => F i j) cols) rows)
               (map (fun i => map (fun j => G i j) cols) rows)
             = Return (map (fun i => map (fun j => f (F i j) (G i j)) cols) rows)).
  { intros rows cols. induction rows as [|i l IH]; simpl; [reflexivity|].
    rewrite zip_same_map. cbn [bind]. rewrite IH. reflexivity. }
  apply H.
Qed.

Lemma np_map2_square {A B C : Type} (f : A -> B -> C) (dx : A) (dy : B)
  (n : nat) (x : ndarray A) (y : ndarray B) :
  square n x -> square n y ->
  np_map2 f x y = Return (tabulate n (fun i j => f (at2 dx x i j) (at2 dy y i j))).
Proof.
  intros Hx Hy.
  set (R := tabulate n (fun i j => f (at2 dx x i j) (at2 dy y i j))).
  rewrite (tabulate_at2 dx n x Hx), (tabulate_at2 dy n y Hy).
  apply np_map2_tabulate.
Qed.

Lemma count2_ext (n : nat) (B B' : nat -> nat -> bool) :
  (forall i j, (i < n)%nat -> (j < n)%nat -> B i j = B' i j) ->
  count2 n B = count2 n B'.
Proof.
  intros H. unfold count2. f_equal.
  apply map_ext_in. intros i Hi. apply in_range in Hi. f_equal.
  apply filter_ext_in. intros j Hj. apply in_range in Hj. apply H; assumption.
Qed.

Lemma python_support_value (self : PythonBinPacker.t) (h a : ndarray Q) :
  square (PythonBinPacker.grid_size self) h ->
  square (PythonBinPacker.grid_size self) a ->
  PythonBinPacker._calculate_support_score self h a
  = Return (if any2 (PythonBinPacker.grid_size self) (new_cell h a)
            then support_of_counts
                   (count2 (PythonBinPacker.grid_size self)
                      (supported_cell (PythonBinPacker.grid_size self) h a))
                   (count2 (PythonBinPacker.grid_size self)
                      (base_cell (PythonBinPacker.grid_size self) h a))
            else 1).
Proof.
  intros Hh Ha. set (n := PythonBinPacker.grid_size self) in *.
  unfold PythonBinPacker._calculate_support_score,
    PythonBinPacker._calculate_support_score_body.
  destruct (base_mask_loop_value self h a Hh Ha) as (bm & Ebm & Sbm & Hbm).
  fold n in Ebm, Sbm, Hbm.
  assert (Tbm : bm = tabulate n (base_cell n h a)).
  { rewrite (tabulate_at2 false n bm Sbm). apply tabulate_ext. exact Hbm. }
  rewrite (np_map2_square Qgtb 0 0 n a h Ha Hh). cbn [bind].
  rewrite np_any_tabulate.
  change (any2 n (fun i j => Qgtb (at2 0 a i j) (at2 0 h i j)))
    with (any2 n (new_cell h a)).
  destruct (any2 n (new_cell h a)); cbn [negb try_except]; [|reflexivity].
  rewrite Ebm. cbn [bind].
  rewrite (np_map2_square (fun x y => Qltb (x - y) (1 # 10)) 0 0 n a h Ha Hh).
  cbn [bind]. rewrite Tbm, np_map2_tabulate. cbn [bind].
  rewrite !np_count_tabulate. unfold support_of_counts.
  change (count2 n (fun i j => base_cell n h a i j
                               && Qltb (at2 0 a i j - at2 0 h i j) (1 # 10)))
    with (count2 n (supported_cell n h a)).
  destruct (count2 n (base_cell n h a) =? 0)%nat; cbn [try_except]; [reflexivity|].
  cbv zeta.
  destruct (Qltb _ (1 # 2)); reflexivity.
Qed.

Lemma for_each_counts {A : Type} (l : list A)
  (body : A -> nat * nat -> outcome (nat * nat)) (f g : A -> nat) :
  (forall x st, In x l ->
                body x st = Return (fst st + f x, snd st + g x)%nat) ->
  forall st,
    for_each l body st
    = Return (fst st + list_sum (map f l), snd st + list_sum (map g l))%nat.
Proof.
  induction l as [|x l IH]; intros H st; simpl.
  - rewrite !Nat.add_0_r. destruct st; reflexivity.
  - rewrite (H x st (or_introl eq_refl)). cbn [bind].
    rewrite IH by (intros y s Hy; apply H; right; exact Hy).
    cbn [fst snd]. f_equal. f_equal; lia.
Qed.

Lemma list_sum_indicator {A : Type} (B : A -> bool) (l : list A) :
  list_sum (map (fun x => if B x then 1 else 0)%nat l) = length (filter B l).
Proof.
  induction l as [|x l IH]; simpl; [reflexivity|].
  destruct (B x); simpl; rewrite IH; reflexivity.
Qed.

Lemma supported_is_base (n : nat) (h a : ndarray Q) (i j : nat) :
  supported_cell n h a i j = true -> base_cell n h a i j = true.
Proof. unfold supported_cell. intros H. apply andb_prop in H. apply H. Qed.

Lemma base_is_new (n : nat) (h a : ndarray Q) (i j : nat) :
  base_cell n h a i j = true -> new_cell h a i j = true.
Proof. unfold base_cell, new_cell. intros H. apply andb_prop in H. apply H. Qed.

Lemma js_support_count_value (n : nat) (h a : ndarray Q) :
  square n h -> square n a ->
  DeepPack3DModel.support_count h a
  = Return (count2 n (base_cell n h a), count2 n (supported_cell n h a)).
Proof.
  intros Hh Ha. unfold DeepPack3DModel.support_count.
  replace (length h) with n by (destruct Hh; congruence).
  rewrite (for_each_counts (range n) _
             (fun i => length (filter (base_cell n h a i) (range n)))
             (fun i => length (filter (supported_cell n h a i) (range n)))).
  - reflexivity.
  - intros i st Hi. apply in_range in Hi.
    rewrite (js_row_length n h i Hh Hi). cbn [bind].
    rewrite (for_each_counts (range n) _
               (fun j => if base_cell n h a i j then 1 else 0)%nat
               (fun j => if supported_cell n h a i j then 1 else 0)%nat).
    + rewrite !list_sum_indicator. reflexivity.
    + intros j s Hj. apply in_range in Hj.
      rewrite (js_get2_at2 n a i j Ha Hi Hj), (js_get2_at2 n h i j Hh Hi Hj).
      cbn [bind]. unfold supported_cell, base_cell.
      destruct (Qgtb (at2 0 a i j) (at2 0 h i j)); cbn [andb].
      * rewrite (is_base_scan_value n a i j Ha Hi Hj). cbn [bind].
        destruct (shadowedb n a i j); cbn [negb andb].
        -- rewrite !Nat.add_0_r. destruct s; reflexivity.
        -- destruct (Qltb (at2 0 a i j - at2 0 h i j) (1 # 10)); cbn [fst snd];
             f_equal; f_equal; lia.
      * rewrite !Nat.add_0_r. destruct s; reflexivity.
Qed.

Lemma js_support_value (n : nat) (h a : ndarray Q) :
  square n h -> square n a ->
  DeepPack3DModel.calculateSupportScore h a
  = Return (support_of_counts (count2 n (supported_cell n h a))
              (count2 n (base_cell n h a))).
Proof.
  intros Hh Ha. unfold DeepPack3DModel.calculateSupportScore.
  rewrite (js_support_count_value n h a Hh Ha). cbn [bind fst snd].
  unfold support_of_counts.
  destruct (count2 n (base_cell n h a) =? 0)%nat; [reflexivity|].
  cbv zeta. destruct (Qltb _ (1 # 2)); reflexivity.
Qed.

Lemma count2_none (n : nat) (B C : nat -> nat -> bool) :
  (forall i j, B i j = true -> C i j = true) ->
  any2 n C = false -> count2 n B = 0%nat.
Proof.
  intros HBC. unfold any2, count2.
  assert (G : forall rows cols,
             existsb (fun i => existsb (C i) cols) rows = false ->
             list_sum (map (fun i => length (filter (B i) cols)) rows) = 0%nat).
  { intros rows cols. induction rows as [|i rows IH]; simpl; [reflexivity|].
    intros H. apply orb_false_elim in H. destruct H as [Hi Hrows].
    rewrite (IH Hrows), Nat.add_0_r.
    clear IH Hrows. induction cols as [|j l IHl]; simpl; [reflexivity|].
    simpl in Hi. apply orb_false_elim in Hi. destruct Hi as [Hj Hl].
    destruct (B i j) eqn:Eb; [rewrite (HBC i j Eb) in Hj; discriminate|].
    exact (IHl Hl). }
  apply G.
Qed.

(** X8.  On grids of the packer's size the support score of
    [PythonBinPacker] and that of the JavaScript port are computed from the
    same two counts.  They return the same score whenever the placement
    raises a cell; when it raises none, Python returns 1 and the port
    returns 0. *)
Theorem port_support_score_differs_only_without_new_cell
  (self : PythonBinPacker.t) (h a : ndarray Q) :
  square (PythonBinPacker.grid_size self) h ->
  square (PythonBinPacker.grid_size self) a ->
  exists s : Q,
    DeepPack3DModel.calculateSupportScore h a = Return s
    /\ PythonBinPacker._calculate_support_score self h a
       = Return (if any2 (PythonBinPacker.grid_size self) (new_cell h a)
                 then s else 1)
    /\ (any2 (PythonBinPacker.grid_size self) (new_cell h a) = false -> s = 0).
Proof.
  intros Hh Ha. set (n := PythonBinPacker.grid_size self) in *.
  exists (support_of_counts (count2 n (supported_cell n h a))
            (count2 n (base_cell n h a))).
  split; [exact (js_support_value n h a Hh Ha)|].
  split; [exact (python_support_value self h a Hh Ha)|].
  intros Hnone. unfold support_of_counts.
  rewrite (count2_none n (base_cell n h a) (new_cell h a)
             (base_is_new n h a) Hnone).
  reflexivity.
Qed.

Lemma port_support_score_differs_only_without_new_cell_witness :
  (square (PythonBinPacker.grid_size packer) empty_32
   /\ square (PythonBinPacker.grid_size packer) stack_3x3)
  /\ exists s : Q,
       DeepPack3DModel.calculateSupportScore empty_32 stack_3x3 = Return s
       /\ PythonBinPacker._calculate_support_score packer empty_32 stack_3x3
          = Return (if any2 (PythonBinPacker.grid_size packer)
                         (new_cell empty_32 stack_3x3)
                    then s else 1)
       /\ (any2 (PythonBinPacker.grid_size packer) (new_cell empty_32 stack_3x3)
           = false -> s = 0).
Proof.
  destruct square_stack_3x3 as [Sa Sh].
  split; [split; assumption|].
  apply (port_support_score_differs_only_without_new_cell
           packer empty_32 stack_3x3 Sh Sa).
Defined.

(** ** The compactness of the port *)

Lemma bounding_box_unique (a : ndarray Q) (mi Mi mj Mj mi' Mi' mj' Mj' : nat) :
  is_bounding_box a mi Mi mj Mj -> is_bounding_box a mi' Mi' mj' Mj' ->
  mi = mi' /\ Mi = Mi' /\ mj = mj' /\ Mj = Mj'.
Proof.
  intros (H & [j1 A1] & [j2 A2] & [i3 A3] & [i4 A4])
         (H' & [j1' B1] & [j2' B2] & [i3' B3] & [i4' B4]).
  pose proof (H _ _ B1). pose proof (H _ _ B2).
  pose proof (H _ _ B3). pose proof (H _ _ B4).
  pose proof (H' _ _ A1). pose proof (H' _ _ A2).
  pose proof (H' _ _ A3). pose proof (H' _ _ A4).
  lia.
Qed.

Lemma is_max_unique (a : ndarray Q) (m m' : Q) :
  is_max a m -> is_max a m' -> m == m'.
Proof.
  intros [I1 L1] [I2 L2]. apply Qle_antisym; [apply L2|apply L1]; assumption.
Qed.

Lemma positive_part_sum (a : ndarray Q) :
  nonneg_grid a -> np_sum (np_map positive_part a) == np_sum a.
Proof.
  intros Hnn. unfold np_sum, np_map, flat. rewrite <- concat_map.
  rewrite <- (map_id (concat a)) at 2.
  apply Qsum_map_ext. intros x Hx. unfold positive_part.
  destruct (Qgtb x 0) eqn:E; [reflexivity|].
  apply Qgtb_le in E. pose proof (Hnn x Hx). lra.
Qed.

Lemma js_box_step_tight (n : nat) (a : ndarray Q) (i j : nat)
  (st st' : DeepPack3DModel.bbox) :
  square n a -> (i < n)%nat -> (j < n)%nat -> box_tight n a st ->
  (x <- DeepPack3DModel.get2 a i j ;;
   if DeepPack3DModel.gt x (Some 0) then
     Return {| DeepPack3DModel.minI := Nat.min (DeepPack3DModel.minI st) i;
               DeepPack3DModel.maxI := Nat.max (DeepPack3DModel.maxI st) i;
               DeepPack3DModel.minJ := Nat.min (DeepPack3DModel.minJ st) j;
               DeepPack3DModel.maxJ := Nat.max (DeepPack3DModel.maxJ st) j;
               DeepPack3DModel.occupiedVolume :=
                 DeepPack3DModel.occupiedVolume st
                 + match x with Some v => v | None => 0 end;
               DeepPack3DModel.hasOccupied := true |}
   else Return st) = Return st' ->
  box_tight n a st'.
Proof.
  intros Hs Hi Hj [T0 T1].
  rewrite (js_get2_at2 n a i j Hs Hi Hj). cbn [bind DeepPack3DModel.gt].
  destruct (Qgtb (at2 0 a i j) 0) eqn:Eg.
  - intros H. injection H as <-.
    assert (Hp : positive_at a i j).
    { exists (at2 0 a i j). split; [apply (getitem2_at2 0 n); assumption|].
      apply Qgtb_gt. exact Eg. }
    split; cbn; [discriminate|]. intros _.
    destruct (DeepPack3DModel.hasOccupied st) eqn:Eo.
    + destruct (T1 eq_refl) as (A1 & A2 & A3 & A4).
      split; [|split; [|split]].
      * destruct (Nat.min_spec (DeepPack3DModel.minI st) i) as [[_ ->]|[_ ->]];
          [exact A1|exists j; exact Hp].
      * destruct (Nat.max_spec (DeepPack3DModel.maxI st) i) as [[_ ->]|[_ ->]];
          [exists j; exact Hp|exact A2].
      * destruct (Nat.min_spec (DeepPack3DModel.minJ st) j) as [[_ ->]|[_ ->]];
          [exact A3|exists i; exact Hp].
      * destruct (Nat.max_spec (DeepPack3DModel.maxJ st) j) as [[_ ->]|[_ ->]];
          [exists i; exact Hp|exact A4].
    + destruct (T0 eq_refl) as (-> & -> & -> & ->).
      rewrite !Nat.min_r, !Nat.max_r by lia.
      split; [|split; [|split]]; solve [exists j; exact Hp | exists i; exact Hp].
  - intros H. injection H as <-. split; assumption.
Qed.

Lemma compactness_agree (n : nat) (a : ndarray Q) :
  square n a -> (0 < n)%nat -> nonneg_grid a ->
  exists c c' : Q,
    PythonBinPacker._calculate_compactness a = Return c
    /\ DeepPack3DModel.calculateCompactness a = Return c'
    /\ c == c'.
Proof.
  intros Hs Hn Hnn.
  assert (Hlen : length a = n) by (destruct Hs; assumption).
  unfold DeepPack3DModel.calculateCompactness, PythonBinPacker._calculate_compactness.
  destruct (DeepPack3DModel.row_length a 0) as [n0|] eqn:E0;
    rewrite (js_row_length n a 0 Hs Hn) in E0; [|discriminate].
  injection E0 as <-. cbn [bind].
  destruct (compactness_loops a
              {| DeepPack3DModel.minI := length a; DeepPack3DModel.maxI := 0;
                 DeepPack3DModel.minJ := n; DeepPack3DModel.maxJ := 0;
                 DeepPack3DModel.occupiedVolume := 0;
                 DeepPack3DModel.hasOccupied := false |})
    as (st & E & HV & Hbox & Hocc); [reflexivity|reflexivity|].
  assert (T : box_tight n a st).
  { refine (for_each_keeps (box_tight n a) _ _ _ _ _ _ E).
    - intros i s s' Hi Ps Hb. apply in_range in Hi. rewrite Hlen in Hi.
      rewrite (js_row_length n a i Hs Hi) in Hb. cbn [bind] in Hb.
      refine (for_each_keeps (box_tight n a) _ _ _ _ _ Ps Hb).
      intros j t t' Hj Pt Ht. apply in_range in Hj.
      exact (js_box_step_tight n a i j t t' Hs Hi Hj Pt Ht).
    - split; cbn; [intros _; repeat split; assumption|discriminate]. }
  rewrite E. cbn [bind].
  assert (Hin : forall i j x, getitem2 a i j = Return x -> 0 < x ->
                  DeepPack3DModel.hasOccupied st = true
                  /\ (DeepPack3DModel.minI st <= i <= DeepPack3DModel.maxI st)%nat
                  /\ (DeepPack3DModel.minJ st <= j <= DeepPack3DModel.maxJ st)%nat).
  { intros i j x Hx Hp. apply (Hbox i j x); [|exact Hx|exact Hp].
    apply getitem2_row in Hx as (row & Hr & _).
    apply nth_error_Some. rewrite Hr. discriminate. }
  destruct (DeepPack3DModel.hasOccupied st) eqn:Eo; cbn [negb].
  - destruct (Hocc eq_refl) as (i0 & j0 & Hpos).
    destruct (compactness_value a i0 j0 Hpos)
      as (mi & Mi & mj & Mj & m & Hbb & Hmax & Hvol & Epy).
    rewrite Epy. cbn [try_except].
    destruct Hpos as (x0 & Hx0 & Hp0).
    destruct (DeepPack3DModel.max_flat (Some a)) as [m'|] eqn:Em; cbn [bind].
    + pose proof (max_flat_spec a m' Em) as Hmax'.
      pose proof (is_max_unique a m m' Hmax Hmax') as Hmm.
      destruct T as [_ T1]. destruct (T1 Eo) as (A1 & A2 & A3 & A4).
      assert (Hjs : is_bounding_box a (DeepPack3DModel.minI st)
                      (DeepPack3DModel.maxI st) (DeepPack3DModel.minJ st)
                      (DeepPack3DModel.maxJ st)).
      { split; [|repeat split; assumption].
        intros i j (x & Hx & Hp). apply (Hin i j x Hx Hp). }
      destruct (bounding_box_unique a _ _ _ _ _ _ _ _ Hbb Hjs)
        as (-> & -> & -> & ->).
      set (box := bbox_area (DeepPack3DModel.minI st) (DeepPack3DModel.maxI st)
                    (DeepPack3DModel.minJ st) (DeepPack3DModel.maxJ st)) in *.
      assert (Hvol' : 0 < box * m') by (rewrite <- Hmm; exact Hvol).
      apply Qgtb_gt in Hvol'. rewrite Hvol'.
      eexists. eexists. split; [reflexivity|]. split; [reflexivity|].
      rewrite HV, (positive_part_sum a Hnn), Hmm. reflexivity.
    + exfalso. unfold DeepPack3DModel.max_flat in Em.
      pose proof (getitem2_In _ _ _ _ Hx0) as Hf.
      destruct (flat a); [destruct Hf|discriminate].
  - assert (Ea : np_any (np_map (fun x => Qgtb x 0) a) = false).
    { destruct (np_any (np_map (fun x => Qgtb x 0) a)) eqn:Ea; [|reflexivity].
      apply np_any_positive in Ea as (i & j & x & Hx & Hp).
      destruct (Hin i j x Hx Hp) as [H _]. discriminate. }
    unfold PythonBinPacker._calculate_compactness_body. cbv zeta.
    rewrite Ea. cbn [negb try_except].
    exists 0, 0. split; [reflexivity|]. split; reflexivity.
Qed.

(** X9.  On a grid of [n] x [n] cells none of which is negative ([n] not
    zero), [_calculate_compactness] of [PythonBinPacker] and
    [calculateCompactness] of the JavaScript port both return, and they
    return the same number. *)
Theorem port_compactness_agrees (n : nat) (a : ndarray Q) :
  square n a -> (0 < n)%nat -> nonneg_grid a ->
  exists c c' : Q,
    PythonBinPacker._calculate_compactness a = Return c
    /\ DeepPack3DModel.calculateCompactness a = Return c'
    /\ c == c'.
Proof. exact (compactness_agree n a). Qed.


Lemma port_compactness_agrees_witness :
  (square 32 stack_3x3 /\ (0 < 32)%nat /\ nonneg_grid stack_3x3)
  /\ exists c c' : Q,
       PythonBinPacker._calculate_compactness stack_3x3 = Return c
       /\ DeepPack3DModel.calculateCompactness stack_3x3 = Return c'
       /\ c == c'.
Proof.
  assert (S : square 32 stack_3x3) by apply square_rect_map.
  assert (N : (0 < 32)%nat) by lia.
  assert (G : nonneg_grid stack_3x3).
  { intros x Hx. apply In_flat_rect_map in Hx as [->| ->]; lra. }
  split; [split; [|split]; assumption|].
  apply (port_compactness_agrees 32 stack_3x3 S N G).
Defined.

(** ** The best fit *)

Lemma best_fit_value (x : nat) (l : list nat) (avg : Q) :
  0 < avg ->
  PythonBinPacker.best_fit (x :: l) avg
  == (if Qltb (Qabs (Q_of_nat (max_area_of x l) - avg)) avg
      then 1 - Qabs (Q_of_nat (max_area_of x l) - avg) / avg
      else 0).
Proof.
  intros Havg. unfold PythonBinPacker.best_fit. cbv zeta.
  set (d := Qabs (Q_of_nat (max_area_of x l) - avg)).
  destruct (Qeq_bool avg 0) eqn:E0.
  { apply Qeq_bool_eq in E0. lra. }
  unfold py_min, py_max.
  destruct (Qltb d avg) eqn:Ed.
  - apply Qltb_lt in Ed.
    assert (Hq : d / avg < 1).
    { apply Qlt_shift_div_r; [exact Havg|]. lra. }
    apply Qltb_lt in Hq. rewrite Hq. apply Qltb_lt in Hq.
    assert (Hg : Qgtb (1 - d / avg) 0 = true) by (apply Qgtb_gt; lra).
    rewrite Hg. reflexivity.
  - apply Qltb_ge in Ed.
    assert (Hq : 1 <= d / avg).
    { apply Qle_shift_div_l; [exact Havg|]. lra. }
    destruct (Qltb (d / avg) 1) eqn:E1.
    + apply Qltb_lt in E1. lra.
    + destruct (Qgtb (1 - 1) 0) eqn:E2; [|reflexivity].
      apply Qgtb_gt in E2. lra.
Qed.

(** X10.  The best-fit term of the future-items score compares the largest
    flat area, a number of cells, with the average volume of the upcoming
    items.  For an average above zero it is 1 exactly when the two numbers
    are equal, and it is above 0 exactly when the area is above zero and
    below twice the average; the port computes the same term. *)
Theorem best_fit_extremes (x : nat) (l : list nat) (avg : Q) :
  0 < avg ->
  (PythonBinPacker.best_fit (x :: l) avg == 1
   <-> Q_of_nat (max_area_of x l) == avg)
  /\ (0 < PythonBinPacker.best_fit (x :: l) avg
      <-> 0 < Q_of_nat (max_area_of x l) < 2 * avg)
  /\ DeepPack3DModel.bestFit (x :: l) avg = PythonBinPacker.best_fit (x :: l) avg.
Proof.
  intros Havg. pose proof (best_fit_value x l avg Havg) as V.
  set (M := Q_of_nat (max_area_of x l)) in *.
  set (b := PythonBinPacker.best_fit (x :: l) avg) in *.
  assert (Hq : forall d, d / avg == 0 <-> d == 0).
  { intros d. split; intros H.
    - assert (K : d == d / avg * avg) by (field; lra). rewrite K, H. lra.
    - rewrite H. field. lra. }
  assert (Hpos : forall d, d < avg -> d / avg < 1).
  { intros d H. apply Qlt_shift_div_r; [exact Havg|]. lra. }
  destruct (Qltb (Qabs (M - avg)) avg) eqn:Ed.
  - apply Qltb_lt in Ed. pose proof (Hpos _ Ed) as H1.
    split; [|split; [|reflexivity]].
    + split; intros H.
      * assert (K : Qabs (M - avg) / avg == 0) by lra.
        apply (proj1 (Hq _)) in K. revert K. apply Qabs_case; intros; lra.
      * assert (K : Qabs (M - avg) == 0).
        { rewrite H. setoid_replace (avg - avg) with 0 by ring. reflexivity. }
        apply (proj2 (Hq _)) in K. lra.
    + split; intros _.
      * revert Ed. apply Qabs_case; intros; lra.
      * lra.
  - apply Qltb_ge in Ed.
    split; [|split; [|reflexivity]].
    + split; intros H; [lra|].
      assert (K : Qabs (M - avg) == 0).
      { rewrite H. setoid_replace (avg - avg) with 0 by ring. reflexivity. }
      lra.
    + split; intros H; [lra|].
      revert Ed. apply Qabs_case; intros; lra.
Qed.

Lemma best_fit_extremes_witness :
  0 < 9
  /\ (PythonBinPacker.best_fit [9%nat] 9 == 1
      <-> Q_of_nat (max_area_of 9 []) == 9)
  /\ (0 < PythonBinPacker.best_fit [9%nat] 9
      <-> 0 < Q_of_nat (max_area_of 9 []) < 2 * 9)
  /\ DeepPack3DModel.bestFit [9%nat] 9 = PythonBinPacker.best_fit [9%nat] 9.
Proof.
  assert (H : 0 < 9) by lra.
  split; [exact H|]. apply (best_fit_extremes 9 [] 9 H).
Defined.

(** ** The terms of the fallback of [model_server.py] *)

Lemma zip_same_andb_count_r (r1 r2 r : list bool) :
  zip_same (fun x y => Return (x && y)%bool) r1 r2 = Return r ->
  (length (filter (fun b => b) r) <= length (filter (fun b => b) r2))%nat.
Proof.
  revert r2 r. induction r1 as [|x r1 IH]; intros [|y r2] r; simpl;
    try discriminate.
  - intros H. injection H as <-. simpl. lia.
  - destruct (zip_same (fun x y => Return (x && y)%bool) r1 r2) as [r'|] eqn:E;
      simpl; [|discriminate].
    intros H. injection H as <-. specialize (IH r2 r' E).
    destruct x, y; simpl; lia.
Qed.

Lemma np_map2_andb_count_r (bm close sm : ndarray bool) :
  np_map2 andb bm close = Return sm -> (np_count sm <= np_count close)%nat.
Proof.
  unfold np_map2, np_count, flat.
  revert close sm. induction bm as [|r1 bm IH]; intros [|r2 close] sm; simpl;
    try discriminate.
  - intros H. injection H as <-. simpl. lia.
  - destruct (zip_same (fun x y => Return (x && y)%bool) r1 r2) as [r|] eqn:E1;
      simpl; [|discriminate].
    destruct (zip_same (zip_same (fun x y => Return (x && y)%bool)) bm close)
      as [m|] eqn:E2; simpl; [|discriminate].
    intros H. injection H as <-. simpl.
    rewrite !filter_app, !length_app.
    pose proof (zip_same_andb_count_r r1 r2 r E1).
    pose proof (IH close m E2). lia.
Qed.

Lemma ratio_below_one (s b : nat) :
  (s <= b)%nat ->
  0 <= Q_of_nat s / (Q_of_nat b + (1 # 1000000))
  /\ Q_of_nat s / (Q_of_nat b + (1 # 1000000)) < 1.
Proof.
  intros Hsb. pose proof (Q_of_nat_nonneg s) as H0.
  pose proof (Q_of_nat_nonneg b) as H1. pose proof (Q_of_nat_le s b Hsb) as H2.
  split.
  - apply Qdiv_nonneg; lra.
  - apply Qlt_shift_div_r; lra.
Qed.

Lemma zip_same_returns {A B C : Type} (f : A -> B -> C) (l1 : list A)
  (l2 : list B) :
  length l1 = length l2 ->
  exists r, zip_same (fun x y => Return (f x y)) l1 l2 = Return r.
Proof.
  revert l2. induction l1 as [|x l1 IH]; intros [|y l2] H; simpl in *;
    try discriminate.
  - exists []. reflexivity.
  - destruct (IH l2) as [r E]; [lia|]. rewrite E. eexists. reflexivity.
Qed.

Lemma np_map2_returns {A B C : Type} (f : A -> B -> C) (a : ndarray A)
  (b : ndarray B) :
  same_shape a b -> exists m, np_map2 f a b = Return m.
Proof.
  unfold np_map2. induction 1 as [|r1 r2 a b Hr _ [m E]]; simpl.
  - exists []. reflexivity.
  - destruct (zip_same_returns f r1 r2 Hr) as [r Er]. rewrite Er, E.
    eexists. reflexivity.
Qed.

Lemma same_shape_map {A B A' B' : Type} (p : A -> A') (q : B -> B')
  (a : ndarray A) (b : ndarray B) :
  same_shape a b -> same_shape (np_map p a) (np_map q b).
Proof.
  unfold same_shape, np_map. induction 1 as [|r1 r2 a b Hr _ IH]; simpl.
  - constructor.
  - constructor; [rewrite !length_map; exact Hr|exact IH].
Qed.

Lemma same_shape_sym {A B : Type} (a : ndarray A) (b : ndarray B) :
  same_shape a b -> same_shape b a.
Proof.
  unfold same_shape. induction 1; constructor; [symmetry|]; assumption.
Qed.

(** X11.  On grids of the same shape the compactness term and the support
    term of the fallback both return.  The compactness term lies in the
    interval from 0 to 1, the upper end left out: the cells counted above
    the line are among those counted below it, and 1e-6 is added below the
    line.  The support term is not negative. *)
Theorem fallback_terms_range (h a : ndarray Q) :
  same_shape h a ->
  exists c s : Q,
    model_server.compactness h a = Return c
    /\ model_server.support_score h a = Return s
    /\ 0 <= c < 1 /\ 0 <= s.
Proof.
  intros Hsh. unfold model_server.compactness, model_server.support_score.
  cbv zeta.
  destruct (np_map2_returns andb _ _
              (same_shape_map (fun x => Qgtb x 0) (fun x => Qgtb x 0) h a Hsh))
    as [both E].
  destruct (np_map2_returns Qgtb a h (same_shape_sym h a Hsh)) as [area Ea].
  destruct (np_map2_returns (fun a0 h0 => Qltb (Qabs (a0 - h0)) (1 # 100)) a h
              (same_shape_sym h a Hsh)) as [sup Es].
  rewrite E, Ea, Es. cbn [bind].
  eexists. eexists. split; [reflexivity|]. split; [reflexivity|]. split.
  - apply ratio_below_one. exact (np_map2_andb_count_r _ _ _ E).
  - pose proof (Q_of_nat_nonneg (np_count sup)).
    pose proof (Q_of_nat_nonneg (np_count area)).
    apply Qdiv_nonneg; lra.
Qed.

Lemma fallback_terms_range_witness :
  same_shape [[1; 0]; [0; 2]] [[1; 1]; [0; 2]]
  /\ exists c s : Q,
       model_server.compactness [[1; 0]; [0; 2]] [[1; 1]; [0; 2]] = Return c
       /\ model_server.support_score [[1; 0]; [0; 2]] [[1; 1]; [0; 2]] = Return s
       /\ 0 <= c < 1 /\ 0 <= s.
Proof.
  assert (S : same_shape [[1; 0]; [0; 2]] [[1; 1]; [0; 2]])
    by (repeat constructor).
  split; [exact S|].
  apply (fallback_terms_range [[1; 0]; [0; 2]] [[1; 1]; [0; 2]] S).
Defined.

Lemma zip_same_diag {A C : Type} (f : A -> A -> C) (l : list A) :
  zip_same (fun x y => Return (f x y)) l l = Return (map (fun x => f x x) l).
Proof.
  induction l as [|x l IH]; simpl; [reflexivity|]. rewrite IH. reflexivity.
Qed.

Lemma np_map2_diag {A C : Type} (f : A -> A -> C) (g : ndarray A) :
  np_map2 f g g = Return (np_map (fun x => f x x) g).
Proof.
  unfold np_map2, np_map.
  induction g as [|row g IH]; simpl; [reflexivity|].
  rewrite zip_same_diag. cbn [bind]. rewrite IH. reflexivity.
Qed.

Lemma np_count_const {A : Type} (f : A -> bool) (b : bool) (g : ndarray A) :
  (forall x, f x = b) ->
  np_count (np_map f g) = if b then length (flat g) else 0%nat.
Proof.
  intros Hf. unfold np_count, np_map, flat. rewrite <- concat_map.
  induction (concat g) as [|x l IH]; simpl; [destruct b; reflexivity|].
  rewrite Hf. destruct b; simpl; rewrite IH; reflexivity.
Qed.

(** X12.  For a placement that changes nothing (the action map is the
    height map) the support term of the fallback is one million times the
    number of cells: no cell counts below the line, every cell above it. *)
Theorem fallback_support_of_unchanged_map (g : ndarray Q) :
  exists s : Q,
    model_server.support_score g g = Return s
    /\ s == 1000000 * Q_of_nat (length (flat g)).
Proof.
  unfold model_server.support_score. rewrite !np_map2_diag. cbn [bind].
  rewrite (np_count_const (fun x => Qgtb x x) false).
  2:{ intros x. apply Qgtb_le. lra. }
  rewrite (np_count_const (fun x => Qltb (Qabs (x - x)) (1 # 100)) true).
  2:{ intros x. apply Qltb_lt. setoid_replace (x - x) with 0 by ring.
      reflexivity. }
  eexists. split; [reflexivity|].
  unfold Q_of_nat at 2. simpl (inject_Z (Z.of_nat 0)). field.
Qed.

(** ** Padding the lookahead *)

Lemma future_sizes_padded (L1 P L2 : list (list Q)) :
  Forall skipped_item P ->
  PythonBinPacker.future_sizes (L1 ++ P ++ L2)
  = PythonBinPacker.future_sizes (L1 ++ L2).
Proof.
  intros HP. induction L1 as [|item L1 IH].
  - cbn [app]. induction HP as [|item P (x & y & z & -> & Hs) _ IHP];
      [reflexivity|].
    cbn [app]. cbn [PythonBinPacker.future_sizes Qsum fold_right].
    replace (Qgtb (x + (y + (z + 0))) 0) with false; [exact IHP|].
    symmetry. apply Qgtb_le. lra.
  - cbn [app PythonBinPacker.future_sizes]. rewrite IH. reflexivity.
Qed.

Lemma futureItemsSizes_padded (L1 P L2 : list (list Q)) :
  Forall skipped_item P ->
  DeepPack3DModel.futureItemsSizes (L1 ++ P ++ L2)
  = DeepPack3DModel.futureItemsSizes (L1 ++ L2).
Proof.
  intros HP. induction L1 as [|item L1 IH].
  - cbn [app]. induction HP as [|item P (x & y & z & -> & Hs) _ IHP];
      [reflexivity|].
    cbn [app DeepPack3DModel.futureItemsSizes].
    replace (Qgtb (x + y + z) 0) with false; [exact IHP|].
    symmetry. apply Qgtb_le. exact Hs.
  - cbn [app DeepPack3DModel.futureItemsSizes]. rewrite IH. reflexivity.
Qed.

Lemma length_eqb_0 {A : Type} (l : list A) :
  l <> [] -> (length l =? 0)%nat = false.
Proof. destruct l; [congruence|reflexivity]. Qed.

(** X13.  Padding does not change the future-items score of a lookahead
    that holds an item: with triples whose sum is not above zero (the
    all-zero triple is one) put in at any place, [_evaluate_future_items]
    returns what it returns without them, and so does the port. *)
Theorem padding_keeps_future_items_score (exp sqrt : Q -> Q) (limit : nat)
  (self : PythonBinPacker.t) (a : ndarray Q) (L1 P L2 : list (list Q)) :
  L1 ++ L2 <> [] -> Forall skipped_item P ->
  PythonBinPacker._evaluate_future_items exp sqrt limit self a (L1 ++ P ++ L2)
  = PythonBinPacker._evaluate_future_items exp sqrt limit self a (L1 ++ L2)
  /\ DeepPack3DModel.evaluateFutureItems exp sqrt limit a (Some (L1 ++ P ++ L2))
     = DeepPack3DModel.evaluateFutureItems exp sqrt limit a (Some (L1 ++ L2)).
Proof.
  intros HL HP.
  assert (HL' : L1 ++ P ++ L2 <> []).
  { intros E. apply HL. apply app_eq_nil in E as [-> E].
    apply app_eq_nil in E as [_ ->]. reflexivity. }
  unfold PythonBinPacker._evaluate_future_items,
    PythonBinPacker._evaluate_future_items_body,
    DeepPack3DModel.evaluateFutureItems.
  rewrite (length_eqb_0 _ HL), (length_eqb_0 _ HL').
  rewrite (future_sizes_padded L1 P L2 HP), (futureItemsSizes_padded L1 P L2 HP).
  split; reflexivity.
Qed.

Lemma padding_keeps_future_items_score_witness :
  ([[1; 1; 1]] ++ [] <> [] /\ Forall skipped_item [[0; 0; 0]; [0; 0; 0]])
  /\ PythonBinPacker._evaluate_future_items exp_standin sqrt_standin 1000 packer
       stack_3x3 ([[1; 1; 1]] ++ [[0; 0; 0]; [0; 0; 0]] ++ [])
     = PythonBinPacker._evaluate_future_items exp_standin sqrt_standin 1000 packer
         stack_3x3 ([[1; 1; 1]] ++ [])
  /\ DeepPack3DModel.evaluateFutureItems exp_standin sqrt_standin 1000 stack_3x3
       (Some ([[1; 1; 1]] ++ [[0; 0; 0]; [0; 0; 0]] ++ []))
     = DeepPack3DModel.evaluateFutureItems exp_standin sqrt_standin 1000 stack_3x3
         (Some ([[1; 1; 1]] ++ [])).
Proof.
  assert (HL : [[1; 1; 1]] ++ [] <> ([] : list (list Q))) by discriminate.
  assert (HP : Forall skipped_item [[0; 0; 0]; [0; 0; 0]]).
  { repeat constructor; exists 0, 0, 0; (split; [reflexivity|lra]). }
  split; [split; assumption|].
  apply (padding_keeps_future_items_score exp_standin sqrt_standin 1000 packer
           stack_3x3 [[1; 1; 1]] [[0; 0; 0]; [0; 0; 0]] [] HL HP).
Defined.

(** ** What the flat areas add up to *)

Lemma filter_length_mono {A : Type} (B B' : A -> bool) (l : list A) :
  (forall x, In x l -> B x = true -> B' x = true) ->
  (length (filter B l) <= length (filter B' l))%nat.
Proof.
  induction l as [|x l IH]; intros H; simpl; [lia|].
  assert (IH' : (length (filter B l) <= length (filter B' l))%nat).
  { apply IH. intros y Hy. apply H. right. exact Hy. }
  destruct (B x) eqn:E.
  - rewrite (H x (or_introl eq_refl) E). simpl. lia.
  - destruct (B' x); simpl; lia.
Qed.

Lemma list_sum_map_le {A : Type} (f g : A -> nat) (l : list A) :
  (forall x, In x l -> (f x <= g x)%nat) ->
  (list_sum (map f l) <= list_sum (map g l))%nat.
Proof.
  induction l as [|x l IH]; intros H; simpl; [lia|].
  pose proof (H x (or_introl eq_refl)).
  assert ((list_sum (map f l) <= list_sum (map g l))%nat).
  { apply IH. intros y Hy. apply H. right. exact Hy. }
  lia.
Qed.

Lemma count2_le (n : nat) (B B' : nat -> nat -> bool) :
  (forall i j, (i < n)%nat -> (j < n)%nat -> B i j = true -> B' i j = true) ->
  (count2 n B <= count2 n B')%nat.
Proof.
  intros H. unfold count2. apply list_sum_map_le. intros i Hi.
  apply in_range in Hi. apply filter_length_mono. intros j Hj.
  apply in_range in Hj. apply H; assumption.
Qed.

Lemma scan_marks_high_cells (limit : nat) (self : PythonBinPacker.t)
  (height_map : ndarray Q) (st : ndarray bool * list nat) :
  square (PythonBinPacker.grid_size self) height_map ->
  (forall i j,
      (i < PythonBinPacker.grid_size self)%nat ->
      (j < PythonBinPacker.grid_size self)%nat ->
      0 < at2 0 height_map i j -> 1 # 10 < at2 0 height_map i j) ->
  PythonBinPacker.flat_area_scan limit self height_map = Return st ->
  forall i j,
    (i < PythonBinPacker.grid_size self)%nat ->
    (j < PythonBinPacker.grid_size self)%nat ->
    at2 false (fst st) i j = true -> 0 < at2 0 height_map i j.
Proof.
  intros Hh Hlow Es. set (n := PythonBinPacker.grid_size self) in *.
  unfold PythonBinPacker.flat_area_scan in Es. fold n in Es.
  set (P := fun st : ndarray bool * list nat =>
              square n (fst st)
              /\ forall i j, (i < n)%nat -> (j < n)%nat ->
                             at2 false (fst st) i j = true ->
                             0 < at2 0 height_map i j).
  refine (proj2 (for_each_keeps P _ _ _ _ _ _ Es)).
  - intros i s s' Hi Ps Hb. apply in_range in Hi.
    refine (for_each_keeps P _ _ _ _ _ Ps Hb).
    intros j t t' Hj [Sqt Pt] Ht. apply in_range in Hj.
    unfold PythonBinPacker.flat_area_step in Ht.
    rewrite !(getitem2_at2 0 n height_map i j Hh Hi Hj) in Ht. cbn [bind] in Ht.
    destruct (Qgtb (at2 0 height_map i j) 0) eqn:Epos.
    + rewrite (getitem2_at2 false n (fst t) i j Sqt Hi Hj) in Ht.
      cbn [bind] in Ht.
      destruct (at2 false (fst t) i j) eqn:Ev; cbn [negb bind] in Ht.
      * injection Ht as <-. split; assumption.
      * pose proof (flood_fill_spec self height_map (at2 0 height_map i j)
                      (1 # 10) Hh limit (fst t) (Z.of_nat i) (Z.of_nat j) Sqt)
          as F.
        fold n in F.
        destruct (PythonBinPacker._flood_fill self limit height_map (fst t)
                    (Z.of_nat i) (Z.of_nat j) (at2 0 height_map i j) (1 # 10))
          as [r|e]; cbn [bind] in Ht; [|discriminate].
        simpl in F. destruct F as (S1 & _ & K & Tol).
        assert (Pr : forall areas, P (fst r, areas)).
        { intros areas. split; [exact S1|]. intros i' j' Hi' Hj' Hm.
          cbn [fst] in Hm.
          destruct (at2 false (fst t) i' j') eqn:Eo; [apply Pt; assumption|].
          pose proof (Tol i' j' Hi' Hj' Eo Hm) as T.
          apply Qgtb_gt in Epos. pose proof (Hlow i j Hi Hj Epos) as L.
          revert T. apply Qabs_case; intros; lra. }
        destruct (0 <? snd r)%nat; injection Ht as <-; apply Pr.
    + cbn [bind] in Ht. injection Ht as <-. split; assumption.
  - split; [apply square_zeros_like; exact Hh|].
    intros i j Hi Hj Hm. cbn [fst] in Hm.
    rewrite (at2_zeros_like height_map i j) in Hm.
    discriminate.
Qed.

(** X14.  The areas [_find_flat_areas] returns for a grid of the packer's
    size add up to at least the number of cells above zero, and to at most
    the number of cells.  When no cell above zero is as low as 0.1 they add
    up to exactly the number of cells above zero; a lower seed may take
    empty cells into its area, which are within the tolerance of it. *)
Theorem flat_areas_add_up (limit : nat) (self : PythonBinPacker.t)
  (height_map : ndarray Q) (areas : list nat) :
  square (PythonBinPacker.grid_size self) height_map ->
  PythonBinPacker._find_flat_areas limit self height_map = Return areas ->
  ((count2 (PythonBinPacker.grid_size self)
      (fun i j => Qgtb (at2 0%Q height_map i j) 0%Q) <= total_area areas)%nat
   /\ (total_area areas
       <= PythonBinPacker.grid_size self * PythonBinPacker.grid_size self)%nat)
  /\ ((forall i j,
          (i < PythonBinPacker.grid_size self)%nat ->
          (j < PythonBinPacker.grid_size self)%nat ->
          0 < at2 0 height_map i j -> 1 # 10 < at2 0 height_map i j) ->
      total_area areas
      = count2 (PythonBinPacker.grid_size self)
          (fun i j => Qgtb (at2 0%Q height_map i j) 0%Q)).
Proof.
  intros Hh E. set (n := PythonBinPacker.grid_size self) in *.
  unfold PythonBinPacker._find_flat_areas in E.
  destruct (PythonBinPacker.flat_area_scan limit self height_map) as [st|] eqn:Es;
    cbn [bind] in E; [|discriminate].
  injection E as <-.
  pose proof (flat_area_scan_spec limit self height_map Hh) as S.
  rewrite Es in S. destruct S as (Sq & Tot & _). fold n in Sq.
  destruct (scan_covers_cells limit self height_map st Hh Es) as [Cov _].
  fold n in Cov.
  pose proof (np_count_tabulate n (at2 false (fst st))) as Cnt.
  rewrite <- (tabulate_at2 false n (fst st) Sq) in Cnt.
  rewrite Tot, Cnt. split; [split|].
  - apply count2_le. intros i j Hi Hj Hp. apply Cov; try assumption.
    apply Qgtb_gt. exact Hp.
  - rewrite <- Cnt. apply np_count_le. exact Sq.
  - intros Hlow. apply count2_ext. intros i j Hi Hj.
    destruct (at2 false (fst st) i j) eqn:Em.
    + symmetry. apply Qgtb_gt.
      exact (scan_marks_high_cells limit self height_map st Hh Hlow Es i j Hi Hj Em).
    + destruct (Qgtb (at2 0 height_map i j) 0) eqn:Ep; [|reflexivity].
      apply Qgtb_gt in Ep. rewrite (Cov i j Hi Hj Ep) in Em. discriminate.
Qed.

Lemma flat_areas_add_up_witness :
  (square (PythonBinPacker.grid_size packer) stack_3x3
   /\ PythonBinPacker._find_flat_areas 10 packer stack_3x3 = Return [9%nat])
  /\ ((count2 (PythonBinPacker.grid_size packer)
         (fun i j => Qgtb (at2 0%Q stack_3x3 i j) 0%Q) <= total_area [9%nat])%nat
      /\ (total_area [9%nat]
          <= PythonBinPacker.grid_size packer * PythonBinPacker.grid_size packer)%nat)
  /\ ((forall i j,
          (i < PythonBinPacker.grid_size packer)%nat ->
          (j < PythonBinPacker.grid_size packer)%nat ->
          0 < at2 0 stack_3x3 i j -> 1 # 10 < at2 0 stack_3x3 i j) ->
      total_area [9%nat]
      = count2 (PythonBinPacker.grid_size packer)
          (fun i j => Qgtb (at2 0%Q stack_3x3 i j) 0%Q)).
Proof.
  assert (S : square (PythonBinPacker.grid_size packer) stack_3x3)
    by apply square_rect_map.
  assert (E : PythonBinPacker._find_flat_areas 10 packer stack_3x3 = Return [9%nat])
    by (apply one_area_of_9; lia).
  split; [split; assumption|].
  apply (flat_areas_add_up 10 packer stack_3x3 [9%nat] S E).
Defined.

(** ** The score of the port against the score of [PythonBinPacker] *)

Lemma max_flat_np_max (g : ndarray Q) (m : Q) :
  DeepPack3DModel.max_flat (Some g) = Return m -> np_max g = Return m.
Proof.
  unfold DeepPack3DModel.max_flat, np_max.
  destruct (flat g); [discriminate|]. intros H. exact H.
Qed.

(** X15.  For square grids of the packer's size without a negative cell
    and a lookahead of triples without a negative component: when
    [calculateHeuristic] of the port returns with some number of frames for
    the flood fill, [predict] of [PythonBinPacker] with that number of
    frames or more returns the weighted sum of its five sub-scores, and
    the score of the port is made of the same height utilisation, support,
    compactness and future-items scores with the weights 0.3, 0.4, 0.2 and
    0.1, the support score counting as 0 when the placement raises no
    cell. *)
Theorem port_score_against_python (exp sqrt : Q -> Q) (port_limit limit : nat)
  (self : PythonBinPacker.t) (const_in hrest arest : list (ndarray Q))
  (h a : ndarray Q) (L : list (list Q)) (Lrest : list (list (list Q))) (q' : Q) :
  well_shaped_input (PythonBinPacker.grid_size self) h a L ->
  (0 < PythonBinPacker.grid_size self)%nat ->
  (port_limit <= limit)%nat ->
  DeepPack3DModel.calculateHeuristic exp sqrt port_limit const_in
    (h :: hrest) (a :: arest) (L :: Lrest) = Return q' ->
  exists m s c f : Q,
    np_max a = Return m
    /\ PythonBinPacker._calculate_support_score self h a = Return s
    /\ PythonBinPacker._calculate_compactness a = Return c
    /\ PythonBinPacker._evaluate_future_items exp sqrt limit self a L = Return f
    /\ PythonBinPacker.predict exp sqrt limit self const_in
         (h :: hrest) (a :: arest) (L :: Lrest)
       = Return ((3 # 10) * py_min 1 m
                 + (2 # 10) * py_max 0 (1 - np_var a / (1 # 4))
                 + (3 # 10) * s + (1 # 10) * c + (1 # 10) * f)
    /\ q' == (3 # 10) * py_min 1 m
             + (4 # 10) * (if any2 (PythonBinPacker.grid_size self) (new_cell h a)
                           then s else 0)
             + (2 # 10) * c + (1 # 10) * f.
Proof.
  intros (Hh & Ha & _ & Hna & HL) Hn Hle HJ.
  set (n := PythonBinPacker.grid_size self) in *.
  assert (HL3 : Forall (fun item => length item = 3%nat) L).
  { unfold nonneg_triples in HL. rewrite Forall_forall in *.
    intros item Hi. apply (HL item Hi). }
  unfold DeepPack3DModel.calculateHeuristic in HJ. cbv zeta in HJ.
  cbn [nth_error] in HJ.
  destruct (DeepPack3DModel.max_flat (Some h)) as [mh|] eqn:Emh;
    cbn [bind] in HJ; [|discriminate].
  destruct (DeepPack3DModel.max_flat (Some a)) as [m|] eqn:Em;
    cbn [bind] in HJ; [|discriminate].
  apply max_flat_np_max in Emh, Em.
  rewrite (js_support_value n h a Hh Ha) in HJ. cbn [bind] in HJ.
  destruct (compactness_agree n a Ha Hn Hna) as (c & c' & Ec & Ec' & Hcc).
  rewrite Ec' in HJ. cbn [bind] in HJ.
  destruct (DeepPack3DModel.evaluateFutureItems exp sqrt port_limit a (Some L))
    as [f|] eqn:Ejf; cbn [bind] in HJ; [|discriminate].
  pose proof (port_future_items_with_more_frames exp sqrt port_limit limit self
                a L f Ha Hn HL3 Hle Ejf) as Ef.
  injection HJ as <-.
  pose proof (python_support_value self h a Hh Ha) as Es. fold n in Es.
  exists m. eexists. exists c, f.
  split; [exact Em|]. split; [exact Es|]. split; [exact Ec|]. split; [exact Ef|].
  split.
  - unfold PythonBinPacker.predict, PythonBinPacker.predict_body.
    cbn [item0 getitem nth_error bind]. rewrite Emh, Em. cbn [bind].
    rewrite Es, Ec, Ef. reflexivity.
  - rewrite <- Hcc.
    assert (Hs0 : any2 n (new_cell h a) = false ->
                  support_of_counts (count2 n (supported_cell n h a))
                    (count2 n (base_cell n h a)) = 0).
    { intros Hnone. unfold support_of_counts.
      rewrite (count2_none n (base_cell n h a) (new_cell h a)
                 (base_is_new n h a) Hnone). reflexivity. }
    unfold DeepPack3DModel.Math_min, py_min.
    destruct (any2 n (new_cell h a)); [reflexivity|].
    rewrite (Hs0 eq_refl). reflexivity.
Qed.

Lemma port_score_against_python_witness :
  exists q' : Q,
    (well_shaped_input (PythonBinPacker.grid_size packer) empty_32 stack_3x3
       [[1; 1; 1]]
     /\ (0 < PythonBinPacker.grid_size packer)%nat
     /\ (20 <= 1000)%nat
     /\ DeepPack3DModel.calculateHeuristic exp_standin sqrt_standin 20 []
          [empty_32] [stack_3x3] [[[1; 1; 1]]] = Return q')
    /\ exists m s c f : Q,
         np_max stack_3x3 = Return m
         /\ PythonBinPacker._calculate_support_score packer empty_32 stack_3x3
            = Return s
         /\ PythonBinPacker._calculate_compactness stack_3x3 = Return c
         /\ PythonBinPacker._evaluate_future_items exp_standin sqrt_standin 1000
              packer stack_3x3 [[1; 1; 1]] = Return f
         /\ PythonBinPacker.predict exp_standin sqrt_standin 1000 packer []
              [empty_32] [stack_3x3] [[[1; 1; 1]]]
            = Return ((3 # 10) * py_min 1 m
                      + (2 # 10) * py_max 0 (1 - np_var stack_3x3 / (1 # 4))
                      + (3 # 10) * s + (1 # 10) * c + (1 # 10) * f)
         /\ q' == (3 # 10) * py_min 1 m
                  + (4 # 10) * (if any2 (PythonBinPacker.grid_size packer)
                                     (new_cell empty_32 stack_3x3)
                                then s else 0)
                  + (2 # 10) * c + (1 # 10) * f.
Proof.
  assert (W : well_shaped_input (PythonBinPacker.grid_size packer) empty_32
                stack_3x3 [[1; 1; 1]])
    by (apply well_shaped_is_input, well_shapedb_spec; vm_compute; reflexivity).
  assert (N : (0 < PythonBinPacker.grid_size packer)%nat) by (simpl; lia).
  assert (F : (20 <= 1000)%nat) by lia.
  destruct (DeepPack3DModel.calculateHeuristic exp_standin sqrt_standin 20 []
              [empty_32] [stack_3x3] [[[1; 1; 1]]]) as [q'|e] eqn:E.
  - exists q'. split; [split; [exact W|split; [exact N|split; [exact F|reflexivity]]]|].
    apply (port_score_against_python exp_standin sqrt_standin 20 1000 packer
             [] [] [] empty_32 stack_3x3 [[1; 1; 1]] [] q' W N F E).
  - exfalso. vm_compute in E. discriminate.
Defined.

(** ** The frames of the flood fill *)

Lemma flood_fill_overflows_below (self : PythonBinPacker.t)
  (height_map : ndarray Q) (target tolerance : Q) (frames frames' : nat)
  (v : ndarray bool) (i j : Z) :
  square (PythonBinPacker.grid_size self) height_map ->
  square (PythonBinPacker.grid_size self) v ->
  (frames' <= frames)%nat ->
  PythonBinPacker._flood_fill self frames height_map v i j target tolerance
  = Raise RecursionError ->
  PythonBinPacker._flood_fill self frames' height_map v i j target tolerance
  = Raise RecursionError.
Proof.
  intros Hh Hv Hle E.
  pose proof (flood_fill_spec self height_map target tolerance Hh frames' v i j Hv)
    as H.
  destruct (PythonBinPacker._flood_fill self frames' height_map v i j target
              tolerance) as [r|e] eqn:E'.
  - rewrite (flood_fill_more_frames self height_map target tolerance frames'
               frames v i j r Hle E') in E.
    discriminate.
  - simpl in H. destruct e; try contradiction. reflexivity.
Qed.

Lemma find_flat_areas_overflows_below (self : PythonBinPacker.t)
  (height_map : ndarray Q) (limit limit' : nat) (e : exn) :
  (limit' <= limit)%nat ->
  PythonBinPacker._find_flat_areas limit self height_map = Raise e ->
  exists e', PythonBinPacker._find_flat_areas limit' self height_map = Raise e'.
Proof.
  intros Hle E.
  destruct (PythonBinPacker._find_flat_areas limit' self height_map)
    as [areas|e'] eqn:E'.
  - rewrite (find_flat_areas_more_frames limit' limit self height_map areas Hle E')
      in E.
    discriminate.
  - exists e'. reflexivity.
Qed.

(** C2 (as the code has it).  [_flood_fill] is recursive.  On square grids
    enough frames give a result, and a call that starts at the head of an
    unmarked, level first column needs more frames than the grid has rows.
    The level 32 x 32 grid needs more than 1024 frames, in Python and in
    the JavaScript port: with 1024 or fewer the flood fill overflows, and
    the future-items score of [PythonBinPacker] is the 0.5 of its handler;
    with enough frames the fill counts the 1024 cells. *)
Theorem flood_fill_frames :
  (forall self height_map target tolerance v i j,
      square (PythonBinPacker.grid_size self) height_map ->
      square (PythonBinPacker.grid_size self) v ->
      exists enough, forall frames,
        (enough <= frames)%nat ->
        exists r,
          PythonBinPacker._flood_fill self frames height_map v i j target tolerance
          = Return r)
  /\ (forall self height_map target tolerance frames,
         square (PythonBinPacker.grid_size self) height_map ->
         (forall i, (i < PythonBinPacker.grid_size self)%nat ->
                    Qabs (at2 0 height_map i 0 - target) <= tolerance) ->
         (frames <= PythonBinPacker.grid_size self)%nat ->
         PythonBinPacker._flood_fill self frames height_map
           (np_zeros_like height_map) 0 0 target tolerance
         = Raise RecursionError)
  /\ (forall frames,
         (frames <= 1024)%nat ->
         PythonBinPacker._flood_fill packer frames plateau_32
           (np_zeros_like plateau_32) 0 0 1 (1 # 10) = Raise RecursionError)
  /\ (exists enough, forall frames,
         (enough <= frames)%nat ->
         exists v,
           PythonBinPacker._flood_fill packer frames plateau_32
             (np_zeros_like plateau_32) 0 0 1 (1 # 10) = Return (v, 1024%nat))
  /\ (forall exp sqrt,
         (forall frames,
             (frames <= 1024)%nat ->
             DeepPack3DModel.floodFill frames plateau_32 (np_zeros_like plateau_32)
               0 0 1 (1 # 10) = Raise RecursionError)
         /\ (exists enough, forall limit,
                (enough <= limit)%nat ->
                DeepPack3DModel.findFlatAreas limit plateau_32 = Return [1024%nat])
         /\ (forall limit,
                (limit <= 1024)%nat ->
                PythonBinPacker._evaluate_future_items exp sqrt limit packer
                  plateau_32 [[1; 1; 1]] = Return (1 # 2))).
Proof.
  assert (S1 : square (PythonBinPacker.grid_size packer) plateau_32)
    by apply square_rect_map.
  assert (S2 : square (PythonBinPacker.grid_size packer) (np_zeros_like plateau_32))
    by (apply square_zeros_like; exact S1).
  assert (Low : forall frames,
             (frames <= 1024)%nat ->
             PythonBinPacker._flood_fill packer frames plateau_32
               (np_zeros_like plateau_32) 0 0 1 (1 # 10) = Raise RecursionError).
  { intros frames Hf.
    apply (flood_fill_overflows_below packer plateau_32 1 (1 # 10) 1024 frames
             (np_zeros_like plateau_32) 0%Z 0%Z S1 S2 Hf).
    vm_compute. reflexivity. }
  split; [|split; [|split; [|split]]].
  - intros self height_map target tolerance v i j Hh Hv.
    exists (S (PythonBinPacker.grid_size self * PythonBinPacker.grid_size self)).
    intros frames Hf.
    destruct (flood_fill_returns self height_map target tolerance Hh frames v i j
                Hv ltac:(lia)) as (r & E & _).
    exists r. exact E.
  - intros self height_map target tolerance frames Hh Hlevel Hf.
    apply (flood_fill_column self height_map target tolerance Hh Hlevel)
      with (i := 0%nat).
    + apply square_zeros_like. exact Hh.
    + lia.
    + intros i' _. apply at2_zeros_like.
  - exact Low.
  - exists 1025%nat. intros frames Hf.
    assert (E : exists v,
               PythonBinPacker._flood_fill packer 1025 plateau_32
                 (np_zeros_like plateau_32) 0 0 1 (1 # 10) = Return (v, 1024%nat))
      by (eexists; vm_compute; reflexivity).
    destruct E as [v E]. exists v.
    exact (flood_fill_more_frames packer plateau_32 1 (1 # 10) 1025 frames
             (np_zeros_like plateau_32) 0%Z 0%Z (v, 1024%nat) Hf E).
  - intros exp sqrt. split; [|split].
    + intros frames Hf.
      rewrite (js_flood_fill packer plateau_32 S1 1 (1 # 10) frames
                 (np_zeros_like plateau_32) 0%Z 0%Z S2).
      exact (Low frames Hf).
    + exists 1025%nat. intros limit Hl.
      rewrite (js_find_flat_areas packer plateau_32 S1 limit)
        by (simpl; lia).
      apply (find_flat_areas_more_frames 1025 limit); [exact Hl|].
      vm_compute. reflexivity.
    + intros limit Hl.
      assert (E : PythonBinPacker._find_flat_areas 1024 packer plateau_32
                  = Raise RecursionError) by (vm_compute; reflexivity).
      destruct (find_flat_areas_overflows_below packer plateau_32 1024 limit _ Hl E)
        as [e' E'].
      unfold PythonBinPacker._evaluate_future_items,
        PythonBinPacker._evaluate_future_items_body.
      rewrite E'. reflexivity.
Qed.

Lemma flood_fill_frames_witness :
  (square 32 plateau_32 /\ square 32 (np_zeros_like plateau_32))
  /\ (exists enough, forall frames,
         (enough <= frames)%nat ->
         exists r,
           PythonBinPacker._flood_fill packer frames plateau_32
             (np_zeros_like plateau_32) 0 0 1 (1 # 10) = Return r)
  /\ ((forall i, (i < 32)%nat -> Qabs (at2 0 plateau_32 i 0 - 1) <= 1 # 10)
      /\ (32 <= 32)%nat)
  /\ PythonBinPacker._flood_fill packer 32 plateau_32 (np_zeros_like plateau_32)
       0 0 1 (1 # 10) = Raise RecursionError.
Proof.
  destruct flood_fill_frames as (A & B & _).
  assert (S1 : square 32 plateau_32) by apply square_rect_map.
  assert (S2 : square 32 (np_zeros_like plateau_32))
    by (apply square_zeros_like; exact S1).
  assert (L : forall i, (i < 32)%nat -> Qabs (at2 0 plateau_32 i 0 - 1) <= 1 # 10).
  { intros i Hi. unfold plateau_32, plateau. rewrite at2_rect_map by lia.
    replace (in_rect 0 0 32 32 i 0) with true
      by (symmetry; apply in_rect_iff; lia).
    vm_compute. discriminate. }
  split; [split; [exact S1|exact S2]|]. split.
  - exact (A packer plateau_32 1 (1 # 10) (np_zeros_like plateau_32)
             0%Z 0%Z S1 S2).
  - split; [split; [exact L|lia]|].
    exact (B packer plateau_32 1 (1 # 10) 32%nat S1 L (le_n 32)).
Defined.
